(** * College fees system: the fee ledger of [app.py]

    A shallow embedding of the Flask application [src/app.py]: the two
    SQLite tables [students] and [fees], the request handlers that write
    them ([admission], [edit_student], [delete_student], [fees]) and the
    read paths that derive balances from them ([dashboard],
    [dues_report], [student_profile], [export_dues]).

    Modelling conventions.
    - In the ledger a [REAL] or [float] value is the rational number it
      denotes ([Q]) and the operations on it are exact; a [Py.field]
      [Num q] is text that [float] reads as the finite number [q]
      ("nan", "inf" and literals that overflow are not modelled).  The
      code adds and subtracts in binary64, so a property that relates
      figures by arithmetic is stated on the rows that are summed, and
      module [B64] evaluates the same expressions in binary64.
    - Text is [string]; a character is a code point from 0 to 255 (the
      rupee sign of the receipt messages stands as its UTF-8 bytes).
      SQLite's [LIKE] reads pattern and text up to their first NUL, and
      so does [Sql.like].
    - A rowid that comes from a URL is an integer from 0 to 2^63 - 1
      ([url_id]); above that the database driver raises before the
      statement runs.
    - An uploaded photo is taken to be written without error;
      statements about the answer of a request say so when they depend
      on it.
    - A table is the list of its rows in insertion order.
    - A handler runs with a logged-in session ([login_required] passes)
      and runs alone: a request is one transition of the database.
    - [send_sms] and [send_email] are called by [app.py] but defined
      nowhere in it; they are parameters of the model. *)

From Stdlib Require Import List String Ascii Bool Arith ZArith QArith Lia Lqa.
From Stdlib Require Import Permutation Sorted DecimalString PrimFloat.
Import ListNotations.

Local Close Scope Q_scope.
Local Open Scope string_scope.

(* ------------------------------------------------------------------ *)
(** ** Python values used by the handlers *)

Module Py.

(** Truth value of a [str]: only the empty string is false. *)
Definition truthy (s : string) : bool :=
  match s with
  | "" => false
  | String _ _ => true
  end.

(** [str.isspace] on one character, for code points below 256:
    TAB..CR, FS..US, SPACE, NEL and NBSP. *)
Definition isspace (c : ascii) : bool :=
  let n := nat_of_ascii c in
  ((9 <=? n)%nat && (n <=? 13)%nat) || ((28 <=? n)%nat && (n <=? 32)%nat)
  || (n =? 133)%nat || (n =? 160)%nat.

Fixpoint lstrip (s : string) : string :=
  match s with
  | "" => ""
  | String c s' => if isspace c then lstrip s' else s
  end.

Fixpoint rstrip (s : string) : string :=
  match s with
  | "" => ""
  | String c s' =>
      match rstrip s' with
      | "" => if isspace c then "" else String c ""
      | r => String c r
      end
  end.

(** [s.strip()] *)
Definition strip (s : string) : string := rstrip (lstrip s).

(** What [float(text)] does with a form field: the field is absent or
    empty, holds the numeral of a finite number, or holds text that
    [float] rejects. *)
Inductive field : Type :=
| Blank
| Num (q : Q)
| Garbage.

Inductive exn : Type :=
| ValueError
| IntegrityError
| Exception (what : string).

(** [float(request.form['amount'])]: [float('')] raises as well. *)
Definition float (f : field) : exn + Q :=
  match f with
  | Num q => inr q
  | Blank | Garbage => inl ValueError
  end.

(** [float(request.form.get('total_fee') or 20000)] *)
Definition float_or (f : field) (default : Q) : exn + Q :=
  match f with
  | Blank => inr default
  | Num q => inr q
  | Garbage => inl ValueError
  end.

(** [x or 0] on a nullable number: [None] and [0.0] both give [0]. *)
Definition or0 (x : option Q) : Q :=
  match x with
  | None => 0%Q
  | Some q => if Qeq_bool q 0 then 0%Q else q
  end.

End Py.

(* ------------------------------------------------------------------ *)
(** ** [datetime.now().strftime] *)

Module Clock.

Record datetime : Type := mk_datetime {
  year : nat; month : nat; day : nat;
  hour : nat; minute : nat; second : nat
}.

Definition digit (n : nat) : ascii := ascii_of_nat (48 + n mod 10).

Definition pad2 (n : nat) : string :=
  String (digit (n / 10)) (String (digit n) "").

(** [%Y] for the years 1000 to 9999, where [datetime.now()] lies. *)
Definition pad4 (n : nat) : string :=
  String (digit (n / 1000)) (String (digit (n / 100))
    (String (digit (n / 10)) (String (digit n) ""))).

(** [strftime("%Y-%m")] *)
Definition fmt_month (t : datetime) : string :=
  pad4 (year t) ++ "-" ++ pad2 (month t).

(** [strftime("%Y-%m-%d")] *)
Definition fmt_day (t : datetime) : string :=
  fmt_month t ++ "-" ++ pad2 (day t).

(** [strftime("%Y-%m-%d %H:%M:%S")] *)
Definition fmt_timestamp (t : datetime) : string :=
  fmt_day t ++ " " ++ pad2 (hour t) ++ ":" ++ pad2 (minute t)
    ++ ":" ++ pad2 (second t).

(** [strftime("%Y%m%d%H%M%S")] *)
Definition fmt_compact (t : datetime) : string :=
  pad4 (year t) ++ pad2 (month t) ++ pad2 (day t)
    ++ pad2 (hour t) ++ pad2 (minute t) ++ pad2 (second t).

End Clock.

(* ------------------------------------------------------------------ *)
(** ** The SQL the handlers execute *)

Module Sql.

(** ASCII lower-casing, the only case folding [LIKE] does. *)
Definition lower (c : ascii) : ascii :=
  let n := nat_of_ascii c in
  if ((65 <=? n) && (n <=? 90))%nat then ascii_of_nat (n + 32) else c.

(** A text as [LIKE] reads it: up to its first NUL. *)
Fixpoint upto_nul (s : string) : string :=
  match s with
  | "" => ""
  | String c s' => if Ascii.eqb c Ascii.zero then "" else String c (upto_nul s')
  end.

(** The comparison of [LIKE]: [%] matches any run of characters, [_] any
    one character, every other character matches itself up to ASCII
    case. *)
Fixpoint like_chars (pattern text : string) : bool :=
  match pattern with
  | "" => match text with "" => true | _ => false end
  | String p pattern' =>
      if Ascii.eqb p "%" then
        (fix any (t : string) : bool :=
           like_chars pattern' t
           || match t with
              | "" => false
              | String _ t' => any t'
              end) text
      else
        match text with
        | "" => false
        | String c text' =>
            (Ascii.eqb p "_" || Ascii.eqb (lower p) (lower c))
            && like_chars pattern' text'
        end
  end.

(** [text LIKE pattern] *)
Definition like (pattern text : string) : bool :=
  like_chars (upto_nul pattern) (upto_nul text).

(** [SUM(x)]: [NULL] over no rows, else the total. *)
Definition SUM (xs : list Q) : option Q :=
  match xs with
  | [] => None
  | _ => Some (fold_left Qplus xs 0%Q)
  end.

Definition IFNULL (x : option Q) (d : Q) : Q :=
  match x with
  | Some q => q
  | None => d
  end.

Section OrderBy.
Context {A : Type} (key : A -> Z).

Fixpoint insert_desc (x : A) (l : list A) : list A :=
  match l with
  | [] => [x]
  | y :: l' =>
      if (key y <? key x)%Z then x :: l else y :: insert_desc x l'
  end.

(** [ORDER BY key DESC] *)
Definition order_by_desc (l : list A) : list A :=
  fold_right insert_desc [] l.

Fixpoint insert_asc (x : A) (l : list A) : list A :=
  match l with
  | [] => [x]
  | y :: l' =>
      if (key x <? key y)%Z then x :: l else y :: insert_asc x l'
  end.

(** [ORDER BY key] *)
Definition order_by (l : list A) : list A :=
  fold_right insert_asc [] l.
End OrderBy.

(** The rowid an [AUTOINCREMENT] column gets: one more than the largest
    rowid the table holds or has ever held ([sqlite_sequence]). *)
Definition next_rowid (ids : list Z) (seq : Z) : Z :=
  (fold_right Z.max seq ids + 1)%Z.

End Sql.

(* ------------------------------------------------------------------ *)
(** ** The tables of [init_db] *)

Module Student.
(** One row of [students]. [total_fee] is nullable ([REAL DEFAULT
    20000]); [photo] is [NULL] when no file was uploaded. *)
Record row : Type := mk {
  id : Z;
  name : string;
  roll_no : string;
  course : string;
  year : string;
  email : string;
  phone : string;
  total_fee : option Q;
  photo : option string
}.
End Student.

Module Fee.
(** One row of [fees]. *)
Record row : Type := mk {
  id : Z;
  student_id : Z;
  amount : Q;
  date : string;
  mode : string;
  remark : string
}.
End Fee.

(** The database file: both tables and their [sqlite_sequence] entries. *)
Record DB : Type := mk_DB {
  students_rows : list Student.row;
  students_seq : Z;
  fees_rows : list Fee.row;
  fees_seq : Z
}.

(** [init_db] on a fresh file. *)
Definition init_db : DB :=
  {| students_rows := []; students_seq := 0;
     fees_rows := []; fees_seq := 0 |}.

(** [INSERT INTO students (...) VALUES (...)]: [roll_no] is [UNIQUE]. *)
Definition insert_student
    (name roll_no course year email phone : string) (total_fee : Q)
    (photo : option string) (db : DB) : Py.exn + DB :=
  if existsb (fun s => Student.roll_no s =? roll_no) (students_rows db)
  then inl Py.IntegrityError
  else
    let rowid :=
      Sql.next_rowid (map Student.id (students_rows db)) (students_seq db) in
    inr {| students_rows :=
             (students_rows db ++
              [Student.mk rowid name roll_no course year email phone
                          (Some total_fee) photo])%list;
           students_seq := rowid;
           fees_rows := fees_rows db;
           fees_seq := fees_seq db |}.

(** [INSERT INTO fees (...) VALUES (...)], with [c.lastrowid]. *)
Definition insert_fee
    (student_id : Z) (amount : Q) (date mode remark : string) (db : DB)
    : DB * Z :=
  let rowid := Sql.next_rowid (map Fee.id (fees_rows db)) (fees_seq db) in
  ({| students_rows := students_rows db;
      students_seq := students_seq db;
      fees_rows :=
        (fees_rows db ++
         [Fee.mk rowid student_id amount date mode remark])%list;
      fees_seq := rowid |}, rowid).

(** [SELECT IFNULL(SUM(amount),0) FROM fees WHERE student_id=?] *)
Definition sum_paid (db : DB) (student_id : Z) : Q :=
  Sql.IFNULL
    (Sql.SUM (map Fee.amount
                (filter (fun f => (Fee.student_id f =? student_id)%Z)
                        (fees_rows db))))
    0%Q.

(** [SELECT IFNULL(SUM(amount),0) FROM fees WHERE date LIKE ?] *)
Definition sum_like (db : DB) (pattern : string) : Q :=
  Sql.IFNULL
    (Sql.SUM (map Fee.amount
                (filter (fun f => Sql.like pattern (Fee.date f))
                        (fees_rows db))))
    0%Q.

(** [SELECT * FROM fees WHERE student_id=? ORDER BY id DESC] *)
Definition fees_of (db : DB) (student_id : Z) : list Fee.row :=
  Sql.order_by_desc Fee.id
    (filter (fun f => (Fee.student_id f =? student_id)%Z) (fees_rows db)).

(* ------------------------------------------------------------------ *)
(** ** What a handler does besides writing the database *)

Inductive event : Type :=
| SavedUpload (filename : string)
| SmsAttempt (phone text : string)
| EmailAttempt (address subject body : string)
| Printed (label : string) (e : Py.exn).

Inductive endpoint : Type :=
| to_students
| to_receipt (fee_id : Z).

Inductive response : Type :=
| redirect (target : endpoint)
| text (body : string)
| unhandled (e : Py.exn).

(** A block of statements that records events and may raise. *)
Module Eff.
Definition t (A : Type) : Type := (list event * (Py.exn + A))%type.

Definition ret {A} (a : A) : t A := ([], inr a).

Definition bind {A B} (m : t A) (k : A -> t B) : t B :=
  match m with
  | (ev, inl e) => (ev, inl e)
  | (ev, inr a) => let '(ev', r) := k a in ((ev ++ ev')%list, r)
  end.

Definition when (b : bool) (m : t unit) : t unit :=
  if b then m else ret tt.

(** [try: body  except Exception as e: print(label, e)] *)
Definition try_print (body : t unit) (label : string) : list event :=
  match body with
  | (ev, inl e) => (ev ++ [Printed label e])%list
  | (ev, inr tt) => ev
  end.
End Eff.

Notation "m ;; k" := (Eff.bind m (fun _ => k))
  (at level 61, right associativity).

Module AdmissionForm.
(** [request.form] and [request.files] of [POST /admission]. [photo]
    is [secure_filename(photo.filename)] when a file with a name was
    uploaded. *)
Record t : Type := mk {
  name : string;
  roll : string;
  course : string;
  year : string;
  email : string;
  phone : string;
  total_fee : Py.field;
  photo : option string
}.
End AdmissionForm.

Module EditForm.
(** [request.form] and [request.files] of [POST /student/<id>/edit]. *)
Record t : Type := mk {
  name : string;
  course : string;
  year : string;
  email : string;
  phone : string;
  total_fee : Py.field;
  photo : option string
}.
End EditForm.

Module FeesForm.
(** [request.form] of [POST /fees]; [remark] is [''] when absent. *)
Record t : Type := mk {
  roll : string;
  amount : Py.field;
  mode : string;
  remark : string
}.
End FeesForm.

(* ------------------------------------------------------------------ *)
(** ** The request handlers *)

(** [str(n)] for an [int]. *)
Definition str_int (n : Z) : string :=
  NilZero.string_of_int (Z.to_int n).

Section Handlers.

(** The two delivery functions: [None] when the call returns, [Some e]
    when it raises the exception [e]. *)
Variable send_sms : string -> string -> option Py.exn.
Variable send_email : string -> string -> string -> option Py.exn.
(** [str(x)] for a [float], as an f-string prints it. *)
Variable str_float : Q -> string.

Definition call_sms (phone text : string) : Eff.t unit :=
  ([SmsAttempt phone text],
   match send_sms phone text with
   | None => inr tt
   | Some e => inl e
   end).

Definition call_email (address subject body : string) : Eff.t unit :=
  ([EmailAttempt address subject body],
   match send_email address subject body with
   | None => inr tt
   | Some e => inl e
   end).

(** [POST /admission] *)
Definition admission (now : Clock.datetime) (form : AdmissionForm.t)
    (db : DB) : DB * list event * response :=
  let name := AdmissionForm.name form in
  let roll_no := AdmissionForm.roll form in
  let course := AdmissionForm.course form in
  let year := AdmissionForm.year form in
  let email := AdmissionForm.email form in
  let phone := AdmissionForm.phone form in
  match Py.float_or (AdmissionForm.total_fee form) 20000%Q with
  | inl e => (db, [], unhandled e)
  | inr total_fee =>
      let '(filename, saved) :=
        match AdmissionForm.photo form with
        | Some fname =>
            let filename :=
              roll_no ++ "_" ++ Clock.fmt_compact now ++ "_" ++ fname in
            (Some filename, [SavedUpload filename])
        | None => (None, [])
        end in
      match insert_student name roll_no course year email phone
                           total_fee filename db with
      | inr db' =>
          let sent :=
            Eff.try_print
              (Eff.when (Py.truthy phone)
                 (call_sms phone
                    ("Welcome " ++ name ++ "! Your admission is completed."))
               ;;
               Eff.when (Py.truthy email)
                 (call_email email "Admission Successful"
                    ("Dear " ++ name ++ ", your admission is confirmed.")))
              "Notification send error (admission):" in
          (db', (saved ++ sent)%list, redirect to_students)
      | inl Py.IntegrityError =>
          (db, saved, text "Roll number already exists!")
      | inl e => (db, saved, unhandled e)
      end
  end.

(** [UPDATE students SET ... WHERE id=?] *)
Definition update_student (student_id : Z) (form : EditForm.t)
    (total_fee : Q) (photo : option string) (s : Student.row)
    : Student.row :=
  if (Student.id s =? student_id)%Z then
    {| Student.id := Student.id s;
       Student.name := EditForm.name form;
       Student.roll_no := Student.roll_no s;
       Student.course := EditForm.course form;
       Student.year := EditForm.year form;
       Student.email := EditForm.email form;
       Student.phone := EditForm.phone form;
       Student.total_fee := Some total_fee;
       Student.photo :=
         match photo with
         | Some filename => Some filename
         | None => Student.photo s
         end |}
  else s.

(** [POST /student/<student_id>/edit] *)
Definition edit_student (student_id : Z) (now : Clock.datetime)
    (form : EditForm.t) (db : DB) : DB * list event * response :=
  match Py.float_or (EditForm.total_fee form) 20000%Q with
  | inl e => (db, [], unhandled e)
  | inr total_fee =>
      let '(filename, saved) :=
        match EditForm.photo form with
        | Some fname =>
            let filename :=
              str_int student_id ++ "_" ++ Clock.fmt_compact now
                ++ "_" ++ fname in
            (Some filename, [SavedUpload filename])
        | None => (None, [])
        end in
      ({| students_rows :=
            map (update_student student_id form total_fee filename)
                (students_rows db);
          students_seq := students_seq db;
          fees_rows := fees_rows db;
          fees_seq := fees_seq db |},
       saved, redirect to_students)
  end.

(** [POST /student/<student_id>/delete] *)
Definition delete_student (student_id : Z) (db : DB)
    : DB * list event * response :=
  let fees' :=
    filter (fun f => negb (Fee.student_id f =? student_id)%Z)
           (fees_rows db) in
  let students' :=
    filter (fun s => negb (Student.id s =? student_id)%Z)
           (students_rows db) in
  ({| students_rows := students';
      students_seq := students_seq db;
      fees_rows := fees';
      fees_seq := fees_seq db |},
   [], redirect to_students).

(** [POST /fees] *)
Definition fees (now : Clock.datetime) (form : FeesForm.t) (db : DB)
    : DB * list event * response :=
  let roll := FeesForm.roll form in
  match Py.float (FeesForm.amount form) with
  | inl e => (db, [], unhandled e)
  | inr amount =>
      let mode := FeesForm.mode form in
      let remark := FeesForm.remark form in
      match find (fun s => Student.roll_no s =? roll) (students_rows db) with
      | None => (db, [], text "Roll number not found!")
      | Some stud =>
          let student_id := Student.id stud in
          let student_name := Student.name stud in
          let student_phone := Student.phone stud in
          let student_email := Student.email stud in
          let date := Clock.fmt_timestamp now in
          let '(db', fee_id) :=
            insert_fee student_id amount date mode remark db in
          let sent :=
            Eff.try_print
              (Eff.when (Py.truthy student_phone)
                 (call_sms student_phone
                    ("Hi " ++ student_name ++ "! ₹" ++ str_float amount
                       ++ " fees received successfully."))
               ;;
               Eff.when (Py.truthy student_email)
                 (call_email student_email "Fees Receipt"
                    ("Hi " ++ student_name ++ ", Your fee of ₹"
                       ++ str_float amount ++ " has been received.")))
              "Notification send error (fees):" in
          (db', sent, redirect (to_receipt fee_id))
      end
  end.

(** A request that can write the database. *)
Inductive request : Type :=
| POST_admission (now : Clock.datetime) (form : AdmissionForm.t)
| POST_edit (student_id : Z) (now : Clock.datetime) (form : EditForm.t)
| POST_delete (student_id : Z)
| POST_fees (now : Clock.datetime) (form : FeesForm.t).

Definition handle (r : request) (db : DB) : DB * list event * response :=
  match r with
  | POST_admission now form => admission now form db
  | POST_edit student_id now form => edit_student student_id now form db
  | POST_delete student_id => delete_student student_id db
  | POST_fees now form => fees now form db
  end.

Definition db_after (r : request) (db : DB) : DB := fst (fst (handle r db)).

(** The states the application can be in: [init_db], then any requests. *)
Inductive reachable : DB -> Prop :=
| reach_init : reachable init_db
| reach_step (r : request) (db : DB) :
    reachable db -> reachable (db_after r db).

End Handlers.

(* ------------------------------------------------------------------ *)
(** ** The read paths *)

Module Dashboard.
Record t : Type := mk {
  total_students : Z;
  total_collection : Q;
  today_collection : Q;
  month_collection : Q
}.
End Dashboard.

(** [GET /]; the clock is read once for [today] and once for [month]. *)
Definition dashboard (now now' : Clock.datetime) (db : DB) : Dashboard.t :=
  let total_students := Z.of_nat (List.length (students_rows db)) in
  let total_collection :=
    Sql.IFNULL (Sql.SUM (map Fee.amount (fees_rows db))) 0%Q in
  let today := Clock.fmt_day now in
  let today_collection := sum_like db (today ++ "%") in
  let month := Clock.fmt_month now' in
  let month_collection := sum_like db (month ++ "%") in
  {| Dashboard.total_students := total_students;
     Dashboard.total_collection := total_collection;
     Dashboard.today_collection := today_collection;
     Dashboard.month_collection := month_collection |}.

Module Dues.
(** One element of [results] in [dues_report]. *)
Record t : Type := mk {
  student : Student.row;
  paid : Q;
  due : Q
}.
End Dues.

(** [GET /reports/dues]; [arg] is the query parameter [q] when present. *)
Definition dues_report (arg : option string) (db : DB) : list Dues.t :=
  let q := Py.strip (match arg with Some v => v | None => "" end) in
  let students :=
    if Py.truthy q then
      Sql.order_by_desc Student.id
        (filter (fun s => Sql.like ("%" ++ q ++ "%") (Student.roll_no s)
                          || Sql.like ("%" ++ q ++ "%") (Student.name s))
                (students_rows db))
    else
      Sql.order_by_desc Student.id (students_rows db) in
  map (fun s =>
         let paid := sum_paid db (Student.id s) in
         let due := (Py.or0 (Student.total_fee s) - paid)%Q in
         {| Dues.student := s; Dues.paid := paid; Dues.due := due |})
      students.

Module Profile.
(** What [student_profile] hands to its template. *)
Record t : Type := mk {
  s : Student.row;
  fees : list Fee.row;
  paid : Q;
  due : Q
}.
End Profile.

(** [GET /student/<student_id>]; [None] is "Student not found". *)
Definition student_profile (student_id : Z) (db : DB) : option Profile.t :=
  match find (fun s => (Student.id s =? student_id)%Z) (students_rows db) with
  | None => None
  | Some s =>
      let fees := fees_of db student_id in
      let paid := sum_paid db student_id in
      let due := (Py.or0 (Student.total_fee s) - paid)%Q in
      Some {| Profile.s := s; Profile.fees := fees;
              Profile.paid := paid; Profile.due := due |}
  end.

Module DuesCsv.
(** One data row of [dues.csv]:
    ID, Name, Roll, Course, Phone, Total Fee, Paid, Due. *)
Record t : Type := mk {
  id : Z;
  name : string;
  roll : string;
  course : string;
  phone : string;
  total_fee : option Q;
  paid : Q;
  due : Q
}.
End DuesCsv.

(** [GET /export/dues] *)
Definition export_dues (db : DB) : list DuesCsv.t :=
  let students := Sql.order_by Student.id (students_rows db) in
  map (fun s =>
         let paid := sum_paid db (Student.id s) in
         let due := (Py.or0 (Student.total_fee s) - paid)%Q in
         {| DuesCsv.id := Student.id s;
            DuesCsv.name := Student.name s;
            DuesCsv.roll := Student.roll_no s;
            DuesCsv.course := Student.course s;
            DuesCsv.phone := Student.phone s;
            DuesCsv.total_fee := Student.total_fee s;
            DuesCsv.paid := paid;
            DuesCsv.due := due |})
      students.

(* ------------------------------------------------------------------ *)
(** ** The words of the specification *)

(** The sum of the amounts of the entries of a list. *)
Definition total (entries : list Fee.row) : Q :=
  fold_right (fun f acc => (Fee.amount f + acc)%Q) 0%Q entries.

(** The entries of student [sid]. *)
Definition entries_of (db : DB) (sid : Z) : list Fee.row :=
  filter (fun f => (Fee.student_id f =? sid)%Z) (fees_rows db).

(** [paid(student)] and [due(student)] of the data model. *)
Definition paid_spec (db : DB) (s : Student.row) : Q :=
  total (entries_of db (Student.id s)).

Definition due_spec (db : DB) (s : Student.row) : Q :=
  (Py.or0 (Student.total_fee s) - paid_spec db s)%Q.

(** [p] is a literal prefix of [s]. *)
Fixpoint starts_with (p s : string) : bool :=
  match p, s with
  | "", _ => true
  | String a p', String b s' => Ascii.eqb a b && starts_with p' s'
  | String _ _, "" => false
  end.

(** [q] occurs in [s] when ASCII case is ignored. *)
Fixpoint starts_with_ci (p s : string) : bool :=
  match p, s with
  | "", _ => true
  | String a p', String b s' =>
      Ascii.eqb (Sql.lower a) (Sql.lower b) && starts_with_ci p' s'
  | String _ _, "" => false
  end.

Fixpoint contains_ci (q s : string) : bool :=
  starts_with_ci q s
  || match s with
     | "" => false
     | String _ s' => contains_ci q s'
     end.

(** [q] occurs in [s], letter for letter. *)
Fixpoint contains (q s : string) : bool :=
  starts_with q s
  || match s with
     | "" => false
     | String _ s' => contains q s'
     end.

(** A character [LIKE] treats as a wildcard. *)
Definition wildcard (c : ascii) : bool := Ascii.eqb c "%" || Ascii.eqb c "_".

Fixpoint has_wildcard (s : string) : bool :=
  match s with
  | "" => false
  | String c s' => wildcard c || has_wildcard s'
  end.

(** A character of a formatted date: a decimal digit or a hyphen. *)
Definition date_char (c : ascii) : bool :=
  let n := nat_of_ascii c in
  ((48 <=? n)%nat && (n <=? 57)%nat) || Ascii.eqb c "-".

Fixpoint date_chars (s : string) : bool :=
  match s with
  | "" => true
  | String c s' => date_char c && date_chars s'
  end.

(** Every fee entry belongs to a student of the table. *)
Definition referential_integrity (db : DB) : Prop :=
  forall f, In f (fees_rows db) ->
    exists s, In s (students_rows db) /\ Student.id s = Fee.student_id f.

(** [a] was admitted before [b]: its rowid is smaller. *)
Definition older (a b : Student.row) : Prop :=
  (Student.id a < Student.id b)%Z.

(** The rows of [students] lie in the order of their admission. *)
Definition admission_order (db : DB) : Prop :=
  StronglySorted older (students_rows db).

(** The request was refused: the answer is not a redirect to the page
    of the result. *)
Definition refused (r : response) : bool :=
  match r with
  | redirect _ => false
  | text _ | unhandled _ => true
  end.

(* ------------------------------------------------------------------ *)
(** ** Concrete states and requests *)

Module Ex.

(** Delivery functions that always return, and one that always raises. *)
Definition sms_ok (_ _ : string) : option Py.exn := None.
Definition email_ok (_ _ _ : string) : option Py.exn := None.
Definition sms_down (_ _ : string) : option Py.exn :=
  Some (Py.Exception "gateway unreachable").
Definition show (_ : Q) : string := "0.0".

Definition noon : Clock.datetime := Clock.mk_datetime 2024 3 15 12 0 0.

(** The student of the specification's example. *)
Definition cs101 : Student.row :=
  Student.mk 1 "Asha" "CS101" "CSE" "1" "" "" (Some 20000%Q) None.

Definition db1 : DB :=
  {| students_rows := [cs101]; students_seq := 1;
     fees_rows := []; fees_seq := 0 |}.

Definition admit_cs101 : AdmissionForm.t :=
  AdmissionForm.mk "Asha" "CS101" "CSE" "1" "" "" Py.Blank None.

Definition pay_cs101 (a : Q) : FeesForm.t :=
  FeesForm.mk "CS101" (Py.Num a) "cash" "".

(** The same student with a phone number and no e-mail address. *)
Definition cs101_phone : Student.row :=
  Student.mk 1 "Asha" "CS101" "CSE" "1" "" "9876543210" (Some 20000%Q) None.

Definition db2 : DB :=
  {| students_rows := [cs101_phone]; students_seq := 1;
     fees_rows := []; fees_seq := 0 |}.

Definition admit_nobody : AdmissionForm.t :=
  AdmissionForm.mk "" "" "CSE" "1" "" "" (Py.Num (-5 # 1)%Q) None.

(** [student_profile 1 db1] *)
Definition profile1 : Profile.t :=
  {| Profile.s := cs101; Profile.fees := [];
     Profile.paid := 0%Q; Profile.due := (20000 - 0)%Q |}.

(** A fresh database, then the admission of CS101, then a payment of
    5000. *)
Definition ledger : DB :=
  db_after sms_ok email_ok show (POST_fees noon (pay_cs101 5000%Q))
    (db_after sms_ok email_ok show (POST_admission noon admit_cs101)
       init_db).

(** [POST /fees] for CS101 at [noon], both deliveries working. *)
Definition paid_at_noon (a : Q) (db : DB) : DB * list event * response :=
  fees sms_ok email_ok show noon (pay_cs101 a) db.

End Ex.

(* ------------------------------------------------------------------ *)
(** ** The other read paths *)

(** [GET /students] *)
Definition students (db : DB) : list Student.row :=
  Sql.order_by_desc Student.id (students_rows db).

(** [FROM fees JOIN students ON fees.student_id = students.id] *)
Definition fees_join_students (db : DB) : list (Fee.row * Student.row) :=
  flat_map
    (fun f =>
       map (fun s => (f, s))
           (filter (fun s => (Fee.student_id f =? Student.id s)%Z)
                   (students_rows db)))
    (fees_rows db).

Module FeeLine.
(** The columns [fees.id, students.name, students.roll_no, fees.amount,
    fees.date, fees.mode, fees.remark] of the fee list and of
    [fees.csv]. *)
Record t : Type := mk {
  id : Z;
  name : string;
  roll_no : string;
  amount : Q;
  date : string;
  mode : string;
  remark : string
}.
End FeeLine.

Definition fee_line (p : Fee.row * Student.row) : FeeLine.t :=
  let (f, s) := p in
  {| FeeLine.id := Fee.id f;
     FeeLine.name := Student.name s;
     FeeLine.roll_no := Student.roll_no s;
     FeeLine.amount := Fee.amount f;
     FeeLine.date := Fee.date f;
     FeeLine.mode := Fee.mode f;
     FeeLine.remark := Fee.remark f |}.

(** [GET /fees-list]: the join, [ORDER BY fees.id DESC]. *)
Definition fees_list (db : DB) : list FeeLine.t :=
  map fee_line
      (Sql.order_by_desc (fun p => Fee.id (fst p)) (fees_join_students db)).

(** [GET /export/fees]: the data rows of [fees.csv], [ORDER BY fees.id]. *)
Definition export_fees (db : DB) : list FeeLine.t :=
  map fee_line
      (Sql.order_by (fun p => Fee.id (fst p)) (fees_join_students db)).

Module Receipt.
(** [fees.*, students.name, students.roll_no, students.course,
    students.phone] *)
Record t : Type := mk {
  fee : Fee.row;
  name : string;
  roll_no : string;
  course : string;
  phone : string
}.
End Receipt.

(** [GET /receipt/<fee_id>]; [None] is "Receipt not found". *)
Definition receipt (fee_id : Z) (db : DB) : option Receipt.t :=
  match find (fun p => (Fee.id (fst p) =? fee_id)%Z)
             (fees_join_students db) with
  | None => None
  | Some (f, s) =>
      Some {| Receipt.fee := f;
              Receipt.name := Student.name s;
              Receipt.roll_no := Student.roll_no s;
              Receipt.course := Student.course s;
              Receipt.phone := Student.phone s |}
  end.

(** [GET /reports/fees-summary]: [(total, today_total)]. *)
Definition fees_summary (now : Clock.datetime) (db : DB) : Q * Q :=
  let total := Sql.IFNULL (Sql.SUM (map Fee.amount (fees_rows db))) 0%Q in
  let today := Clock.fmt_day now in
  let today_total := sum_like db (today ++ "%") in
  (total, today_total).

(** [POST /search]; [form_q] is [request.form['q']]. The first matching
    row is the first in rowid order. *)
Definition search (form_q : string) (db : DB) : option Profile.t :=
  let q := Py.strip form_q in
  match find (fun s => (Student.roll_no s =? q)
                       || Sql.like ("%" ++ q ++ "%") (Student.name s))
             (students_rows db) with
  | Some s =>
      let fees := fees_of db (Student.id s) in
      let paid := sum_paid db (Student.id s) in
      let due := (Py.or0 (Student.total_fee s) - paid)%Q in
      Some {| Profile.s := s; Profile.fees := fees;
              Profile.paid := paid; Profile.due := due |}
  | None => None
  end.

Module StudentsCsv.
(** One data row of [students.csv]:
    ID, Name, Roll No, Course, Year, Phone, Total Fee. *)
Record t : Type := mk {
  id : Z;
  name : string;
  roll_no : string;
  course : string;
  year : string;
  phone : string;
  total_fee : option Q
}.
End StudentsCsv.

(** [GET /export/students] *)
Definition export_students (db : DB) : list StudentsCsv.t :=
  map (fun s =>
         {| StudentsCsv.id := Student.id s;
            StudentsCsv.name := Student.name s;
            StudentsCsv.roll_no := Student.roll_no s;
            StudentsCsv.course := Student.course s;
            StudentsCsv.year := Student.year s;
            StudentsCsv.phone := Student.phone s;
            StudentsCsv.total_fee := Student.total_fee s |})
      (Sql.order_by Student.id (students_rows db)).

(* ------------------------------------------------------------------ *)
(** ** Runs and invariants *)

(** The database after a list of requests, first to last. *)
Definition run
    (send_sms : string -> string -> option Py.exn)
    (send_email : string -> string -> string -> option Py.exn)
    (str_float : Q -> string) (rs : list request) (db : DB) : DB :=
  fold_left (fun d r => db_after send_sms send_email str_float r d) rs db.

(** [a] was paid before [b]: its rowid is smaller. *)
Definition earlier (a b : Fee.row) : Prop := (Fee.id a < Fee.id b)%Z.

(** What the constraints of [init_db] and the handlers maintain: rows in
    rowid order, no rowid above its sequence, no roll number twice, no
    fee entry without its student. *)
Record consistent (db : DB) : Prop := mk_consistent {
  students_sorted : StronglySorted older (students_rows db);
  students_bounded :
    Forall (fun s => (Student.id s <= students_seq db)%Z) (students_rows db);
  rolls_unique : NoDup (map Student.roll_no (students_rows db));
  fees_sorted : StronglySorted earlier (fees_rows db);
  fees_bounded :
    Forall (fun f => (Fee.id f <= fees_seq db)%Z) (fees_rows db);
  fees_owned : referential_integrity db
}.

(** The number of delivery attempts on each channel. *)
Definition sms_attempts (ev : list event) : nat :=
  List.length
    (filter (fun e => match e with SmsAttempt _ _ => true | _ => false end)
            ev).

Definition email_attempts (ev : list event) : nat :=
  List.length
    (filter (fun e =>
               match e with EmailAttempt _ _ _ => true | _ => false end)
            ev).

Module User.
(** One row of [users]. *)
Record row : Type := mk {
  id : Z;
  username : string;
  password : string
}.
End User.

(** The whole database file: [users] with its sequence, and the ledger. *)
Record Store : Type := mk_Store {
  users_rows : list User.row;
  users_seq : Z;
  ledger_of : DB
}.

(** The file before [init_db] has ever run. *)
Definition fresh_store : Store :=
  {| users_rows := []; users_seq := 0; ledger_of := init_db |}.

(** [init_db()] on any file, as run at every start of the application:
    the [CREATE TABLE IF NOT EXISTS] statements keep existing tables,
    and the admin user is inserted when [users] is empty.
    [admin_hash] is what [generate_password_hash("admin123")] returns in
    this run. *)
Definition init_db_on (admin_hash : string) (st : Store) : Store :=
  if (Z.of_nat (List.length (users_rows st)) =? 0)%Z then
    let rowid :=
      Sql.next_rowid (map User.id (users_rows st)) (users_seq st) in
    {| users_rows :=
         (users_rows st ++ [User.mk rowid "admin" admin_hash])%list;
       users_seq := rowid;
       ledger_of := ledger_of st |}
  else st.

(* ------------------------------------------------------------------ *)
(** ** Binary64, rowids of URLs, NUL *)

#[local] Set Warnings "-inexact-float".

Module B64.

(** [x or 0] on a nullable [float]: [None], [0.0] and [-0.0] give 0. *)
Definition or0 (x : option float) : float :=
  match x with
  | None => 0%float
  | Some v => if PrimFloat.eqb v 0 then 0%float else v
  end.

(** [SUM(amount)] over [REAL] rows, added in rowid order.  (From 3.43
    SQLite carries a compensation term as well; over one or two rows
    both give the rounded sum.) *)
Definition SUM (xs : list float) : option float :=
  match xs with
  | [] => None
  | _ => Some (fold_left PrimFloat.add xs 0%float)
  end.

Definition IFNULL (x : option float) (d : float) : float :=
  match x with
  | Some v => v
  | None => d
  end.

(** [paid] and [due] as [student_profile], [dues_report], [search] and
    [export_dues] compute them, for a student with total fee [total_fee]
    and fee rows of the amounts [amounts]. *)
Definition paid (amounts : list float) : float := IFNULL (SUM amounts) 0.

Definition due (total_fee : option float) (amounts : list float) : float :=
  (or0 total_fee - paid amounts)%float.

End B64.

(** A rowid a route [<int:...>] accepts and the driver can bind. *)
Definition url_id (n : Z) : Prop := (0 <= n < 2 ^ 63)%Z.

(** The text holds the character NUL. *)
Fixpoint has_nul (s : string) : bool :=
  match s with
  | "" => false
  | String c s' => Ascii.eqb c Ascii.zero || has_nul s'
  end.

(** The entries of the fee list that a pattern selects. *)
Definition dated (db : DB) (pattern : string) : list Fee.row :=
  filter (fun f => Sql.like pattern (Fee.date f)) (fees_rows db).

Module Ex3.

(** A second admission of CS101 whose total fee is not a number. *)
Definition admit_cs101_bad_fee : AdmissionForm.t :=
  AdmissionForm.mk "Asha" "CS101" "CSE" "1" "" "" Py.Garbage None.

End Ex3.

Module Ex2.

Definition evening : Clock.datetime := Clock.mk_datetime 2024 3 14 18 30 0.

Definition admit_cs102 : AdmissionForm.t :=
  AdmissionForm.mk "Binod" "CS102" "ECE" "2" "binod@example.org"
                   "9000000002" (Py.Num 15000%Q) None.

Definition edit_fee (q : Q) : EditForm.t :=
  EditForm.mk "Asha Rao" "CSE" "2" "" "" (Py.Num q) None.

Definition email_down (_ _ _ : string) : option Py.exn :=
  Some (Py.Exception "smtp refused").

(** [Ex.ledger], then the admission of CS102. *)
Definition two_students : DB :=
  db_after Ex.sms_ok Ex.email_ok Ex.show
    (POST_admission Ex.noon admit_cs102) Ex.ledger.

Definition cs102 : Student.row :=
  Student.mk 2 "Binod" "CS102" "ECE" "2" "binod@example.org" "9000000002"
             (Some 15000%Q) None.

Definition pay_cs102 (a : Q) : FeesForm.t :=
  FeesForm.mk "CS102" (Py.Num a) "upi" "first instalment".

(** The payment stored in [Ex.ledger]. *)
Definition first_payment : Fee.row :=
  Fee.mk 1 1 5000%Q "2024-03-15 12:00:00" "cash" "".

(** [student_profile 1 Ex.ledger] *)
Definition profile_paid : Profile.t :=
  {| Profile.s := Ex.cs101; Profile.fees := [first_payment];
     Profile.paid := (0 + 5000)%Q; Profile.due := (20000 - (0 + 5000))%Q |}.

(** [student_profile 2 two_students] *)
Definition profile_cs102 : Profile.t :=
  {| Profile.s := cs102; Profile.fees := [];
     Profile.paid := 0%Q; Profile.due := (15000 - 0)%Q |}.

End Ex2.

(* ------------------------------------------------------------------ *)
(** * Properties *)

(** ** Sums *)

Lemma fold_left_Qplus (xs : list Q) (a : Q) :
  (fold_left Qplus xs a == a + fold_right Qplus 0 xs)%Q.
Proof.
  revert a; induction xs as [|x xs IH]; intros a; simpl.
  - lra.
  - rewrite IH. lra.
Qed.

Lemma IFNULL_SUM (xs : list Q) :
  (Sql.IFNULL (Sql.SUM xs) 0 == fold_right Qplus 0 xs)%Q.
Proof.
  destruct xs as [|x xs]; simpl.
  - reflexivity.
  - rewrite fold_left_Qplus. lra.
Qed.

Lemma IFNULL_SUM_amounts (l : list Fee.row) :
  (Sql.IFNULL (Sql.SUM (map Fee.amount l)) 0 == total l)%Q.
Proof.
  rewrite IFNULL_SUM.
  induction l as [|f l IH]; simpl.
  - reflexivity.
  - rewrite IH. reflexivity.
Qed.

Lemma total_app (l1 l2 : list Fee.row) :
  (total (l1 ++ l2) == total l1 + total l2)%Q.
Proof.
  induction l1 as [|f l1 IH]; simpl.
  - lra.
  - rewrite IH. lra.
Qed.

Lemma sum_paid_total (db : DB) (sid : Z) :
  (sum_paid db sid == total (entries_of db sid))%Q.
Proof. unfold sum_paid, entries_of. apply IFNULL_SUM_amounts. Qed.

(** ** [ORDER BY] *)

Lemma StronglySorted_filter {A} (R : A -> A -> Prop) (f : A -> bool) l :
  StronglySorted R l -> StronglySorted R (filter f l).
Proof.
  induction 1 as [|x l _ IH Hx]; simpl; [constructor|].
  destruct (f x); [|exact IH].
  constructor; [exact IH|].
  rewrite Forall_forall in *. intros y Hy.
  apply filter_In in Hy. apply Hx. tauto.
Qed.

Lemma StronglySorted_snoc {A} (R : A -> A -> Prop) (l : list A) x :
  StronglySorted R l -> Forall (fun y => R y x) l ->
  StronglySorted R (l ++ [x]).
Proof.
  induction 1 as [|y l _ IH Hy]; intros Hall; simpl.
  - constructor; constructor.
  - inversion Hall as [|? ? Hyx Hall']; subst.
    constructor; [apply IH; exact Hall'|].
    apply Forall_app. split; [exact Hy|]. constructor; [exact Hyx|constructor].
Qed.

Section OrderByFacts.

Context {A : Type} (key : A -> Z).

Lemma insert_desc_In (x a : A) (l : list A) :
  In x (Sql.insert_desc key a l) <-> x = a \/ In x l.
Proof.
  induction l as [|y l IH]; simpl.
  - intuition.
  - destruct (key y <? key a)%Z; simpl; [intuition|].
    rewrite IH. intuition.
Qed.

Lemma order_by_desc_In (x : A) (l : list A) :
  In x (Sql.order_by_desc key l) <-> In x l.
Proof.
  induction l as [|a l IH]; simpl; [tauto|].
  rewrite insert_desc_In, IH. intuition.
Qed.

Lemma insert_asc_In (x a : A) (l : list A) :
  In x (Sql.insert_asc key a l) <-> x = a \/ In x l.
Proof.
  induction l as [|y l IH]; simpl.
  - intuition.
  - destruct (key a <? key y)%Z; simpl; [intuition|].
    rewrite IH. intuition.
Qed.

Lemma order_by_In (x : A) (l : list A) :
  In x (Sql.order_by key l) <-> In x l.
Proof.
  induction l as [|a l IH]; simpl; [tauto|].
  rewrite insert_asc_In, IH. intuition.
Qed.

Local Abbreviation lt_key := (fun a b : A => (key a < key b)%Z).

Lemma insert_desc_smallest (x : A) (l : list A) :
  Forall (lt_key x) l -> Sql.insert_desc key x l = (l ++ [x])%list.
Proof.
  induction 1 as [|y l Hy _ IH]; simpl; [reflexivity|].
  cbv beta in Hy.
  destruct (Z.ltb_spec (key y) (key x)); [lia|].
  rewrite IH. reflexivity.
Qed.

(** On rows stored by increasing key, [ORDER BY key DESC] reverses the
    table. *)
Lemma order_by_desc_sorted (l : list A) :
  StronglySorted lt_key l -> Sql.order_by_desc key l = rev l.
Proof.
  induction 1 as [|x l _ IH Hx]; simpl; [reflexivity|].
  rewrite IH. apply insert_desc_smallest. apply Forall_rev. exact Hx.
Qed.

(** In a list sorted by a strict order on keys, a row is found by its
    key. *)
Lemma find_by_key (l : list A) (x : A) :
  StronglySorted lt_key l -> In x l ->
  find (fun y => (key y =? key x)%Z) l = Some x.
Proof.
  induction 1 as [|y l _ IH Hy]; intros Hin; [destruct Hin|].
  simpl. destruct Hin as [->|Hin].
  - rewrite Z.eqb_refl. reflexivity.
  - rewrite Forall_forall in Hy. specialize (Hy x Hin). cbv beta in Hy.
    destruct (Z.eqb_spec (key y) (key x)); [lia|]. apply IH. exact Hin.
Qed.

End OrderByFacts.

(** ** One payment *)

Lemma insert_fee_students sid a d m r db :
  students_rows (fst (insert_fee sid a d m r db)) = students_rows db.
Proof. reflexivity. Qed.

Lemma insert_fee_rows sid a d m r db :
  fees_rows (fst (insert_fee sid a d m r db)) =
  (fees_rows db ++ [Fee.mk (snd (insert_fee sid a d m r db)) sid a d m r])%list.
Proof. reflexivity. Qed.

Lemma find_roll_In roll stud l :
  find (fun s => Student.roll_no s =? roll) l = Some stud ->
  In stud l /\ Student.roll_no stud = roll.
Proof.
  intros H. apply find_some in H. destruct H as [Hin Heq].
  split; [exact Hin|]. apply String.eqb_eq. exact Heq.
Qed.

Section Payment.

Variable send_sms : string -> string -> option Py.exn.
Variable send_email : string -> string -> string -> option Py.exn.
Variable str_float : Q -> string.

Local Abbreviation pay := (fees send_sms send_email str_float).

(** What [POST /fees] does to the database and answers, for a numeric
    amount and a roll number that resolves. *)
Lemma fees_accepts now form db a stud :
  FeesForm.amount form = Py.Num a ->
  find (fun s => Student.roll_no s =? FeesForm.roll form)
       (students_rows db) = Some stud ->
  let ins := insert_fee (Student.id stud) a (Clock.fmt_timestamp now)
                        (FeesForm.mode form) (FeesForm.remark form) db in
  fst (fst (pay now form db)) = fst ins /\
  snd (pay now form db) = redirect (to_receipt (snd ins)).
Proof.
  intros Ha Hfind. unfold fees.
  rewrite Ha; simpl. rewrite Hfind. split; reflexivity.
Qed.

Lemma fees_unknown_roll now form db a :
  FeesForm.amount form = Py.Num a ->
  find (fun s => Student.roll_no s =? FeesForm.roll form)
       (students_rows db) = None ->
  pay now form db = (db, [], text "Roll number not found!").
Proof.
  intros Ha Hfind. unfold fees.
  rewrite Ha; simpl. rewrite Hfind. reflexivity.
Qed.

End Payment.

Section PaymentClaims.

Variable send_sms : string -> string -> option Py.exn.
Variable send_email : string -> string -> string -> option Py.exn.
Variable str_float : Q -> string.

Local Abbreviation pay := (fees send_sms send_email str_float).

Lemma student_profile_due db sid p :
  student_profile sid db = Some p ->
  Student.id (Profile.s p) = sid /\
  In (Profile.s p) (students_rows db) /\
  (Profile.paid p == total (entries_of db sid))%Q /\
  (Profile.due p ==
   Py.or0 (Student.total_fee (Profile.s p)) - total (entries_of db sid))%Q.
Proof.
  unfold student_profile. intros H.
  destruct (find _ _) as [s|] eqn:Hfind; [|discriminate].
  injection H as <-. simpl.
  apply find_some in Hfind. destruct Hfind as [Hin Hid].
  apply Z.eqb_eq in Hid.
  rewrite sum_paid_total. repeat split; auto; reflexivity.
Qed.

Lemma dues_report_due arg db r :
  In r (dues_report arg db) ->
  (Dues.paid r == paid_spec db (Dues.student r))%Q /\
  (Dues.due r == due_spec db (Dues.student r))%Q.
Proof.
  unfold dues_report. intros H. apply in_map_iff in H.
  destruct H as [s [<- _]]. simpl. unfold due_spec, paid_spec.
  rewrite sum_paid_total. split; reflexivity.
Qed.

Lemma entries_after_insert sid a d m r db :
  entries_of (fst (insert_fee sid a d m r db)) sid =
  (entries_of db sid ++
   [Fee.mk (snd (insert_fee sid a d m r db)) sid a d m r])%list.
Proof.
  unfold entries_of. rewrite insert_fee_rows, filter_app. simpl.
  rewrite Z.eqb_refl. reflexivity.
Qed.

(** The profile read after an accepted payment sums the rows it summed
    before, followed by the new one. *)
Lemma profile_rows_after_payment now form db a stud p :
  FeesForm.amount form = Py.Num a ->
  find (fun s => Student.roll_no s =? FeesForm.roll form)
       (students_rows db) = Some stud ->
  student_profile (Student.id stud) db = Some p ->
  exists p' fee_id,
    student_profile (Student.id stud) (fst (fst (pay now form db))) = Some p'
    /\ snd (pay now form db) = redirect (to_receipt fee_id)
    /\ fees_rows (fst (fst (pay now form db))) =
       (fees_rows db ++
        [Fee.mk fee_id (Student.id stud) a (Clock.fmt_timestamp now)
                (FeesForm.mode form) (FeesForm.remark form)])%list
    /\ entries_of (fst (fst (pay now form db))) (Student.id stud) =
       (entries_of db (Student.id stud) ++
        [Fee.mk fee_id (Student.id stud) a (Clock.fmt_timestamp now)
                (FeesForm.mode form) (FeesForm.remark form)])%list
    /\ Profile.s p' = Profile.s p
    /\ Profile.paid p' =
       Sql.IFNULL
         (Sql.SUM
            (map Fee.amount
               (entries_of db (Student.id stud) ++
                [Fee.mk fee_id (Student.id stud) a (Clock.fmt_timestamp now)
                        (FeesForm.mode form) (FeesForm.remark form)])))
         0%Q
    /\ Profile.due p' =
       (Py.or0 (Student.total_fee (Profile.s p)) - Profile.paid p')%Q.
Proof.
  intros Ha Hfind Hp.
  destruct (fees_accepts send_sms send_email str_float now form db a stud
              Ha Hfind) as [Hdb Hr].
  rewrite Hdb, Hr. unfold student_profile in *.
  rewrite insert_fee_students.
  destruct (find (fun s => (Student.id s =? Student.id stud)%Z) _) as [s|];
    [|discriminate].
  injection Hp as <-. eexists. eexists.
  split; [reflexivity|]. split; [reflexivity|].
  split; [apply insert_fee_rows|].
  split; [apply entries_after_insert|].
  cbn [Profile.s Profile.paid Profile.due].
  split; [reflexivity|].
  unfold sum_paid. fold (entries_of (fst (insert_fee (Student.id stud) a
    (Clock.fmt_timestamp now) (FeesForm.mode form) (FeesForm.remark form) db))
    (Student.id stud)).
  rewrite entries_after_insert. split; reflexivity.
Qed.

(** C1, as the code has it. The due shown for a student is [total_fee]
    (or 0) minus the sum of the amounts of the [fees] rows with that
    [student_id], computed from the table as it is when the page is read:
    on the profile page, on every row of the dues report, and the
    student's row of the unfiltered report carries the very figures of
    the profile. A payment of amount [a] recorded by [POST /fees] adds
    one row of amount [a] to the rows summed for that student, and the
    due read afterwards is [total_fee] minus the sum of the earlier rows
    followed by [a]. (The sum and the difference are binary64
    operations in the code; nothing is claimed about the size of the
    step.) *)
Theorem C1_due_derived_from_entries db sid p :
  student_profile sid db = Some p ->
  (Profile.due p ==
   Py.or0 (Student.total_fee (Profile.s p)) - total (entries_of db sid))%Q
  /\ (forall arg r, In r (dues_report arg db) ->
        (Dues.due r ==
         Py.or0 (Student.total_fee (Dues.student r))
         - total (entries_of db (Student.id (Dues.student r))))%Q)
  /\ (exists r,
        In r (dues_report None db) /\
        Dues.student r = Profile.s p /\
        Dues.paid r = Profile.paid p /\
        Dues.due r = Profile.due p)
  /\ (forall now form a stud,
        FeesForm.amount form = Py.Num a ->
        find (fun s => Student.roll_no s =? FeesForm.roll form)
             (students_rows db) = Some stud ->
        Student.id stud = sid ->
        exists p' fee_id,
          student_profile sid (fst (fst (pay now form db))) = Some p'
          /\ fees_rows (fst (fst (pay now form db))) =
             (fees_rows db ++
              [Fee.mk fee_id sid a (Clock.fmt_timestamp now)
                      (FeesForm.mode form) (FeesForm.remark form)])%list
          /\ entries_of (fst (fst (pay now form db))) sid =
             (entries_of db sid ++
              [Fee.mk fee_id sid a (Clock.fmt_timestamp now)
                      (FeesForm.mode form) (FeesForm.remark form)])%list
          /\ Profile.s p' = Profile.s p
          /\ Profile.paid p' =
             Sql.IFNULL
               (Sql.SUM
                  (map Fee.amount
                     (entries_of db sid ++
                      [Fee.mk fee_id sid a (Clock.fmt_timestamp now)
                              (FeesForm.mode form) (FeesForm.remark form)])))
               0%Q
          /\ Profile.due p' =
             (Py.or0 (Student.total_fee (Profile.s p)) - Profile.paid p')%Q).
Proof.
  intros Hp. split; [apply (student_profile_due db sid p Hp)|]. split.
  { intros arg r Hr. apply (dues_report_due arg db r Hr). }
  split.
  { destruct (student_profile_due db sid p Hp) as (Hid & Hin & _).
    unfold student_profile in Hp.
    destruct (find _ _) as [s|]; [|discriminate].
    injection Hp as <-. cbn [Profile.s Profile.paid Profile.due] in *.
    eexists. split.
    - unfold dues_report. cbn [Py.strip Py.lstrip Py.rstrip Py.truthy].
      apply in_map. apply order_by_desc_In. exact Hin.
    - cbn [Dues.student Dues.paid Dues.due]. rewrite Hid.
      repeat split. }
  intros now form a stud Ha Hfind <-.
  destruct (profile_rows_after_payment now form db a stud p Ha Hfind Hp)
    as (p' & fee_id & H1 & _ & H2 & H3 & H4 & H5 & H6).
  exists p', fee_id. repeat split; assumption.
Qed.

(** C2, as the code has it. [POST /fees] does not look at the sign of
    the amount. For an amount [a <= 0] no student row changes; when the
    roll number is that of a student the payment is accepted, one row of
    amount [a] is appended to [fees] and the caller is sent to its
    receipt; when it is not, the answer is "Roll number not found!" and
    the database is unchanged. *)
Theorem C2_nonpositive_amount_not_validated now form db a :
  FeesForm.amount form = Py.Num a ->
  (a <= 0)%Q ->
  let '(db', _, r) := pay now form db in
  students_rows db' = students_rows db /\
  match find (fun s => Student.roll_no s =? FeesForm.roll form)
             (students_rows db) with
  | Some stud =>
      exists fee_id,
        r = redirect (to_receipt fee_id) /\
        fees_rows db' =
        (fees_rows db ++
         [Fee.mk fee_id (Student.id stud) a (Clock.fmt_timestamp now)
                 (FeesForm.mode form) (FeesForm.remark form)])%list
  | None => r = text "Roll number not found!" /\ db' = db
  end.
Proof.
  intros Ha _.
  destruct (find _ _) as [stud|] eqn:Hfind.
  - destruct (fees_accepts send_sms send_email str_float now form db a stud
                Ha Hfind) as [Hdb Hr].
    destruct (pay now form db) as [[db' ev] r]. cbn [fst snd] in *. subst db' r.
    split; [reflexivity|]. eexists. split; [reflexivity|].
    apply insert_fee_rows.
  - rewrite (fees_unknown_roll send_sms send_email str_float now form db a
               Ha Hfind).
    repeat split.
Qed.

(** C10, as the code has it. [POST /fees] never compares the amount
    with what the student still owes: a payment larger than the current
    due is accepted like any other, the whole amount is stored (it is
    not capped), and the due read afterwards is [total_fee] minus the
    sum of the earlier rows followed by the amount. (In exact arithmetic
    that is a negative number; the code computes it in binary64, where
    it can round to 0.) *)
Theorem C10_overpayment_accepted now form db a stud p :
  FeesForm.amount form = Py.Num a ->
  find (fun s => Student.roll_no s =? FeesForm.roll form)
       (students_rows db) = Some stud ->
  student_profile (Student.id stud) db = Some p ->
  (Profile.due p < a)%Q ->
  exists p' fee_id,
    snd (pay now form db) = redirect (to_receipt fee_id) /\
    fees_rows (fst (fst (pay now form db))) =
      (fees_rows db ++
       [Fee.mk fee_id (Student.id stud) a (Clock.fmt_timestamp now)
               (FeesForm.mode form) (FeesForm.remark form)])%list /\
    student_profile (Student.id stud) (fst (fst (pay now form db)))
      = Some p' /\
    Profile.s p' = Profile.s p /\
    Profile.paid p' =
      Sql.IFNULL
        (Sql.SUM
           (map Fee.amount
              (entries_of db (Student.id stud) ++
               [Fee.mk fee_id (Student.id stud) a (Clock.fmt_timestamp now)
                       (FeesForm.mode form) (FeesForm.remark form)])))
        0%Q /\
    Profile.due p' =
      (Py.or0 (Student.total_fee (Profile.s p)) - Profile.paid p')%Q.
Proof.
  intros Ha Hfind Hp _.
  destruct (profile_rows_after_payment now form db a stud p Ha Hfind Hp)
    as (p' & fee_id & H1 & H0 & H2 & _ & H4 & H5 & H6).
  exists p', fee_id. repeat split; assumption.
Qed.

End PaymentClaims.

Lemma C1_due_derived_from_entries_witness :
  exists p' fee_id,
    student_profile 1 (fst (fst (Ex.paid_at_noon 5000%Q Ex.db1))) = Some p'
    /\ fees_rows (fst (fst (Ex.paid_at_noon 5000%Q Ex.db1))) =
       [Fee.mk fee_id 1 5000%Q "2024-03-15 12:00:00" "cash" ""]
    /\ Profile.paid p' =
       Sql.IFNULL
         (Sql.SUM [Fee.amount
                     (Fee.mk fee_id 1 5000%Q "2024-03-15 12:00:00"
                             "cash" "")]) 0%Q
    /\ Profile.due p' = (Py.or0 (Some 20000%Q) - Profile.paid p')%Q.
Proof.
  destruct (proj2 (proj2 (proj2
             (C1_due_derived_from_entries Ex.sms_ok Ex.email_ok Ex.show
                Ex.db1 1%Z Ex.profile1 eq_refl)))
             Ex.noon (Ex.pay_cs101 5000%Q) 5000%Q Ex.cs101
             eq_refl eq_refl eq_refl)
    as (p' & fee_id & H1 & H2 & _ & _ & H5 & H6).
  exists p', fee_id. split; [exact H1|]. split; [exact H2|].
  split; [exact H5|exact H6].
Defined.

(** C1 as stated fails in the arithmetic of the code. With a total fee
    of 1e16 and no entry the due is 1e16; after an entry of 1 it is
    still 1e16. With a total fee of 20000, after 0.01 the due is
    19999.99 and after a second 0.01 it is 19999.98, and the two differ
    by 0.010000000000218279, not by 0.01. *)
Lemma C1_counterexample :
  B64.due (Some 1e16%float) [] = 1e16%float /\
  B64.due (Some 1e16%float) [1%float] = 1e16%float /\
  PrimFloat.eqb
    (B64.due (Some 1e16%float) [] - B64.due (Some 1e16%float) [1%float])
    1 = false /\
  B64.due (Some 20000%float) [0.01%float] = 19999.99%float /\
  B64.due (Some 20000%float) [0.01%float; 0.01%float] = 19999.98%float /\
  PrimFloat.eqb
    (B64.due (Some 20000%float) [0.01%float]
     - B64.due (Some 20000%float) [0.01%float; 0.01%float])
    0.01 = false.
Proof. repeat split; vm_compute; reflexivity. Qed.

(** C2 as stated fails: a payment of -10 for CS101 is not refused, and
    it is written to [fees]. *)
Lemma C2_counterexample :
  (-10 # 1 <= 0)%Q /\
  snd (Ex.paid_at_noon (-10 # 1)%Q Ex.db1) = redirect (to_receipt 1) /\
  fees_rows (fst (fst (Ex.paid_at_noon (-10 # 1)%Q Ex.db1))) =
    [Fee.mk 1 1 (-10 # 1)%Q "2024-03-15 12:00:00" "cash" ""] /\
  ~ (refused (snd (Ex.paid_at_noon (-10 # 1)%Q Ex.db1)) = true /\
     fst (fst (Ex.paid_at_noon (-10 # 1)%Q Ex.db1)) = Ex.db1).
Proof.
  split; [vm_compute; discriminate|].
  split; [reflexivity|]. split; [reflexivity|].
  intros [H _]. vm_compute in H. discriminate.
Qed.

(** The run of the specification's example: 5000 then 15000 bring the
    due of CS101 from 20000 to 0; a further payment of -10 is stored and
    the due becomes 10. *)
Example ledger_example :
  (forall p, student_profile 1 Ex.ledger = Some p ->
     (Profile.due p == 15000)%Q) /\
  (forall p,
     student_profile 1 (fst (fst (Ex.paid_at_noon 15000%Q Ex.ledger))) =
       Some p ->
     (Profile.due p == 0)%Q) /\
  (forall p,
     student_profile 1
       (fst (fst (Ex.paid_at_noon (-10 # 1)%Q
                    (fst (fst (Ex.paid_at_noon 15000%Q Ex.ledger)))))) =
       Some p ->
     (Profile.due p == 10)%Q).
Proof.
  repeat split; intros p Hp; vm_compute in Hp; injection Hp as <-;
    reflexivity.
Qed.

Lemma C2_nonpositive_amount_not_validated_witness :
  students_rows (fst (fst (Ex.paid_at_noon (-10 # 1)%Q Ex.db1))) = [Ex.cs101]
  /\ exists fee_id,
       snd (Ex.paid_at_noon (-10 # 1)%Q Ex.db1) = redirect (to_receipt fee_id)
       /\ fees_rows (fst (fst (Ex.paid_at_noon (-10 # 1)%Q Ex.db1))) =
          [Fee.mk fee_id 1 (-10 # 1)%Q "2024-03-15 12:00:00" "cash" ""].
Proof.
  assert (Hle : (-10 # 1 <= 0)%Q) by (vm_compute; discriminate).
  exact (C2_nonpositive_amount_not_validated Ex.sms_ok Ex.email_ok Ex.show
           Ex.noon (Ex.pay_cs101 (-10 # 1)%Q) Ex.db1 (-10 # 1)%Q
           eq_refl Hle).
Defined.

Lemma C10_overpayment_accepted_witness :
  (Profile.due Ex.profile1 < 25000)%Q /\
  exists p' fee_id,
    snd (Ex.paid_at_noon 25000%Q Ex.db1) = redirect (to_receipt fee_id) /\
    fees_rows (fst (fst (Ex.paid_at_noon 25000%Q Ex.db1))) =
      [Fee.mk fee_id 1 25000%Q "2024-03-15 12:00:00" "cash" ""] /\
    student_profile 1 (fst (fst (Ex.paid_at_noon 25000%Q Ex.db1)))
      = Some p'.
Proof.
  assert (Hlt : (Profile.due Ex.profile1 < 25000)%Q) by reflexivity.
  split; [exact Hlt|].
  destruct (C10_overpayment_accepted Ex.sms_ok Ex.email_ok Ex.show
              Ex.noon (Ex.pay_cs101 25000%Q) Ex.db1 25000%Q Ex.cs101
              Ex.profile1 eq_refl eq_refl eq_refl Hlt)
    as (p' & fee_id & H1 & H2 & H3 & _).
  exists p', fee_id. split; [exact H1|]. split; [exact H2|exact H3].
Defined.

(** C10 as stated fails in the arithmetic of the code. With a total fee
    of 10000.3 and one entry of 5000.1 the due is 5000.199999999999; a
    payment of 5000.2 is larger, and the due read after it is 0.0, not a
    negative number. *)
Lemma C10_counterexample :
  B64.due (Some 10000.3%float) [5000.1%float] = 5000.199999999999%float /\
  PrimFloat.ltb (B64.due (Some 10000.3%float) [5000.1%float]) 5000.2
    = true /\
  B64.due (Some 10000.3%float) [5000.1%float; 5000.2%float] = 0%float /\
  PrimFloat.ltb
    (B64.due (Some 10000.3%float) [5000.1%float; 5000.2%float]) 0
    = false.
Proof. repeat split; vm_compute; reflexivity. Qed.

(** ** Notifications *)

Section Notifications.

Variable send_sms : string -> string -> option Py.exn.
Variable send_email : string -> string -> string -> option Py.exn.
Variable str_float : Q -> string.

(** The block [try: if phone: send_sms(..)  if email: send_email(..)
    except Exception as e: print(label, e)] of both handlers. *)
Lemma notify_block (phone email t subj body label : string) :
  let ev :=
    Eff.try_print
      (Eff.when (Py.truthy phone) (call_sms send_sms phone t) ;;
       Eff.when (Py.truthy email) (call_email send_email email subj body))
      label in
  (phone = "" -> forall p' t', ~ In (SmsAttempt p' t') ev) /\
  (email = "" -> forall a' s' b', ~ In (EmailAttempt a' s' b') ev) /\
  (forall p' t' e, In (SmsAttempt p' t') ev -> send_sms p' t' = Some e ->
     In (Printed label e) ev) /\
  (forall a' s' b' e, In (EmailAttempt a' s' b') ev ->
     send_email a' s' b' = Some e -> In (Printed label e) ev).
Proof.
  unfold call_sms, call_email, Eff.when, Eff.try_print, Eff.bind, Eff.ret.
  destruct phone as [|c phone], email as [|c' email];
    cbn [Py.truthy];
    try destruct (send_sms _ _) as [e1|] eqn:E1;
    try destruct (send_email _ _ _) as [e2|] eqn:E2;
    cbn -[In]; repeat split; intros; cbn [In] in *;
    try discriminate; intuition (try congruence).
Qed.

Lemma fees_unfold now form db a stud :
  FeesForm.amount form = Py.Num a ->
  find (fun s => Student.roll_no s =? FeesForm.roll form)
       (students_rows db) = Some stud ->
  let ins := insert_fee (Student.id stud) a (Clock.fmt_timestamp now)
                        (FeesForm.mode form) (FeesForm.remark form) db in
  exists t subj body,
    fees send_sms send_email str_float now form db =
    (fst ins,
     Eff.try_print
       (Eff.when (Py.truthy (Student.phone stud))
          (call_sms send_sms (Student.phone stud) t) ;;
        Eff.when (Py.truthy (Student.email stud))
          (call_email send_email (Student.email stud) subj body))
       "Notification send error (fees):",
     redirect (to_receipt (snd ins))).
Proof.
  intros Ha Hfind ins. unfold fees.
  rewrite Ha. cbn [Py.float]. rewrite Hfind.
  do 3 eexists. reflexivity.
Qed.

(** C5. Once [POST /fees] has written the payment, the caller is sent to
    the receipt whatever the delivery functions do: the database and the
    answer are those of any other pair of delivery functions, an
    exception raised by a delivery is printed and goes no further, and a
    student without a phone number (without an e-mail address) causes no
    SMS (no e-mail) attempt. *)
Theorem C5_payment_independent_of_notification now form db a stud :
  FeesForm.amount form = Py.Num a ->
  find (fun s => Student.roll_no s =? FeesForm.roll form)
       (students_rows db) = Some stud ->
  let '(db', ev, r) := fees send_sms send_email str_float now form db in
  (exists fee_id,
     r = redirect (to_receipt fee_id) /\
     In (Fee.mk fee_id (Student.id stud) a (Clock.fmt_timestamp now)
                (FeesForm.mode form) (FeesForm.remark form))
        (fees_rows db')) /\
  (forall sms' email',
     fst (fst (fees sms' email' str_float now form db)) = db' /\
     snd (fees sms' email' str_float now form db) = r) /\
  (forall p t e, In (SmsAttempt p t) ev -> send_sms p t = Some e ->
     In (Printed "Notification send error (fees):" e) ev) /\
  (forall ad s b e, In (EmailAttempt ad s b) ev ->
     send_email ad s b = Some e ->
     In (Printed "Notification send error (fees):" e) ev) /\
  (Student.phone stud = "" -> forall p t, ~ In (SmsAttempt p t) ev) /\
  (Student.email stud = "" -> forall ad s b, ~ In (EmailAttempt ad s b) ev).
Proof.
  intros Ha Hfind.
  destruct (fees_unfold now form db a stud Ha Hfind)
    as (t & subj & body & ->).
  destruct (notify_block (Student.phone stud) (Student.email stud)
              t subj body "Notification send error (fees):")
    as (N1 & N2 & N3 & N4).
  split.
  { eexists. split; [reflexivity|]. rewrite insert_fee_rows.
    apply in_or_app. right. left. reflexivity. }
  split.
  { intros sms' email'.
    destruct (fees_accepts sms' email' str_float now form db a stud Ha Hfind)
      as [-> ->].
    split; reflexivity. }
  split; [exact N3|]. split; [exact N4|]. split; [exact N1|exact N2].
Qed.

(** The same isolation in [POST /admission]: after the insert the answer
    is the redirect, whatever the deliveries do. *)
Lemma admission_unfold now form db q :
  Py.float_or (AdmissionForm.total_fee form) 20000%Q = inr q ->
  exists photo saved,
    (forall e, In e saved -> exists f, e = SavedUpload f) /\
    match insert_student (AdmissionForm.name form) (AdmissionForm.roll form)
            (AdmissionForm.course form) (AdmissionForm.year form)
            (AdmissionForm.email form) (AdmissionForm.phone form)
            q photo db with
    | inr db' =>
        exists t subj body,
          admission send_sms send_email now form db =
          (db',
           (saved ++
            Eff.try_print
              (Eff.when (Py.truthy (AdmissionForm.phone form))
                 (call_sms send_sms (AdmissionForm.phone form) t) ;;
               Eff.when (Py.truthy (AdmissionForm.email form))
                 (call_email send_email (AdmissionForm.email form)
                    subj body))
              "Notification send error (admission):")%list,
           redirect to_students)
    | inl _ =>
        admission send_sms send_email now form db =
        (db, saved, text "Roll number already exists!")
    end.
Proof.
  intros Hq. unfold admission. rewrite Hq.
  destruct (AdmissionForm.photo form) as [fname|].
  - eexists; eexists. split.
    2:{ unfold insert_student. destruct (existsb _ _).
        - reflexivity.
        - do 3 eexists. reflexivity. }
    intros e [<-|[]]. eexists. reflexivity.
  - exists None, []. split; [intros e []|].
    unfold insert_student. destruct (existsb _ _).
    + reflexivity.
    + do 3 eexists. reflexivity.
Qed.

End Notifications.

(** ** Admission *)

Lemma insert_student_duplicate name roll course year email phone q photo db :
  (exists s, In s (students_rows db) /\ Student.roll_no s = roll) ->
  insert_student name roll course year email phone q photo db =
  inl Py.IntegrityError.
Proof.
  intros (s & Hin & Hroll). unfold insert_student.
  replace (existsb _ _) with true; [reflexivity|].
  symmetry. apply existsb_exists. exists s. split; [exact Hin|].
  apply String.eqb_eq. exact Hroll.
Qed.

Section Admission.

Variable send_sms : string -> string -> option Py.exn.
Variable send_email : string -> string -> string -> option Py.exn.

(** C3, as the code has it. When a student with roll number [R] is
    stored, [POST /admission] with roll number [R] stores nothing: the
    database is the one before the request, so the stored student is
    unchanged and no row is added, and no notification is attempted;
    the [INSERT] can only raise [IntegrityError]. When the total fee is
    text that [float] rejects, the answer is the [ValueError] raised
    before the insert is tried. When the total fee is blank or a number
    and no photo is uploaded, the answer is
    "Roll number already exists!". *)
Theorem C3_duplicate_roll_rejected now form db s :
  In s (students_rows db) ->
  Student.roll_no s = AdmissionForm.roll form ->
  fst (fst (admission send_sms send_email now form db)) = db /\
  In s (students_rows (fst (fst (admission send_sms send_email now form db))))
  /\
  (forall e, In e (snd (fst (admission send_sms send_email now form db))) ->
     exists f, e = SavedUpload f) /\
  (forall q photo,
     insert_student (AdmissionForm.name form) (AdmissionForm.roll form)
       (AdmissionForm.course form) (AdmissionForm.year form)
       (AdmissionForm.email form) (AdmissionForm.phone form) q photo db =
     inl Py.IntegrityError) /\
  (AdmissionForm.total_fee form = Py.Garbage ->
   admission send_sms send_email now form db =
   (db, [], unhandled Py.ValueError)) /\
  (AdmissionForm.total_fee form <> Py.Garbage ->
   AdmissionForm.photo form = None ->
   admission send_sms send_email now form db =
   (db, [], text "Roll number already exists!")).
Proof.
  intros Hin Hroll.
  assert (Hdup : exists s', In s' (students_rows db) /\
                            Student.roll_no s' = AdmissionForm.roll form)
    by (exists s; split; assumption).
  assert (Hins : forall q photo,
     insert_student (AdmissionForm.name form) (AdmissionForm.roll form)
       (AdmissionForm.course form) (AdmissionForm.year form)
       (AdmissionForm.email form) (AdmissionForm.phone form) q photo db =
     inl Py.IntegrityError).
  { intros q photo. apply insert_student_duplicate. exact Hdup. }
  assert (Hbad : AdmissionForm.total_fee form = Py.Garbage ->
                 admission send_sms send_email now form db =
                 (db, [], unhandled Py.ValueError)).
  { intros E. unfold admission. rewrite E. reflexivity. }
  destruct (Py.float_or (AdmissionForm.total_fee form) 20000%Q)
    as [e|q] eqn:Hq.
  - assert (E : AdmissionForm.total_fee form = Py.Garbage)
      by (destruct (AdmissionForm.total_fee form); try discriminate;
          reflexivity).
    rewrite (Hbad E). cbn [fst snd].
    split; [reflexivity|]. split; [exact Hin|].
    split; [intros e0 []|]. split; [exact Hins|].
    split; [reflexivity|]. intros Hne. congruence.
  - destruct (admission_unfold send_sms send_email now form db q Hq)
      as (photo & saved & Hsaved & Hadm).
    rewrite Hins in Hadm. rewrite Hadm. cbn [fst snd].
    split; [reflexivity|]. split; [exact Hin|].
    split; [exact Hsaved|]. split; [exact Hins|].
    split.
    + intros E. rewrite E in Hq. discriminate.
    + intros _ Hphoto. rewrite <- Hadm. unfold admission.
      rewrite Hq, Hphoto, Hins. reflexivity.
Qed.

(** C9, as the code has it. [POST /admission] checks neither the roll
    number, nor the name, nor the sign of [total_fee]. A request with an
    empty roll number, an empty name or a negative total fee, and
    without a photo, is treated like any other: when no stored student
    has its roll number the student is inserted with the fields as sent
    and the caller is sent to the student list; when one has, the
    answer is "Roll number already exists!" and the database is
    unchanged. *)
Theorem C9_admission_fields_not_validated now form db q :
  Py.float_or (AdmissionForm.total_fee form) 20000%Q = inr q ->
  AdmissionForm.roll form = "" \/ AdmissionForm.name form = "" \/ (q < 0)%Q ->
  AdmissionForm.photo form = None ->
  let '(db', _, r) := admission send_sms send_email now form db in
  if existsb (fun s => Student.roll_no s =? AdmissionForm.roll form)
             (students_rows db)
  then r = text "Roll number already exists!" /\ db' = db
  else
    r = redirect to_students /\
    exists rowid,
      students_rows db' =
      (students_rows db ++
       [Student.mk rowid (AdmissionForm.name form) (AdmissionForm.roll form)
          (AdmissionForm.course form) (AdmissionForm.year form)
          (AdmissionForm.email form) (AdmissionForm.phone form)
          (Some q) None])%list.
Proof.
  intros Hq _ Hphoto. unfold admission. rewrite Hq, Hphoto.
  unfold insert_student. destruct (existsb _ _).
  - split; reflexivity.
  - split; [reflexivity|]. eexists. reflexivity.
Qed.

End Admission.

Lemma C3_duplicate_roll_rejected_witness :
  admission Ex.sms_ok Ex.email_ok Ex.noon Ex.admit_cs101 Ex.db1 =
    (Ex.db1, [], text "Roll number already exists!").
Proof.
  assert (Hfee : AdmissionForm.total_fee Ex.admit_cs101 <> Py.Garbage)
    by discriminate.
  destruct (C3_duplicate_roll_rejected Ex.sms_ok Ex.email_ok Ex.noon
              Ex.admit_cs101 Ex.db1 Ex.cs101 (or_introl eq_refl) eq_refl)
    as (_ & _ & _ & _ & _ & H).
  exact (H Hfee eq_refl).
Defined.

(** C3 as stated fails: a second admission of CS101 whose total fee is
    not a number is answered with the [ValueError] of [float], not with
    "Roll number already exists!" (nothing is stored either way). *)
Lemma C3_counterexample :
  In Ex.cs101 (students_rows Ex.db1) /\
  Student.roll_no Ex.cs101 = AdmissionForm.roll Ex3.admit_cs101_bad_fee /\
  admission Ex.sms_ok Ex.email_ok Ex.noon Ex3.admit_cs101_bad_fee Ex.db1 =
    (Ex.db1, [], unhandled Py.ValueError) /\
  snd (admission Ex.sms_ok Ex.email_ok Ex.noon Ex3.admit_cs101_bad_fee
         Ex.db1) <> text "Roll number already exists!".
Proof.
  split; [left; reflexivity|]. split; [reflexivity|].
  split; [reflexivity|]. discriminate.
Qed.

(** C9 as stated fails: an admission with an empty roll number, an empty
    name and a total fee of -5 is not refused, and the student is
    stored. *)
Lemma C9_counterexample :
  AdmissionForm.roll Ex.admit_nobody = "" /\
  AdmissionForm.name Ex.admit_nobody = "" /\
  AdmissionForm.total_fee Ex.admit_nobody = Py.Num (-5 # 1)%Q /\
  (-5 # 1 < 0)%Q /\
  snd (admission Ex.sms_ok Ex.email_ok Ex.noon Ex.admit_nobody init_db) =
    redirect to_students /\
  students_rows
    (fst (fst (admission Ex.sms_ok Ex.email_ok Ex.noon Ex.admit_nobody
                 init_db))) =
    [Student.mk 1 "" "" "CSE" "1" "" "" (Some (-5 # 1)%Q) None] /\
  ~ (refused
       (snd (admission Ex.sms_ok Ex.email_ok Ex.noon Ex.admit_nobody
               init_db)) = true /\
     students_rows
       (fst (fst (admission Ex.sms_ok Ex.email_ok Ex.noon Ex.admit_nobody
                    init_db))) = students_rows init_db).
Proof.
  repeat (split; [reflexivity|]).
  intros [H _]. vm_compute in H. discriminate.
Qed.

Lemma C9_admission_fields_not_validated_witness :
  snd (admission Ex.sms_ok Ex.email_ok Ex.noon Ex.admit_nobody init_db) =
    redirect to_students /\
  exists rowid,
    students_rows
      (fst (fst (admission Ex.sms_ok Ex.email_ok Ex.noon Ex.admit_nobody
                   init_db))) =
    [Student.mk rowid "" "" "CSE" "1" "" "" (Some (-5 # 1)%Q) None].
Proof.
  exact (C9_admission_fields_not_validated Ex.sms_ok Ex.email_ok Ex.noon
           Ex.admit_nobody init_db (-5 # 1)%Q eq_refl (or_introl eq_refl)
           eq_refl).
Defined.

Lemma C5_payment_independent_of_notification_witness :
  (exists fee_id,
     snd (fees Ex.sms_down Ex.email_ok Ex.show Ex.noon
            (Ex.pay_cs101 5000%Q) Ex.db2) = redirect (to_receipt fee_id)) /\
  In (Printed "Notification send error (fees):"
        (Py.Exception "gateway unreachable"))
     (snd (fst (fees Ex.sms_down Ex.email_ok Ex.show Ex.noon
                  (Ex.pay_cs101 5000%Q) Ex.db2))) /\
  forall ad s b,
    ~ In (EmailAttempt ad s b)
         (snd (fst (fees Ex.sms_down Ex.email_ok Ex.show Ex.noon
                      (Ex.pay_cs101 5000%Q) Ex.db2))).
Proof.
  pose proof (C5_payment_independent_of_notification
                Ex.sms_down Ex.email_ok Ex.show Ex.noon
                (Ex.pay_cs101 5000%Q) Ex.db2 5000%Q Ex.cs101_phone
                eq_refl eq_refl) as T.
  cbv beta iota zeta delta [fees Ex.pay_cs101 FeesForm.amount Py.float
    FeesForm.roll Ex.db2 students_rows find Student.roll_no Ex.cs101_phone
    String.eqb Ascii.eqb Bool.eqb insert_fee] in T.
  destruct T as ((fee_id & Hr & _) & _ & Hsms & _ & _ & Hmail).
  split; [exists fee_id; exact Hr|]. split.
  - apply (Hsms "9876543210"
             ("Hi Asha! ₹" ++ Ex.show 5000%Q ++ " fees received successfully.")).
    + left. reflexivity.
    + reflexivity.
  - exact (Hmail eq_refl).
Defined.

Lemma next_rowid_fresh (ids : list Z) (seq : Z) :
  Forall (fun i => (i < Sql.next_rowid ids seq)%Z) ids /\
  (seq < Sql.next_rowid ids seq)%Z.
Proof.
  unfold Sql.next_rowid. induction ids as [|i ids [IH1 IH2]]; simpl.
  - split; [constructor|lia].
  - split; [|lia]. constructor; [lia|].
    eapply Forall_impl; [|exact IH1]. simpl. intros; lia.
Qed.

(** ** What a request does to the tables *)

Section Transitions.

Variable send_sms : string -> string -> option Py.exn.
Variable send_email : string -> string -> string -> option Py.exn.
Variable str_float : Q -> string.

Local Abbreviation step := (db_after send_sms send_email str_float).

(** [POST /admission] leaves the database alone or appends one student
    with a fresh rowid. *)
Lemma admission_db now form db :
  let db' := fst (fst (admission send_sms send_email now form db)) in
  db' = db \/
  exists s,
    students_rows db' = (students_rows db ++ [s])%list /\
    Student.id s =
      Sql.next_rowid (map Student.id (students_rows db)) (students_seq db) /\
    Student.roll_no s = AdmissionForm.roll form /\
    (forall s0, In s0 (students_rows db) ->
       Student.roll_no s0 <> Student.roll_no s) /\
    fees_rows db' = fees_rows db /\ fees_seq db' = fees_seq db.
Proof.
  intros db'. subst db'.
  destruct (Py.float_or (AdmissionForm.total_fee form) 20000%Q)
    as [e|q] eqn:Hq.
  { left. unfold admission. rewrite Hq. reflexivity. }
  destruct (admission_unfold send_sms send_email now form db q Hq)
    as (photo & saved & _ & Hadm).
  unfold insert_student in Hadm.
  destruct (existsb _ _) eqn:E.
  - left. rewrite Hadm. reflexivity.
  - right. destruct Hadm as (t & subj & body & ->).
    eexists. cbn [fst students_rows fees_rows fees_seq].
    split; [reflexivity|]. cbn [Student.id Student.roll_no].
    repeat split.
    intros s0 Hin Heq.
    assert (existsb (fun s => Student.roll_no s =? AdmissionForm.roll form)
                    (students_rows db) = true); [|congruence].
    apply existsb_exists. exists s0. split; [exact Hin|].
    apply String.eqb_eq. exact Heq.
Qed.

(** [POST /fees] leaves the database alone or appends one entry that
    carries the rowid of the student found by roll number. *)
Lemma fees_db now form db :
  let db' := fst (fst (fees send_sms send_email str_float now form db)) in
  students_rows db' = students_rows db /\
  students_seq db' = students_seq db /\
  (db' = db \/
   exists stud f,
     In stud (students_rows db) /\
     Student.roll_no stud = FeesForm.roll form /\
     Fee.student_id f = Student.id stud /\
     fees_rows db' = (fees_rows db ++ [f])%list).
Proof.
  intros db'. subst db'. unfold fees.
  destruct (Py.float (FeesForm.amount form)) as [e|a].
  { repeat split. left. reflexivity. }
  destruct (find _ _) as [stud|] eqn:Hfind.
  2:{ repeat split. left. reflexivity. }
  apply find_roll_In in Hfind. destruct Hfind as [Hin Hroll].
  cbv zeta. cbn [fst snd insert_fee students_rows students_seq fees_rows].
  repeat split. right. exists stud. eexists.
  split; [exact Hin|]. split; [exact Hroll|].
  split; [|reflexivity]. reflexivity.
Qed.

Lemma update_student_id sid form q photo s :
  Student.id (update_student sid form q photo s) = Student.id s.
Proof. unfold update_student. destruct (_ =? _)%Z; reflexivity. Qed.

Lemma update_student_roll sid form q photo s :
  Student.roll_no (update_student sid form q photo s) = Student.roll_no s.
Proof. unfold update_student. destruct (_ =? _)%Z; reflexivity. Qed.

Lemma edit_student_db sid now form db :
  let db' := fst (fst (edit_student sid now form db)) in
  fees_rows db' = fees_rows db /\
  map Student.id (students_rows db') = map Student.id (students_rows db) /\
  map Student.roll_no (students_rows db') =
  map Student.roll_no (students_rows db).
Proof.
  intros db'. subst db'. unfold edit_student.
  destruct (Py.float_or _ _) as [e|q]; [repeat split|].
  destruct (EditForm.photo form);
    cbn [fst students_rows fees_rows]; rewrite !map_map;
    (split; [reflexivity|]); split; apply map_ext; intros s0;
    auto using update_student_id, update_student_roll.
Qed.

Lemma StronglySorted_older_ids (l l' : list Student.row) :
  map Student.id l' = map Student.id l ->
  StronglySorted older l -> StronglySorted older l'.
Proof.
  revert l'. induction l as [|x l IH]; intros [|x' l'] Hmap Hs;
    try discriminate; [constructor|].
  simpl in Hmap. injection Hmap as Hx Hl.
  apply StronglySorted_inv in Hs. destruct Hs as [Hs Hall].
  constructor; [apply IH; assumption|].
  rewrite Forall_forall in *. intros y' Hy'.
  apply (in_map Student.id) in Hy'. rewrite Hl in Hy'.
  apply in_map_iff in Hy'. destruct Hy' as (y & Hid & Hy).
  specialize (Hall y Hy). unfold older in *. lia.
Qed.

(** Rowids grow with every admission, so every request keeps the rows of
    [students] in the order of admission. *)
Lemma step_admission_order r db :
  admission_order db -> admission_order (step r db).
Proof.
  unfold admission_order, db_after. intros Hs.
  destruct r as [now form|sid now form|sid|now form]; cbn [handle].
  - destruct (admission_db now form db) as [->|(s & -> & Hid & _)];
      [exact Hs|].
    apply StronglySorted_snoc; [exact Hs|].
    destruct (next_rowid_fresh (map Student.id (students_rows db))
                (students_seq db)) as [Hfresh _].
    rewrite Forall_forall in *. intros y Hy. unfold older. rewrite Hid.
    apply Hfresh. apply in_map. exact Hy.
  - destruct (edit_student_db sid now form db) as (_ & Hids & _).
    eapply StronglySorted_older_ids; eassumption.
  - cbn [delete_student fst students_rows].
    apply StronglySorted_filter. exact Hs.
  - destruct (fees_db now form db) as (-> & _). exact Hs.
Qed.

(** Every request keeps each fee entry attached to a stored student. *)
Lemma step_referential_integrity r db :
  referential_integrity db -> referential_integrity (step r db).
Proof.
  unfold referential_integrity, db_after. intros RI.
  destruct r as [now form|sid now form|sid|now form]; cbn [handle].
  - destruct (admission_db now form db)
      as [->|(s & -> & _ & _ & _ & -> & _)]; [exact RI|].
    intros f Hf. destruct (RI f Hf) as (s0 & Hin & Hid).
    exists s0. split; [apply in_or_app; left; exact Hin|exact Hid].
  - destruct (edit_student_db sid now form db) as (-> & Hids & _).
    intros f Hf. destruct (RI f Hf) as (s0 & Hin & Hid).
    apply (in_map Student.id) in Hin. rewrite <- Hids in Hin.
    apply in_map_iff in Hin. destruct Hin as (s1 & Hid1 & Hin1).
    exists s1. split; [exact Hin1|congruence].
  - cbn [delete_student fst students_rows fees_rows].
    intros f Hf. apply filter_In in Hf. destruct Hf as [Hf Hne].
    destruct (RI f Hf) as (s0 & Hin & Hid).
    exists s0. split; [|exact Hid].
    apply filter_In. split; [exact Hin|]. rewrite Hid. exact Hne.
  - destruct (fees_db now form db)
      as (-> & _ & [->|(stud & f0 & Hin & _ & Hsid & ->)]); [exact RI|].
    intros f Hf. apply in_app_or in Hf. destruct Hf as [Hf|[<-|[]]].
    + exact (RI f Hf).
    + exists stud. split; [exact Hin|symmetry; exact Hsid].
Qed.

Lemma reachable_admission_order db :
  reachable send_sms send_email str_float db -> admission_order db.
Proof.
  induction 1 as [|r db _ IH].
  - constructor.
  - apply step_admission_order. exact IH.
Qed.

Lemma reachable_referential_integrity db :
  reachable send_sms send_email str_float db -> referential_integrity db.
Proof.
  induction 1 as [|r db _ IH].
  - intros f [].
  - apply step_referential_integrity. exact IH.
Qed.

End Transitions.

(** ** Reachable states *)

Lemma filter_negb_filter {A} (f : A -> bool) (l : list A) :
  filter f (filter (fun x => negb (f x)) l) = [].
Proof.
  induction l as [|x l IH]; simpl; [reflexivity|].
  destruct (f x) eqn:E; simpl; [exact IH|]. rewrite E. exact IH.
Qed.

Lemma filter_negb_filter_find sid (l : list Student.row) :
  find (fun s => (Student.id s =? sid)%Z)
       (filter (fun s => negb (Student.id s =? sid)%Z) l) = None.
Proof.
  induction l as [|x l IH]; simpl; [reflexivity|].
  destruct (Student.id x =? sid)%Z eqn:E; simpl; [exact IH|].
  rewrite E. exact IH.
Qed.

Section ReachableClaims.

Variable send_sms : string -> string -> option Py.exn.
Variable send_email : string -> string -> string -> option Py.exn.
Variable str_float : Q -> string.

Local Abbreviation step := (db_after send_sms send_email str_float).
Local Abbreviation reach := (reachable send_sms send_email str_float).

(** C4. In every state the application reaches, each row of [fees]
    carries the rowid of a stored student, and every request keeps it
    so. Deleting student [sid] leaves no fee entry and no student with
    that rowid, so the entries listed for [sid] are empty afterwards.
    [POST /fees] adds an entry only for a student it found by roll
    number; when it finds none the database is unchanged. *)
Theorem C4_referential_integrity db :
  reach db ->
  referential_integrity db
  /\ (forall r, referential_integrity (step r db))
  /\ (forall sid,
        fees_of (step (POST_delete sid) db) sid = [] /\
        (forall f, In f (fees_rows (step (POST_delete sid) db)) ->
           In f (fees_rows db) /\ Fee.student_id f <> sid) /\
        (forall s, In s (students_rows (step (POST_delete sid) db)) ->
           In s (students_rows db) /\ Student.id s <> sid) /\
        student_profile sid (step (POST_delete sid) db) = None)
  /\ (forall now form f,
        In f (fees_rows (step (POST_fees now form) db)) ->
        ~ In f (fees_rows db) ->
        exists stud,
          In stud (students_rows db) /\
          Student.roll_no stud = FeesForm.roll form /\
          Fee.student_id f = Student.id stud)
  /\ (forall now form,
        find (fun s => Student.roll_no s =? FeesForm.roll form)
             (students_rows db) = None ->
        step (POST_fees now form) db = db).
Proof.
  intros Hreach.
  pose proof (reachable_referential_integrity _ _ _ db Hreach) as RI.
  split; [exact RI|]. split.
  { intros r. apply step_referential_integrity. exact RI. }
  split.
  { intros sid. unfold db_after.
    cbn [handle delete_student fst students_rows fees_rows].
    split.
    { unfold fees_of. cbn [fees_rows].
      rewrite (filter_negb_filter
                 (fun f => (Fee.student_id f =? sid)%Z)). reflexivity. }
    split.
    { intros f Hf. apply filter_In in Hf. destruct Hf as [Hf Hne].
      split; [exact Hf|].
      intros E. rewrite E, Z.eqb_refl in Hne. discriminate. }
    split.
    { intros s Hs. apply filter_In in Hs. destruct Hs as [Hs Hne].
      split; [exact Hs|].
      intros E. rewrite E, Z.eqb_refl in Hne. discriminate. }
    unfold student_profile. cbn [students_rows].
    rewrite (filter_negb_filter_find sid (students_rows db)). reflexivity. }
  split.
  { intros now form f Hf Hnew. unfold db_after in Hf. cbn [handle] in Hf.
    destruct (fees_db send_sms send_email str_float now form db)
      as (_ & _ & [E|(stud & f0 & Hin & Hroll & Hsid & E)]);
      rewrite E in Hf; [contradiction|].
    apply in_app_or in Hf. destruct Hf as [Hf|[<-|[]]]; [contradiction|].
    exists stud. auto. }
  intros now form Hfind. unfold db_after. cbn [handle].
  unfold fees. destruct (Py.float _); [reflexivity|].
  rewrite Hfind. reflexivity.
Qed.

(** C6. In every state the application reaches, each row of the dues
    export carries the paid and due figures the profile page of the same
    student shows, and every profile has such a row: both sum the
    amounts of the student's rows of [fees], with 0 when there is none,
    and subtract the sum from [total_fee]. *)
Theorem C6_export_agrees_with_profile db :
  reach db ->
  (forall row, In row (export_dues db) ->
     exists p,
       student_profile (DuesCsv.id row) db = Some p /\
       DuesCsv.paid row = Profile.paid p /\
       DuesCsv.due row = Profile.due p /\
       (Profile.paid p == total (entries_of db (DuesCsv.id row)))%Q /\
       (Profile.due p ==
        Py.or0 (DuesCsv.total_fee row)
        - total (entries_of db (DuesCsv.id row)))%Q)
  /\ (forall sid p, student_profile sid db = Some p ->
        exists row,
          In row (export_dues db) /\
          DuesCsv.id row = sid /\
          DuesCsv.paid row = Profile.paid p /\
          DuesCsv.due row = Profile.due p).
Proof.
  intros Hreach.
  pose proof (reachable_admission_order _ _ _ db Hreach) as Hord.
  split.
  - intros row Hrow. unfold export_dues in Hrow.
    apply in_map_iff in Hrow. destruct Hrow as (s & <- & Hs).
    apply order_by_In in Hs. cbn [DuesCsv.id DuesCsv.paid DuesCsv.due
                                  DuesCsv.total_fee].
    unfold student_profile.
    rewrite (find_by_key Student.id (students_rows db) s Hord Hs).
    eexists. split; [reflexivity|].
    cbn [Profile.paid Profile.due].
    repeat split; rewrite sum_paid_total; reflexivity.
  - intros sid p Hp. unfold student_profile in Hp.
    destruct (find _ _) as [s|] eqn:Hfind; [|discriminate].
    injection Hp as <-. apply find_some in Hfind.
    destruct Hfind as [Hin Hid]. apply Z.eqb_eq in Hid. subst sid.
    eexists. split.
    + unfold export_dues. apply in_map. apply order_by_In. exact Hin.
    + repeat split.
Qed.

End ReachableClaims.

Lemma ledger_reachable :
  reachable Ex.sms_ok Ex.email_ok Ex.show Ex.ledger.
Proof. unfold Ex.ledger. apply reach_step, reach_step, reach_init. Defined.

Lemma C4_referential_integrity_witness :
  referential_integrity Ex.ledger /\
  fees_rows Ex.ledger =
    [Fee.mk 1 1 5000%Q "2024-03-15 12:00:00" "cash" ""] /\
  fees_of (db_after Ex.sms_ok Ex.email_ok Ex.show (POST_delete 1) Ex.ledger)
          1 = [].
Proof.
  destruct (C4_referential_integrity Ex.sms_ok Ex.email_ok Ex.show
              Ex.ledger ledger_reachable) as (RI & _ & Hdel & _).
  split; [exact RI|]. split; [reflexivity|]. exact (proj1 (Hdel 1%Z)).
Defined.

Lemma C6_export_agrees_with_profile_witness :
  exists row p,
    export_dues Ex.ledger = [row] /\
    student_profile 1 Ex.ledger = Some p /\
    DuesCsv.paid row = Profile.paid p /\
    DuesCsv.due row = Profile.due p /\
    (Profile.due p == 15000)%Q.
Proof.
  destruct (proj1 (C6_export_agrees_with_profile Ex.sms_ok Ex.email_ok
                     Ex.show Ex.ledger ledger_reachable)
              (DuesCsv.mk 1 "Asha" "CS101" "CSE" "" (Some 20000%Q)
                 (sum_paid Ex.ledger 1)
                 (Py.or0 (Some 20000%Q) - sum_paid Ex.ledger 1)%Q)
              (or_introl eq_refl))
    as (p & Hp & Hpaid & Hdue & _ & Hspec).
  eexists. exists p. split; [reflexivity|].
  split; [exact Hp|]. split; [exact Hpaid|]. split; [exact Hdue|].
  rewrite Hspec. reflexivity.
Defined.

(** ** [LIKE] *)

Lemma like_percent_step (p s : string) :
  Sql.like_chars (String "%" p) s =
  Sql.like_chars p s
  || match s with
     | "" => false
     | String _ s' => Sql.like_chars (String "%" p) s'
     end.
Proof. destruct s; reflexivity. Qed.

Lemma like_percent (s : string) : Sql.like_chars "%" s = true.
Proof.
  induction s as [|c s IH]; [reflexivity|].
  rewrite like_percent_step. rewrite IH. apply orb_true_r.
Qed.

Lemma like_char_step (c : ascii) (p : string) (d : ascii) (s : string) :
  Ascii.eqb c "%" = false ->
  Sql.like_chars (String c p) (String d s) =
  (Ascii.eqb c "_" || Ascii.eqb (Sql.lower c) (Sql.lower d)) && Sql.like_chars p s.
Proof. intros H. cbn [Sql.like_chars]. rewrite H. reflexivity. Qed.

Lemma like_char_empty (c : ascii) (p : string) :
  Ascii.eqb c "%" = false -> Sql.like_chars (String c p) "" = false.
Proof. intros H. cbn [Sql.like_chars]. rewrite H. reflexivity. Qed.

(** A pattern [q%] without wildcard in [q] asks for the prefix [q], up
    to ASCII case. *)
Lemma like_prefix (q s : string) :
  has_wildcard q = false ->
  Sql.like_chars (q ++ "%") s = starts_with_ci q s.
Proof.
  revert s. induction q as [|c q IH]; intros s Hq.
  - simpl. rewrite like_percent. reflexivity.
  - cbn [has_wildcard] in Hq. apply orb_false_iff in Hq.
    destruct Hq as [Hc Hq]. unfold wildcard in Hc.
    apply orb_false_iff in Hc. destruct Hc as [Hpc Hus].
    cbn [String.append]. destruct s as [|d s].
    + rewrite like_char_empty by exact Hpc. reflexivity.
    + rewrite like_char_step by exact Hpc. rewrite Hus, IH by exact Hq.
      reflexivity.
Qed.

(** A pattern [%q%] without wildcard in [q] asks for an occurrence of
    [q], up to ASCII case. *)
Lemma like_infix (q s : string) :
  has_wildcard q = false ->
  Sql.like_chars ("%" ++ q ++ "%") s = contains_ci q s.
Proof.
  intros Hq. cbn [String.append].
  induction s as [|d s IH].
  - rewrite like_percent_step, like_prefix by exact Hq. reflexivity.
  - rewrite like_percent_step, like_prefix, IH by exact Hq.
    destruct q; reflexivity.
Qed.

Lemma date_char_plain (c : ascii) :
  date_char c = true ->
  wildcard c = false /\
  forall d, Ascii.eqb (Sql.lower c) (Sql.lower d) = Ascii.eqb c d.
Proof.
  destruct c as [[] [] [] [] [] [] [] []];
    intros H; try (vm_compute in H; discriminate H); clear H;
    (split; [reflexivity|]);
    intros [[] [] [] [] [] [] [] []]; reflexivity.
Qed.

Lemma date_chars_no_wildcard (p : string) :
  date_chars p = true -> has_wildcard p = false.
Proof.
  induction p as [|c p IH]; [reflexivity|].
  cbn [date_chars has_wildcard]. intros H. apply andb_true_iff in H.
  destruct H as [Hc Hp]. destruct (date_char_plain c Hc) as [-> _].
  apply IH. exact Hp.
Qed.

Lemma date_chars_prefix (p s : string) :
  date_chars p = true -> starts_with_ci p s = starts_with p s.
Proof.
  revert s. induction p as [|c p IH]; intros s H; [reflexivity|].
  cbn [date_chars] in H. apply andb_true_iff in H. destruct H as [Hc Hp].
  destruct s as [|d s]; [reflexivity|].
  cbn [starts_with_ci starts_with].
  destruct (date_char_plain c Hc) as [_ ->]. rewrite IH by exact Hp.
  reflexivity.
Qed.

Lemma digit_date_char (n : nat) : date_char (Clock.digit n) = true.
Proof.
  unfold Clock.digit.
  pose proof (Nat.mod_upper_bound n 10 ltac:(discriminate)) as H.
  remember (n mod 10)%nat as k eqn:Hk. clear Hk.
  do 10 (destruct k as [|k]; [reflexivity|]). lia.
Qed.

Lemma fmt_day_date_chars (t : Clock.datetime) :
  date_chars (Clock.fmt_day t) = true.
Proof.
  unfold Clock.fmt_day, Clock.fmt_month, Clock.pad4, Clock.pad2.
  cbn [String.append date_chars]. rewrite !digit_date_char. reflexivity.
Qed.

Lemma upto_nul_id (s : string) : has_nul s = false -> Sql.upto_nul s = s.
Proof.
  induction s as [|c s IH]; [reflexivity|].
  cbn [has_nul Sql.upto_nul]. intros H. apply orb_false_iff in H.
  destruct H as [-> H]. rewrite IH by exact H. reflexivity.
Qed.

Lemma has_nul_append (a b : string) :
  has_nul (a ++ b) = has_nul a || has_nul b.
Proof.
  induction a as [|c a IH]; [reflexivity|]. simpl. rewrite IH.
  apply orb_assoc.
Qed.

(** On texts without NUL, [LIKE] is the comparison of the characters. *)
Lemma like_nul_free (p t : string) :
  has_nul p = false -> has_nul t = false ->
  Sql.like p t = Sql.like_chars p t.
Proof.
  intros Hp Ht. unfold Sql.like.
  rewrite (upto_nul_id p Hp), (upto_nul_id t Ht). reflexivity.
Qed.

(** A pattern [%q%] with neither wildcard nor NUL in [q] asks a text
    without NUL for an occurrence of [q], up to ASCII case. *)
Lemma like_infix_text (q s : string) :
  has_wildcard q = false -> has_nul q = false -> has_nul s = false ->
  Sql.like ("%" ++ q ++ "%") s = contains_ci q s.
Proof.
  intros Hw Hq Hs. rewrite like_nul_free.
  - apply like_infix. exact Hw.
  - rewrite !has_nul_append, Hq. reflexivity.
  - exact Hs.
Qed.

Lemma date_char_not_nul (c : ascii) :
  date_char c = true -> Ascii.eqb c Ascii.zero = false.
Proof.
  destruct c as [[] [] [] [] [] [] [] []];
    intros H; try reflexivity; vm_compute in H; discriminate H.
Qed.

Lemma date_chars_no_nul (p : string) :
  date_chars p = true -> has_nul p = false.
Proof.
  induction p as [|c p IH]; [reflexivity|].
  cbn [date_chars has_nul]. intros H. apply andb_true_iff in H.
  destruct H as [Hc Hp]. rewrite (date_char_not_nul c Hc).
  apply IH. exact Hp.
Qed.

Lemma starts_with_upto_nul (p s : string) :
  has_nul p = false ->
  starts_with p (Sql.upto_nul s) = starts_with p s.
Proof.
  revert s. induction p as [|c p IH]; intros s H; [reflexivity|].
  cbn [has_nul] in H. apply orb_false_iff in H. destruct H as [Hc Hp].
  destruct s as [|d s]; [reflexivity|]. cbn [Sql.upto_nul].
  destruct (Ascii.eqb d Ascii.zero) eqn:Hd.
  - apply Ascii.eqb_eq in Hd. subst d. cbn [starts_with].
    rewrite Hc. reflexivity.
  - cbn [starts_with]. rewrite IH by exact Hp. reflexivity.
Qed.

(** The day and month filters of the dashboard are prefix tests. *)
Lemma like_date_prefix (p s : string) :
  date_chars p = true -> Sql.like (p ++ "%") s = starts_with p s.
Proof.
  intros H. pose proof (date_chars_no_nul p H) as Hn.
  unfold Sql.like. rewrite upto_nul_id
    by (rewrite has_nul_append, Hn; reflexivity).
  rewrite like_prefix by (apply date_chars_no_wildcard; exact H).
  rewrite date_chars_prefix by exact H.
  apply starts_with_upto_nul. exact Hn.
Qed.

(** ** Dashboard and dues report *)

Lemma sum_like_prefix (db : DB) (p : string) :
  date_chars p = true ->
  sum_like db (p ++ "%") =
  Sql.IFNULL
    (Sql.SUM (map Fee.amount
                (filter (fun f => starts_with p (Fee.date f))
                        (fees_rows db))))
    0%Q.
Proof.
  intros H. unfold sum_like. f_equal. f_equal. f_equal.
  apply filter_ext. intros f. apply like_date_prefix. exact H.
Qed.

Lemma filter_none {A} (f : A -> bool) (l : list A) :
  (forall x, In x l -> f x = false) -> filter f l = [].
Proof.
  induction l as [|x l IH]; intros H; simpl; [reflexivity|].
  rewrite (H x (or_introl eq_refl)). apply IH.
  intros y Hy. apply H. right. exact Hy.
Qed.

(** C7. The "today" figure of the dashboard is the sum of the amounts of
    the fee entries whose [date] text starts, character for character,
    with the current day printed as [YYYY-MM-DD] (ten characters, digits
    and hyphens); when no entry starts with it the figure is 0. *)
Theorem C7_today_collection_is_prefix_sum now now' db :
  String.length (Clock.fmt_day now) = 10%nat /\
  date_chars (Clock.fmt_day now) = true /\
  (Dashboard.today_collection (dashboard now now' db) ==
   total (filter (fun f => starts_with (Clock.fmt_day now) (Fee.date f))
                 (fees_rows db)))%Q /\
  ((forall f, In f (fees_rows db) ->
      starts_with (Clock.fmt_day now) (Fee.date f) = false) ->
   Dashboard.today_collection (dashboard now now' db) = 0%Q).
Proof.
  split; [reflexivity|].
  pose proof (fmt_day_date_chars now) as Hday.
  split; [exact Hday|].
  unfold dashboard. cbn [Dashboard.today_collection].
  rewrite (sum_like_prefix db _ Hday). split.
  - apply IFNULL_SUM_amounts.
  - intros Hnone. rewrite filter_none by exact Hnone. reflexivity.
Qed.

Section DuesReport.

Variable send_sms : string -> string -> option Py.exn.
Variable send_email : string -> string -> string -> option Py.exn.
Variable str_float : Q -> string.

Lemma dues_report_students arg db :
  map Dues.student (dues_report arg db) =
  let q := Py.strip (match arg with Some v => v | None => "" end) in
  if Py.truthy q then
    Sql.order_by_desc Student.id
      (filter (fun s => Sql.like ("%" ++ q ++ "%") (Student.roll_no s)
                        || Sql.like ("%" ++ q ++ "%") (Student.name s))
              (students_rows db))
  else Sql.order_by_desc Student.id (students_rows db).
Proof.
  unfold dues_report. rewrite map_map. cbn [Dues.student].
  rewrite map_id. reflexivity.
Qed.

(** C8, as the code has it, for text of code points 0 to 255. [q] is
    the query with surrounding white space removed. When [q] is empty
    the report lists every student.
    When [q] is not empty, holds neither [%] nor [_] nor NUL, and no
    stored roll number or name holds NUL, it lists exactly the students
    whose roll number or name contains [q], ASCII letters compared
    without case. In both cases the students come newest first, each
    with the paid and due figures derived from [fees]. *)
Theorem C8_dues_report_filter arg db q :
  reachable send_sms send_email str_float db ->
  q = Py.strip (match arg with Some v => v | None => "" end) ->
  (q = "" ->
   map Dues.student (dues_report arg db) = rev (students_rows db)) /\
  (q <> "" -> has_wildcard q = false -> has_nul q = false ->
   (forall s, In s (students_rows db) ->
      has_nul (Student.roll_no s) = false /\
      has_nul (Student.name s) = false) ->
   map Dues.student (dues_report arg db) =
   rev (filter (fun s => contains_ci q (Student.roll_no s)
                         || contains_ci q (Student.name s))
               (students_rows db))) /\
  (forall r, In r (dues_report arg db) ->
     (Dues.paid r == paid_spec db (Dues.student r))%Q /\
     (Dues.due r == due_spec db (Dues.student r))%Q).
Proof.
  intros Hreach Hq.
  pose proof (reachable_admission_order _ _ _ db Hreach) as Hord.
  unfold admission_order in Hord.
  rewrite dues_report_students. cbv zeta. rewrite <- Hq.
  split; [|split].
  - intros ->. cbn [Py.truthy].
    apply (order_by_desc_sorted Student.id). exact Hord.
  - intros Hne Hwild Hnul Hrows. destruct q as [|c q]; [congruence|].
    cbn [Py.truthy].
    rewrite (order_by_desc_sorted Student.id)
      by (apply StronglySorted_filter; exact Hord).
    f_equal. apply filter_ext_in. intros s Hs.
    destruct (Hrows s Hs) as [Hr Hn].
    rewrite !like_infix_text by assumption. reflexivity.
  - intros r Hr. apply (dues_report_due arg db r Hr).
Qed.

End DuesReport.

Lemma C7_today_collection_is_prefix_sum_witness :
  Clock.fmt_day Ex.noon = "2024-03-15" /\
  (Dashboard.today_collection (dashboard Ex.noon Ex.noon Ex.ledger)
   == 5000)%Q /\
  Dashboard.today_collection (dashboard Ex.noon Ex.noon Ex.db1) = 0%Q.
Proof.
  destruct (C7_today_collection_is_prefix_sum Ex.noon Ex.noon Ex.ledger)
    as (_ & _ & Hsum & _).
  destruct (C7_today_collection_is_prefix_sum Ex.noon Ex.noon Ex.db1)
    as (_ & _ & _ & Hzero).
  split; [reflexivity|]. split.
  - rewrite Hsum. reflexivity.
  - apply Hzero. intros f [].
Defined.

(** C8 as stated fails: the query [_] selects CS101, whose roll number
    and name hold no underscore. *)
Lemma C8_counterexample :
  "_" <> "" /\
  reachable Ex.sms_ok Ex.email_ok Ex.show Ex.db1 /\
  contains_ci "_" (Student.roll_no Ex.cs101) = false /\
  contains_ci "_" (Student.name Ex.cs101) = false /\
  contains "_" (Student.roll_no Ex.cs101) = false /\
  contains "_" (Student.name Ex.cs101) = false /\
  map Dues.student (dues_report (Some "_") Ex.db1) = [Ex.cs101] /\
  map Dues.student (dues_report (Some "_") Ex.db1) <>
  rev (filter (fun s => contains_ci "_" (Student.roll_no s)
                        || contains_ci "_" (Student.name s))
              (students_rows Ex.db1)).
Proof.
  split; [discriminate|]. split.
  { change Ex.db1 with
      (db_after Ex.sms_ok Ex.email_ok Ex.show
         (POST_admission Ex.noon Ex.admit_cs101) init_db).
    apply reach_step, reach_init. }
  repeat (split; [reflexivity|]).
  vm_compute. discriminate.
Qed.

Lemma C8_dues_report_filter_witness :
  map Dues.student (dues_report (Some " cs1 ") Ex.db1) = [Ex.cs101] /\
  map Dues.student (dues_report None Ex.db1) = [Ex.cs101].
Proof.
  assert (R : reachable Ex.sms_ok Ex.email_ok Ex.show Ex.db1).
  { change Ex.db1 with
      (db_after Ex.sms_ok Ex.email_ok Ex.show
         (POST_admission Ex.noon Ex.admit_cs101) init_db).
    apply reach_step, reach_init. }
  assert (Hne : "cs1" <> "") by discriminate.
  assert (Hnul : forall s, In s (students_rows Ex.db1) ->
                   has_nul (Student.roll_no s) = false /\
                   has_nul (Student.name s) = false).
  { intros s [<-|[]]. split; reflexivity. }
  split.
  - exact (proj1 (proj2 (C8_dues_report_filter Ex.sms_ok Ex.email_ok Ex.show
                           (Some " cs1 ") Ex.db1 "cs1" R eq_refl))
             Hne eq_refl eq_refl Hnul).
  - exact (proj1 (C8_dues_report_filter Ex.sms_ok Ex.email_ok Ex.show
                    None Ex.db1 "" R eq_refl) eq_refl).
Defined.

(* ------------------------------------------------------------------ *)
(** * Further properties of the handlers *)

(** ** Lists *)

Lemma NoDup_map_filter {A B} (g : A -> B) (f : A -> bool) (l : list A) :
  NoDup (map g l) -> NoDup (map g (filter f l)).
Proof.
  induction l as [|x l IH]; simpl; intros H; [constructor|].
  inversion H as [|? ? Hx Hl]; subst.
  destruct (f x); [|apply IH; exact Hl].
  simpl. constructor; [|apply IH; exact Hl].
  intros Hin. apply Hx. apply in_map_iff in Hin.
  destruct Hin as (y & Hy & Hyin). apply filter_In in Hyin.
  apply in_map_iff. exists y. tauto.
Qed.

Lemma NoDup_snoc {A} (l : list A) (x : A) :
  NoDup l -> ~ In x l -> NoDup (l ++ [x]).
Proof.
  induction l as [|y l IH]; simpl; intros Hl Hx.
  - constructor; [intros []|constructor].
  - inversion Hl as [|? ? Hy Hl']; subst.
    constructor.
    + intros Hin. apply in_app_or in Hin.
      destruct Hin as [Hin|[->|[]]]; [exact (Hy Hin)|].
      apply Hx. left. reflexivity.
    + apply IH; [exact Hl'|]. intros Hin. apply Hx. right. exact Hin.
Qed.

Lemma filter_all {A} (f : A -> bool) (l : list A) :
  (forall x, In x l -> f x = true) -> filter f l = l.
Proof.
  induction l as [|x l IH]; intros H; simpl; [reflexivity|].
  rewrite (H x (or_introl eq_refl)). f_equal. apply IH.
  intros y Hy. apply H. right. exact Hy.
Qed.

Section SortedByKey.

Context {A : Type} (key : A -> Z).

Local Abbreviation by_key := (fun a b : A => (key a < key b)%Z).

Lemma insert_asc_first (x : A) (l : list A) :
  Forall (by_key x) l -> Sql.insert_asc key x l = x :: l.
Proof.
  destruct 1 as [|y l Hy _]; simpl; [reflexivity|].
  cbv beta in Hy.
  destruct (Z.ltb_spec (key x) (key y)); [reflexivity|lia].
Qed.

(** On rows stored by increasing key, [ORDER BY key] is the table. *)
Lemma order_by_stored (l : list A) :
  StronglySorted by_key l -> Sql.order_by key l = l.
Proof.
  induction 1 as [|x l _ IH Hx]; simpl; [reflexivity|].
  rewrite IH. apply insert_asc_first. exact Hx.
Qed.

Lemma sorted_key_NoDup (l : list A) :
  StronglySorted by_key l -> NoDup (map key l).
Proof.
  induction 1 as [|x l _ IH Hx]; simpl; constructor; [|exact IH].
  intros Hin. apply in_map_iff in Hin. destruct Hin as (y & Hy & Hyin).
  rewrite Forall_forall in Hx. specialize (Hx y Hyin). cbv beta in Hx. lia.
Qed.

Lemma sorted_key_inj (l : list A) (x y : A) :
  StronglySorted by_key l -> In x l -> In y l -> key x = key y -> x = y.
Proof.
  induction 1 as [|z l _ IH Hz]; intros Hx Hy E; [destruct Hx|].
  rewrite Forall_forall in Hz.
  destruct Hx as [->|Hx], Hy as [->|Hy]; auto.
  - specialize (Hz y Hy). cbv beta in Hz. lia.
  - specialize (Hz x Hx). cbv beta in Hz. lia.
Qed.

End SortedByKey.

(** ** What one request does, case by case *)

Lemma insert_student_inr name roll course year email phone q photo db db' :
  insert_student name roll course year email phone q photo db = inr db' ->
  (forall s, In s (students_rows db) -> Student.roll_no s <> roll) /\
  db' =
  {| students_rows :=
       (students_rows db ++
        [Student.mk
           (Sql.next_rowid (map Student.id (students_rows db))
                           (students_seq db))
           name roll course year email phone (Some q) photo])%list;
     students_seq :=
       Sql.next_rowid (map Student.id (students_rows db)) (students_seq db);
     fees_rows := fees_rows db;
     fees_seq := fees_seq db |}.
Proof.
  unfold insert_student. destruct (existsb _ _) eqn:E; [discriminate|].
  intros H. injection H as <-. split; [|reflexivity].
  intros s Hin Heq.
  assert (existsb (fun s => Student.roll_no s =? roll) (students_rows db)
          = true); [|congruence].
  apply existsb_exists. exists s. split; [exact Hin|].
  apply String.eqb_eq. exact Heq.
Qed.

Section Cases.

Variable send_sms : string -> string -> option Py.exn.
Variable send_email : string -> string -> string -> option Py.exn.
Variable str_float : Q -> string.

Local Abbreviation step := (db_after send_sms send_email str_float).

Lemma admission_cases now form db :
  fst (fst (admission send_sms send_email now form db)) = db \/
  exists q photo,
    Py.float_or (AdmissionForm.total_fee form) 20000%Q = inr q /\
    insert_student (AdmissionForm.name form) (AdmissionForm.roll form)
      (AdmissionForm.course form) (AdmissionForm.year form)
      (AdmissionForm.email form) (AdmissionForm.phone form) q photo db =
    inr (fst (fst (admission send_sms send_email now form db))).
Proof.
  destruct (Py.float_or (AdmissionForm.total_fee form) 20000%Q)
    as [e|q] eqn:Hq.
  { left. unfold admission. rewrite Hq. reflexivity. }
  destruct (admission_unfold send_sms send_email now form db q Hq)
    as (photo & saved & _ & Hadm).
  destruct (insert_student _ _ _ _ _ _ _ _ _) as [e|db'] eqn:Hins.
  - left. rewrite Hadm. reflexivity.
  - right. destruct Hadm as (t & subj & body & ->).
    exists q, photo. split; [reflexivity|exact Hins].
Qed.

Lemma fees_cases now form db :
  fst (fst (fees send_sms send_email str_float now form db)) = db \/
  exists stud a,
    FeesForm.amount form = Py.Num a /\
    find (fun s => Student.roll_no s =? FeesForm.roll form)
         (students_rows db) = Some stud /\
    fst (fst (fees send_sms send_email str_float now form db)) =
    fst (insert_fee (Student.id stud) a (Clock.fmt_timestamp now)
                    (FeesForm.mode form) (FeesForm.remark form) db).
Proof.
  destruct (FeesForm.amount form) as [|a|] eqn:Ha;
    try (left; unfold fees; rewrite Ha; reflexivity).
  destruct (find (fun s => Student.roll_no s =? FeesForm.roll form)
                 (students_rows db)) as [stud|] eqn:Hfind.
  - right. exists stud, a. split; [reflexivity|]. split; [reflexivity|].
    apply (fees_accepts send_sms send_email str_float now form db a stud
             Ha Hfind).
  - left.
    rewrite (fees_unknown_roll send_sms send_email str_float now form db a
               Ha Hfind). reflexivity.
Qed.

Lemma edit_student_seq sid now form db :
  students_seq (fst (fst (edit_student sid now form db))) = students_seq db
  /\ fees_seq (fst (fst (edit_student sid now form db))) = fees_seq db.
Proof.
  unfold edit_student. destruct (Py.float_or _ _); [split; reflexivity|].
  destruct (EditForm.photo form); split; reflexivity.
Qed.

(** Every request keeps the database consistent. *)
Lemma step_consistent r db : consistent db -> consistent (step r db).
Proof.
  intros [Hs Hsb Hr Hf Hfb RI].
  constructor;
    [apply step_admission_order; exact Hs | | | | |
     apply step_referential_integrity; exact RI];
    unfold db_after; destruct r as [now form|sid now form|sid|now form];
    cbn [handle].
  (* students_bounded *)
  - destruct (admission_cases now form db) as [->|(q & photo & _ & Hins)];
      [exact Hsb|].
    apply insert_student_inr in Hins. destruct Hins as [_ ->].
    cbn [students_rows students_seq].
    destruct (next_rowid_fresh (map Student.id (students_rows db))
                (students_seq db)) as [_ Hlt].
    apply Forall_app. split.
    + eapply Forall_impl; [|exact Hsb]. cbv beta. intros; lia.
    + constructor; [cbn [Student.id]; lia|constructor].
  - destruct (edit_student_seq sid now form db) as [-> _].
    destruct (edit_student_db sid now form db) as (_ & Hids & _).
    rewrite Forall_forall in *. intros s Hin.
    apply (in_map Student.id) in Hin. rewrite Hids in Hin.
    apply in_map_iff in Hin. destruct Hin as (s0 & <- & Hin0).
    apply Hsb. exact Hin0.
  - cbn [delete_student fst students_rows students_seq].
    rewrite Forall_forall in *. intros s Hin. apply filter_In in Hin.
    apply Hsb. tauto.
  - destruct (fees_db send_sms send_email str_float now form db)
      as (-> & -> & _). exact Hsb.
  (* rolls_unique *)
  - destruct (admission_cases now form db) as [->|(q & photo & _ & Hins)];
      [exact Hr|].
    apply insert_student_inr in Hins. destruct Hins as [Hfresh ->].
    cbn [students_rows]. rewrite map_app. apply NoDup_snoc; [exact Hr|].
    cbn [map Student.roll_no]. intros Hin. apply in_map_iff in Hin.
    destruct Hin as (s & Heq & Hin). exact (Hfresh s Hin Heq).
  - destruct (edit_student_db sid now form db) as (_ & _ & ->). exact Hr.
  - cbn [delete_student fst students_rows].
    apply NoDup_map_filter. exact Hr.
  - destruct (fees_db send_sms send_email str_float now form db)
      as (-> & _). exact Hr.
  (* fees_sorted *)
  - destruct (admission_cases now form db) as [->|(q & photo & _ & Hins)];
      [exact Hf|].
    apply insert_student_inr in Hins. destruct Hins as [_ ->]. exact Hf.
  - destruct (edit_student_db sid now form db) as (-> & _). exact Hf.
  - cbn [delete_student fst fees_rows]. apply StronglySorted_filter.
    exact Hf.
  - destruct (fees_cases now form db) as [->|(stud & a & _ & _ & ->)];
      [exact Hf|].
    rewrite insert_fee_rows. apply StronglySorted_snoc; [exact Hf|].
    destruct (next_rowid_fresh (map Fee.id (fees_rows db)) (fees_seq db))
      as [Hfresh _].
    rewrite Forall_forall in *. intros f Hin. unfold earlier.
    cbn [insert_fee snd Fee.id]. apply Hfresh. apply in_map. exact Hin.
  (* fees_bounded *)
  - destruct (admission_cases now form db) as [->|(q & photo & _ & Hins)];
      [exact Hfb|].
    apply insert_student_inr in Hins. destruct Hins as [_ ->]. exact Hfb.
  - destruct (edit_student_seq sid now form db) as [_ ->].
    destruct (edit_student_db sid now form db) as (-> & _). exact Hfb.
  - cbn [delete_student fst fees_rows fees_seq].
    rewrite Forall_forall in *. intros f Hin. apply filter_In in Hin.
    apply Hfb. tauto.
  - destruct (fees_cases now form db) as [->|(stud & a & _ & _ & ->)];
      [exact Hfb|].
    rewrite insert_fee_rows. cbn [insert_fee fst snd fees_seq].
    destruct (next_rowid_fresh (map Fee.id (fees_rows db)) (fees_seq db))
      as [_ Hlt].
    apply Forall_app. split.
    + eapply Forall_impl; [|exact Hfb]. cbv beta. intros; lia.
    + constructor; [cbn [Fee.id]; lia|constructor].
Qed.

Lemma init_db_consistent : consistent init_db.
Proof.
  constructor; cbn; try constructor. intros f [].
Qed.

Lemma reachable_consistent db :
  reachable send_sms send_email str_float db -> consistent db.
Proof.
  induction 1 as [|r db _ IH].
  - exact init_db_consistent.
  - apply step_consistent. exact IH.
Qed.

End Cases.

(** ** Keys *)

Lemma NoDup_map_inj_in {A B} (g : A -> B) (l : list A) (x y : A) :
  NoDup (map g l) -> In x l -> In y l -> g x = g y -> x = y.
Proof.
  induction l as [|z l IH]; simpl; intros Hnd Hx Hy E; [destruct Hx|].
  inversion Hnd as [|? ? Hz Hl]; subst.
  destruct Hx as [->|Hx], Hy as [->|Hy]; auto.
  - exfalso. apply Hz. rewrite E. apply in_map. exact Hy.
  - exfalso. apply Hz. rewrite <- E. apply in_map. exact Hx.
Qed.

Lemma find_app_skip {A} (f : A -> bool) (l1 l2 : list A) :
  (forall x, In x l1 -> f x = false) -> find f (l1 ++ l2) = find f l2.
Proof.
  induction l1 as [|x l1 IH]; intros H; simpl; [reflexivity|].
  rewrite (H x (or_introl eq_refl)). apply IH.
  intros y Hy. apply H. right. exact Hy.
Qed.

Lemma find_all_false {A} (f : A -> bool) (l : list A) :
  (forall x, In x l -> f x = false) -> find f l = None.
Proof.
  induction l as [|x l IH]; intros H; simpl; [reflexivity|].
  rewrite (H x (or_introl eq_refl)). apply IH.
  intros y Hy. apply H. right. exact Hy.
Qed.

(** Among students stored by increasing rowid, the join condition of a
    fee entry selects its one student. *)
Lemma owner_filter (l : list Student.row) (s : Student.row) (k : Z) :
  StronglySorted older l -> In s l -> k = Student.id s ->
  filter (fun s' => (k =? Student.id s')%Z) l = [s].
Proof.
  intros Hs Hin ->. induction Hs as [|x l Hl IH Hx]; [destruct Hin|].
  rewrite Forall_forall in Hx. simpl. destruct Hin as [->|Hin].
  - rewrite Z.eqb_refl. f_equal. apply filter_none.
    intros y Hy. specialize (Hx y Hy). unfold older in Hx.
    apply Z.eqb_neq. lia.
  - specialize (Hx s Hin). unfold older in Hx.
    destruct (Z.eqb_spec (Student.id s) (Student.id x)); [lia|].
    apply IH. exact Hin.
Qed.

Lemma StronglySorted_map {A B} (R : B -> B -> Prop) (g : A -> B) l :
  StronglySorted R (map g l) ->
  StronglySorted (fun a b => R (g a) (g b)) l.
Proof.
  induction l as [|x l IH]; simpl; intros H; [constructor|].
  apply StronglySorted_inv in H. destruct H as [Hl Hx].
  constructor; [apply IH; exact Hl|].
  rewrite Forall_forall in *. intros y Hy. apply Hx. apply in_map. exact Hy.
Qed.

(** In a consistent database the join has one row per fee entry, in the
    order of the entries, each with the student the entry names. *)
Lemma join_rows db :
  consistent db ->
  map fst (fees_join_students db) = fees_rows db /\
  forall p, In p (fees_join_students db) ->
    In (fst p) (fees_rows db) /\ In (snd p) (students_rows db) /\
    Student.id (snd p) = Fee.student_id (fst p).
Proof.
  intros [Hs _ _ _ _ RI]. unfold fees_join_students.
  unfold referential_integrity in RI.
  induction (fees_rows db) as [|f fs IH]; simpl.
  - split; [reflexivity|]. intros p [].
  - destruct (RI f (or_introl eq_refl)) as (s & Hin & Hid).
    rewrite (owner_filter (students_rows db) s (Fee.student_id f) Hs Hin)
      by (symmetry; exact Hid).
    destruct IH as [IH1 IH2].
    { intros f' Hf'. apply RI. right. exact Hf'. }
    simpl. rewrite IH1. split; [reflexivity|].
    intros p [<-|Hp]; simpl.
    + auto.
    + destruct (IH2 p Hp) as (H1 & H2 & H3). auto.
Qed.

Lemma join_sorted db :
  consistent db ->
  StronglySorted (fun a b => (Fee.id (fst a) < Fee.id (fst b))%Z)
                 (fees_join_students db).
Proof.
  intros Hc. destruct (join_rows db Hc) as [Hfst _].
  pose proof (fees_sorted db Hc) as Hf. rewrite <- Hfst in Hf.
  exact (StronglySorted_map earlier fst _ Hf).
Qed.

(** A stored fee entry is found by its rowid, with its student. *)
Lemma receipt_of_entry db f s :
  consistent db ->
  In f (fees_rows db) -> In s (students_rows db) ->
  Student.id s = Fee.student_id f ->
  receipt (Fee.id f) db =
  Some {| Receipt.fee := f;
          Receipt.name := Student.name s;
          Receipt.roll_no := Student.roll_no s;
          Receipt.course := Student.course s;
          Receipt.phone := Student.phone s |}.
Proof.
  intros Hc Hf Hs Hid.
  pose proof (join_sorted db Hc) as Hj.
  destruct (join_rows db Hc) as [Hfst Hrows].
  assert (Hp : In (f, s) (fees_join_students db)).
  { unfold fees_join_students. apply in_flat_map. exists f.
    split; [exact Hf|]. apply in_map. apply filter_In.
    split; [exact Hs|]. rewrite Hid. apply Z.eqb_refl. }
  pose proof (find_by_key (fun p => Fee.id (fst p)) _ (f, s) Hj Hp)
    as Hfind.
  cbn [fst] in Hfind. unfold receipt. rewrite Hfind. reflexivity.
Qed.

Lemma receipt_missing db fee_id :
  (forall f, In f (fees_rows db) -> Fee.id f <> fee_id) ->
  receipt fee_id db = None.
Proof.
  intros H. unfold receipt. rewrite find_all_false; [reflexivity|].
  intros [f s] Hp. unfold fees_join_students in Hp.
  apply in_flat_map in Hp. destruct Hp as (f' & Hf' & Hp).
  apply in_map_iff in Hp. destruct Hp as (s' & E & _).
  injection E as <- <-. cbn [fst]. apply Z.eqb_neq. apply H. exact Hf'.
Qed.

(** ** Keys, receipts and listings in reachable states *)

Section Ledger.

Variable send_sms : string -> string -> option Py.exn.
Variable send_email : string -> string -> string -> option Py.exn.
Variable str_float : Q -> string.

Local Abbreviation step := (db_after send_sms send_email str_float).
Local Abbreviation reach := (reachable send_sms send_email str_float).
Local Abbreviation runs := (run send_sms send_email str_float).
Local Abbreviation pay := (fees send_sms send_email str_float).

(** X1. In every state the application reaches, a roll number names one
    student, a student rowid names one student and a fee rowid names one
    fee entry; so the student [POST /fees] finds for a roll number is the
    only student with it. *)
Theorem X1_keys_name_one_row db :
  reachable send_sms send_email str_float db ->
  (forall s1 s2, In s1 (students_rows db) -> In s2 (students_rows db) ->
     Student.roll_no s1 = Student.roll_no s2 -> s1 = s2) /\
  (forall s1 s2, In s1 (students_rows db) -> In s2 (students_rows db) ->
     Student.id s1 = Student.id s2 -> s1 = s2) /\
  (forall f1 f2, In f1 (fees_rows db) -> In f2 (fees_rows db) ->
     Fee.id f1 = Fee.id f2 -> f1 = f2) /\
  (forall roll stud s,
     find (fun s => Student.roll_no s =? roll) (students_rows db)
       = Some stud ->
     In s (students_rows db) -> Student.roll_no s = roll -> s = stud).
Proof.
  intros Hreach.
  destruct (reachable_consistent _ _ _ db Hreach) as [Hs _ Hr Hf _ _].
  assert (Hroll : forall s1 s2,
             In s1 (students_rows db) -> In s2 (students_rows db) ->
             Student.roll_no s1 = Student.roll_no s2 -> s1 = s2).
  { intros s1 s2. apply NoDup_map_inj_in. exact Hr. }
  split; [exact Hroll|]. split.
  { intros s1 s2. apply (sorted_key_inj Student.id). exact Hs. }
  split.
  { intros f1 f2. apply (sorted_key_inj Fee.id). exact Hf. }
  intros roll stud s Hfind Hin Hroll_s.
  apply find_roll_In in Hfind. destruct Hfind as [Hin' Hroll'].
  apply Hroll; congruence.
Qed.

Lemma step_students_seq r db :
  (students_seq db <= students_seq (step r db))%Z /\
  forall s, In s (students_rows (step r db)) ->
    (exists s0, In s0 (students_rows db) /\ Student.id s0 = Student.id s)
    \/ (students_seq db < Student.id s)%Z.
Proof.
  unfold db_after. destruct r as [now form|sid now form|sid|now form];
    cbn [handle].
  - destruct (admission_cases send_sms send_email now form db)
      as [->|(q & photo & _ & Hins)].
    { split; [lia|]. intros s Hs. left. exists s. auto. }
    apply insert_student_inr in Hins. destruct Hins as [_ ->].
    cbn [students_rows students_seq].
    destruct (next_rowid_fresh (map Student.id (students_rows db))
                (students_seq db)) as [_ Hlt].
    split; [lia|]. intros s Hs. apply in_app_or in Hs.
    destruct Hs as [Hs|[<-|[]]].
    + left. exists s. auto.
    + right. exact Hlt.
  - destruct (edit_student_seq sid now form db) as [-> _].
    destruct (edit_student_db sid now form db) as (_ & Hids & _).
    split; [lia|]. intros s Hs. left.
    apply (in_map Student.id) in Hs. rewrite Hids in Hs.
    apply in_map_iff in Hs. destruct Hs as (s0 & E & Hs0).
    exists s0. auto.
  - cbn [delete_student fst students_rows students_seq].
    split; [lia|]. intros s Hs. apply filter_In in Hs.
    left. exists s. tauto.
  - destruct (fees_db send_sms send_email str_float now form db)
      as (-> & -> & _).
    split; [lia|]. intros s Hs. left. exists s. auto.
Qed.

Lemma runs_keep_id_out sid rs db :
  consistent db ->
  (sid <= students_seq db)%Z ->
  (forall s, In s (students_rows db) -> Student.id s <> sid) ->
  consistent (runs rs db) /\
  forall s, In s (students_rows (runs rs db)) -> Student.id s <> sid.
Proof.
  revert db. induction rs as [|r rs IH]; intros db Hc Hle Hout.
  { split; assumption. }
  cbn [run fold_left]. destruct (step_students_seq r db) as [Hseq Hids].
  apply IH.
  - apply step_consistent. exact Hc.
  - lia.
  - intros s Hs. destruct (Hids s Hs) as [(s0 & Hs0 & E)|Hnew].
    + rewrite <- E. apply Hout. exact Hs0.
    + lia.
Qed.

(** X2. Rowids are not handed out twice: once a student rowid has been
    deleted, no later sequence of requests brings a student with that
    rowid back, so the profile of that rowid stays "Student not found"
    and no fee entry is ever listed under it again. *)
Theorem X2_deleted_id_never_returns db sid rs :
  reach db ->
  (sid <= students_seq db)%Z ->
  (forall s, In s (students_rows (runs rs (step (POST_delete sid) db))) ->
     Student.id s <> sid) /\
  student_profile sid (runs rs (step (POST_delete sid) db)) = None /\
  fees_of (runs rs (step (POST_delete sid) db)) sid = [].
Proof.
  intros Hreach Hle.
  pose proof (reachable_consistent _ _ _ db Hreach) as Hc.
  destruct (runs_keep_id_out sid rs (step (POST_delete sid) db))
    as [Hc' Hout].
  { apply step_consistent. exact Hc. }
  { destruct (step_students_seq (POST_delete sid) db) as [H _]. lia. }
  { intros s Hs E. unfold db_after in Hs.
    cbn [handle delete_student fst students_rows] in Hs.
    apply filter_In in Hs. destruct Hs as [_ Hne].
    rewrite E, Z.eqb_refl in Hne. discriminate. }
  split; [exact Hout|]. split.
  - unfold student_profile. rewrite find_all_false; [reflexivity|].
    intros s Hs. apply Z.eqb_neq. apply Hout. exact Hs.
  - unfold fees_of. rewrite filter_none; [reflexivity|].
    intros f Hf. apply Z.eqb_neq. intros E.
    destruct (fees_owned _ Hc' f Hf) as (s & Hs & Hid).
    apply (Hout s Hs). congruence.
Qed.

(** X3. The receipt of a payment is the payment: for a payment that
    [POST /fees] accepts in a reachable state, the receipt page the
    caller is redirected to shows the entry just written (amount, time,
    mode and remark as sent) with the name, roll number, course and
    phone of the student found by roll number. *)
Theorem X3_receipt_shows_payment now form db a stud :
  reach db ->
  FeesForm.amount form = Py.Num a ->
  find (fun s => Student.roll_no s =? FeesForm.roll form)
       (students_rows db) = Some stud ->
  exists fee_id,
    snd (pay now form db) = redirect (to_receipt fee_id) /\
    receipt fee_id (fst (fst (pay now form db))) =
    Some {| Receipt.fee :=
              Fee.mk fee_id (Student.id stud) a (Clock.fmt_timestamp now)
                     (FeesForm.mode form) (FeesForm.remark form);
            Receipt.name := Student.name stud;
            Receipt.roll_no := Student.roll_no stud;
            Receipt.course := Student.course stud;
            Receipt.phone := Student.phone stud |}.
Proof.
  intros Hreach Ha Hfind.
  pose proof (reachable_consistent _ _ _ db Hreach) as Hc.
  pose proof (step_consistent send_sms send_email str_float
                (POST_fees now form) db Hc) as Hc'.
  unfold db_after in Hc'. cbn [handle] in Hc'.
  destruct (fees_accepts send_sms send_email str_float now form db a stud
              Ha Hfind) as [Hdb Hr].
  eexists. split; [exact Hr|].
  rewrite Hdb in *.
  apply (receipt_of_entry _
           (Fee.mk _ (Student.id stud) a (Clock.fmt_timestamp now)
                   (FeesForm.mode form) (FeesForm.remark form)) stud Hc').
  - rewrite insert_fee_rows. apply in_or_app. right. left. reflexivity.
  - rewrite insert_fee_students. apply find_roll_In in Hfind. tauto.
  - reflexivity.
Qed.

(** X4. In a reachable state a receipt exists exactly for the stored fee
    entries: for a rowid that the database can hold ([url_id]),
    [receipt] answers "Receipt not found" if and only if no entry has
    the rowid asked for, and a receipt it shows is a stored entry with
    that rowid together with the fields of its student. *)
Theorem X4_receipt_iff_entry db fee_id :
  reach db ->
  url_id fee_id ->
  (receipt fee_id db = None <->
   forall f, In f (fees_rows db) -> Fee.id f <> fee_id) /\
  (forall r, receipt fee_id db = Some r ->
     In (Receipt.fee r) (fees_rows db) /\
     Fee.id (Receipt.fee r) = fee_id /\
     exists s,
       In s (students_rows db) /\
       Student.id s = Fee.student_id (Receipt.fee r) /\
       Receipt.name r = Student.name s /\
       Receipt.roll_no r = Student.roll_no s /\
       Receipt.course r = Student.course s /\
       Receipt.phone r = Student.phone s).
Proof.
  intros Hreach _.
  pose proof (reachable_consistent _ _ _ db Hreach) as Hc.
  split.
  - split; [|apply receipt_missing].
    intros Hnone f Hf E.
    destruct (fees_owned _ Hc f Hf) as (s & Hs & Hid).
    rewrite <- E, (receipt_of_entry db f s Hc Hf Hs Hid) in Hnone.
    discriminate.
  - intros r Hr. unfold receipt in Hr.
    destruct (find _ _) as [[f s]|] eqn:Hfind; [|discriminate].
    injection Hr as <-. apply find_some in Hfind.
    destruct Hfind as [Hin Hid]. cbn [fst] in Hid. apply Z.eqb_eq in Hid.
    destruct (join_rows db Hc) as [_ Hrows].
    destruct (Hrows _ Hin) as (Hf & Hs & Hown). cbn [fst snd] in *.
    cbn [Receipt.fee Receipt.name Receipt.roll_no Receipt.course
         Receipt.phone].
    split; [exact Hf|]. split; [exact Hid|].
    exists s. repeat split; auto.
Qed.

(** X5. Deleting a student destroys the receipts of that student's
    payments and no others: in a reachable state, after
    [delete_student] the receipt of each of the student's entries is
    "Receipt not found", and the receipt of every other entry is what
    it was. *)
Theorem X5_delete_drops_own_receipts db sid f :
  reach db ->
  In f (fees_rows db) ->
  (Fee.student_id f = sid ->
   receipt (Fee.id f) (step (POST_delete sid) db) = None) /\
  (Fee.student_id f <> sid ->
   receipt (Fee.id f) (step (POST_delete sid) db) = receipt (Fee.id f) db /\
   receipt (Fee.id f) db <> None).
Proof.
  intros Hreach Hf.
  pose proof (reachable_consistent _ _ _ db Hreach) as Hc.
  pose proof (step_consistent send_sms send_email str_float
                (POST_delete sid) db Hc) as Hc'.
  split.
  - intros Hsid. apply receipt_missing. intros f' Hf' E.
    unfold db_after in Hf'. cbn [handle delete_student fst fees_rows] in Hf'.
    apply filter_In in Hf'. destruct Hf' as [Hf' Hne].
    assert (f' = f)
      by exact (sorted_key_inj Fee.id (fees_rows db)
                  f' f (fees_sorted db Hc) Hf' Hf E).
    subst f'. rewrite Hsid, Z.eqb_refl in Hne. discriminate.
  - intros Hne.
    destruct (fees_owned _ Hc f Hf) as (s & Hs & Hid).
    rewrite (receipt_of_entry db f s Hc Hf Hs Hid).
    split; [|discriminate].
    apply (receipt_of_entry _ f s Hc'); [| |exact Hid];
      unfold db_after; cbn [handle delete_student fst fees_rows
                            students_rows];
      apply filter_In; (split; [assumption|]);
      apply negb_true_iff; apply Z.eqb_neq; congruence.
Qed.

(** X6. In a reachable state the fee list and [fees.csv] have one line
    per fee entry, none lost in the join: [fees.csv] follows the order
    of payment with the rowid and amount of each entry and the name and
    roll number of its student, and the fee list is the same lines,
    newest first. *)
Theorem X6_fee_listings db :
  reach db ->
  fees_list db = rev (export_fees db) /\
  map FeeLine.id (export_fees db) = map Fee.id (fees_rows db) /\
  map FeeLine.amount (export_fees db) = map Fee.amount (fees_rows db) /\
  (forall line, In line (export_fees db) ->
     exists f s,
       In f (fees_rows db) /\ In s (students_rows db) /\
       Student.id s = Fee.student_id f /\ line = fee_line (f, s)).
Proof.
  intros Hreach.
  pose proof (reachable_consistent _ _ _ db Hreach) as Hc.
  pose proof (join_sorted db Hc) as Hj.
  destruct (join_rows db Hc) as [Hfst Hrows].
  unfold fees_list, export_fees.
  rewrite (order_by_desc_sorted (fun p => Fee.id (fst p)) _ Hj).
  rewrite (order_by_stored (fun p => Fee.id (fst p)) _ Hj).
  split; [apply map_rev|].
  split.
  { rewrite <- Hfst, !map_map. apply map_ext. intros [f s]. reflexivity. }
  split.
  { rewrite <- Hfst, !map_map. apply map_ext. intros [f s]. reflexivity. }
  intros line Hline. apply in_map_iff in Hline.
  destruct Hline as ([f s] & <- & Hp).
  destruct (Hrows _ Hp) as (H1 & H2 & H3). exists f, s. auto.
Qed.

(** X7. In a reachable state the student page lists the table newest
    first, and [students.csv] and [dues.csv] have one row per student in
    the order of admission, with distinct rowids. *)
Theorem X7_student_listings db :
  reach db ->
  students db = rev (students_rows db) /\
  map StudentsCsv.id (export_students db) =
    map Student.id (students_rows db) /\
  map StudentsCsv.roll_no (export_students db) =
    map Student.roll_no (students_rows db) /\
  map DuesCsv.id (export_dues db) = map Student.id (students_rows db) /\
  NoDup (map Student.id (students_rows db)).
Proof.
  intros Hreach.
  pose proof (reachable_consistent _ _ _ db Hreach) as Hc.
  pose proof (students_sorted db Hc) as Hs.
  unfold students, export_students, export_dues.
  rewrite (order_by_desc_sorted Student.id _ Hs).
  rewrite (order_by_stored Student.id _ Hs).
  rewrite !map_map. cbn [StudentsCsv.id StudentsCsv.roll_no DuesCsv.id].
  repeat split. apply (sorted_key_NoDup Student.id). exact Hs.
Qed.

End Ledger.

(** ** Totals *)

Lemma flat_map_ext_In {A B} (g h : A -> list B) (l : list A) :
  (forall x, In x l -> g x = h x) -> flat_map g l = flat_map h l.
Proof.
  induction l as [|x l IH]; intros H; simpl; [reflexivity|].
  rewrite (H x (or_introl eq_refl)), IH; [reflexivity|].
  intros y Hy. apply H. right. exact Hy.
Qed.

(** The entries of the students, taken student by student, are the
    entries of the table, each once, when the rowids of the students
    are distinct and each entry names one stored student. *)
Lemma entries_partition (S : list Student.row) (fs : list Fee.row) :
  NoDup (map Student.id S) ->
  (forall f, In f fs ->
     exists s, In s S /\ Student.id s = Fee.student_id f) ->
  Permutation
    (flat_map (fun s =>
                 filter (fun f => (Fee.student_id f =? Student.id s)%Z) fs)
              S)
    fs.
Proof.
  intros Hnd. induction fs as [|f fs IH]; intros Hown.
  - clear. induction S as [|s S IHS]; simpl; [constructor|exact IHS].
  - destruct (Hown f (or_introl eq_refl)) as (s & Hs & Hid).
    destruct (in_split s S Hs) as (S1 & S2 & ->).
    assert (Hother : forall s', In s' (S1 ++ S2)%list ->
              (Fee.student_id f =? Student.id s')%Z = false).
    { intros s' Hs'. apply Z.eqb_neq. intros E.
      rewrite map_app in Hnd. cbn [map] in Hnd.
      apply NoDup_remove_2 in Hnd. apply Hnd.
      rewrite <- map_app, Hid, E. apply in_map. exact Hs'. }
    assert (Hskip : forall S', (forall s', In s' S' -> In s' (S1 ++ S2)%list) ->
              flat_map (fun s' =>
                 filter (fun f' => (Fee.student_id f' =? Student.id s')%Z)
                        (f :: fs)) S' =
              flat_map (fun s' =>
                 filter (fun f' => (Fee.student_id f' =? Student.id s')%Z)
                        fs) S').
    { intros S' HS'. apply flat_map_ext_In. intros s' Hs'.
      cbn [filter]. rewrite (Hother s' (HS' s' Hs')). reflexivity. }
    specialize (IH (fun f' Hf' => Hown f' (or_intror Hf'))).
    rewrite flat_map_app in *. cbn [flat_map] in *.
    rewrite (Hskip S1) by (intros; apply in_or_app; left; assumption).
    rewrite (Hskip S2) by (intros; apply in_or_app; right; assumption).
    cbn [filter]. rewrite <- Hid, Z.eqb_refl. cbn [app].
    apply Permutation_sym, Permutation_cons_app, Permutation_sym.
    exact IH.
Qed.

Lemma total_filter_le (f g : Fee.row -> bool) (l : list Fee.row) :
  Forall (fun x => (0 <= Fee.amount x)%Q) l ->
  (forall x, f x = true -> g x = true) ->
  (0 <= total (filter f l) /\ total (filter f l) <= total (filter g l))%Q.
Proof.
  intros Hpos Himp. induction Hpos as [|x l Hx _ IH]; simpl; [lra|].
  destruct (f x) eqn:Ef.
  - rewrite (Himp x Ef). simpl. lra.
  - destruct (g x); simpl; lra.
Qed.

Lemma total_filter_le_all (f : Fee.row -> bool) (l : list Fee.row) :
  Forall (fun x => (0 <= Fee.amount x)%Q) l ->
  (total (filter f l) <= total l)%Q.
Proof.
  intros Hpos.
  destruct (total_filter_le f (fun _ => true) l Hpos (fun _ _ => eq_refl))
    as [_ H].
  rewrite (filter_all (fun _ => true)) in H by reflexivity. exact H.
Qed.

(** ** Prefixes *)

Lemma append_assoc (a b c : string) : (a ++ b) ++ c = a ++ (b ++ c).
Proof. induction a as [|x a IH]; simpl; [reflexivity|]. rewrite IH. reflexivity. Qed.

Lemma starts_with_append (p r : string) : starts_with p (p ++ r) = true.
Proof.
  induction p as [|c p IH]; [reflexivity|]. simpl.
  rewrite Ascii.eqb_refl. exact IH.
Qed.

Lemma starts_with_shorter (p r s : string) :
  starts_with (p ++ r) s = true -> starts_with p s = true.
Proof.
  revert s. induction p as [|c p IH]; intros s H; [reflexivity|].
  destruct s as [|d s]; [discriminate|]. simpl in *.
  apply andb_true_iff in H. destruct H as [-> H]. apply IH. exact H.
Qed.

Lemma starts_with_same_length (p p' r : string) :
  String.length p = String.length p' ->
  starts_with p (p' ++ r) = true -> p = p'.
Proof.
  revert p'. induction p as [|c p IH]; intros [|c' p'] Hlen H;
    try discriminate; [reflexivity|].
  simpl in *. apply andb_true_iff in H. destruct H as [Hc H].
  apply Ascii.eqb_eq in Hc. subst c'. f_equal.
  apply IH; [congruence|exact H].
Qed.

Lemma timestamp_day (t : Clock.datetime) :
  exists rest, Clock.fmt_timestamp t = Clock.fmt_day t ++ rest.
Proof. eexists. reflexivity. Qed.

Lemma timestamp_month (t : Clock.datetime) :
  exists rest, Clock.fmt_timestamp t = Clock.fmt_month t ++ rest.
Proof.
  eexists. unfold Clock.fmt_timestamp, Clock.fmt_day.
  rewrite append_assoc. reflexivity.
Qed.

Section Collections.

Variable send_sms : string -> string -> option Py.exn.
Variable send_email : string -> string -> string -> option Py.exn.
Variable str_float : Q -> string.

Local Abbreviation reach := (reachable send_sms send_email str_float).
Local Abbreviation pay := (fees send_sms send_email str_float).

(** X8. In a reachable state the books balance row by row. Every stored
    fee entry is among the entries of one stored student and of no
    other, so the entries behind the paid figures of the students, taken
    student by student, are the stored entries, each once; the Paid
    column of [dues.csv] and the paid figures of the unfiltered dues
    report are the [SUM] over the entries of the student of the row; and
    the all-time collection of the dashboard and of the fee summary is
    the [SUM] over all stored entries. *)
Theorem X8_collection_rows_are_paid_rows now now' db :
  reachable send_sms send_email str_float db ->
  Permutation
    (flat_map (fun s => entries_of db (Student.id s)) (students_rows db))
    (fees_rows db) /\
  (forall f, In f (fees_rows db) ->
     exists s,
       In s (students_rows db) /\ In f (entries_of db (Student.id s)) /\
       forall s', In s' (students_rows db) ->
         In f (entries_of db (Student.id s')) -> s' = s) /\
  (forall r, In r (export_dues db) ->
     DuesCsv.paid r =
     Sql.IFNULL (Sql.SUM (map Fee.amount (entries_of db (DuesCsv.id r))))
                0%Q) /\
  (forall r, In r (dues_report None db) ->
     In (Dues.student r) (students_rows db) /\
     Dues.paid r =
     Sql.IFNULL
       (Sql.SUM (map Fee.amount
                   (entries_of db (Student.id (Dues.student r)))))
       0%Q) /\
  map DuesCsv.id (export_dues db) = map Student.id (students_rows db) /\
  map Dues.student (dues_report None db) = rev (students_rows db) /\
  Dashboard.total_collection (dashboard now now' db) =
    Sql.IFNULL (Sql.SUM (map Fee.amount (fees_rows db))) 0%Q /\
  fst (fees_summary now db) =
    Sql.IFNULL (Sql.SUM (map Fee.amount (fees_rows db))) 0%Q.
Proof.
  intros Hreach.
  pose proof (reachable_consistent _ _ _ db Hreach) as Hc.
  pose proof (students_sorted db Hc) as Hs.
  pose proof (sorted_key_NoDup Student.id _ Hs) as Hnd.
  split.
  { apply entries_partition; [exact Hnd|]. exact (fees_owned db Hc). }
  split.
  { intros f Hf. destruct (fees_owned db Hc f Hf) as (s & Hin & Hid).
    exists s. split; [exact Hin|]. split.
    - unfold entries_of. apply filter_In. split; [exact Hf|].
      rewrite Hid. apply Z.eqb_refl.
    - intros s' Hin' Hf'. unfold entries_of in Hf'.
      apply filter_In in Hf'. destruct Hf' as [_ E].
      apply Z.eqb_eq in E.
      apply (NoDup_map_inj_in Student.id (students_rows db)); auto.
      congruence. }
  split.
  { intros r Hr. unfold export_dues in Hr. apply in_map_iff in Hr.
    destruct Hr as (s & <- & _). reflexivity. }
  split.
  { intros r Hr. unfold dues_report in Hr.
    cbn [Py.strip Py.lstrip Py.rstrip Py.truthy] in Hr.
    apply in_map_iff in Hr. destruct Hr as (s & <- & Hin).
    cbn [Dues.student Dues.paid]. split; [|reflexivity].
    apply order_by_desc_In in Hin. exact Hin. }
  split.
  { unfold export_dues. rewrite (order_by_stored Student.id _ Hs).
    rewrite map_map. reflexivity. }
  split.
  { unfold dues_report. cbn [Py.strip Py.lstrip Py.rstrip Py.truthy].
    rewrite (order_by_desc_sorted Student.id _ Hs).
    rewrite map_map. cbn [Dues.student]. apply map_id. }
  split; reflexivity.
Qed.

(** X9. When no stored amount is negative, the dashboard figures read at
    one time are ordered: 0 <= today <= this month <= all time. *)
Theorem X9_today_month_total_ordered now db :
  Forall (fun f => (0 <= Fee.amount f)%Q) (fees_rows db) ->
  (0 <= Dashboard.today_collection (dashboard now now db))%Q /\
  (Dashboard.today_collection (dashboard now now db) <=
   Dashboard.month_collection (dashboard now now db))%Q /\
  (Dashboard.month_collection (dashboard now now db) <=
   Dashboard.total_collection (dashboard now now db))%Q.
Proof.
  intros Hpos. unfold dashboard.
  cbn [Dashboard.today_collection Dashboard.month_collection
       Dashboard.total_collection].
  rewrite (sum_like_prefix db _ (fmt_day_date_chars now)).
  assert (Hm : date_chars (Clock.fmt_month now) = true).
  { unfold Clock.fmt_month, Clock.pad4, Clock.pad2.
    cbn [String.append date_chars]. rewrite !digit_date_char. reflexivity. }
  rewrite (sum_like_prefix db _ Hm).
  rewrite !IFNULL_SUM_amounts.
  destruct (total_filter_le
              (fun f => starts_with (Clock.fmt_day now) (Fee.date f))
              (fun f => starts_with (Clock.fmt_month now) (Fee.date f))
              (fees_rows db) Hpos) as [H0 H1].
  { intros f. unfold Clock.fmt_day. apply starts_with_shorter. }
  split; [exact H0|]. split; [exact H1|].
  apply total_filter_le_all. exact Hpos.
Qed.

(** X10. A payment counts on its own day and in its own month. After
    [POST /fees] accepts an amount [a] at time [now], the stored entries
    are the earlier ones followed by the new entry [e], and the all-time
    figure is the [SUM] over them. The entries that the "today" figure
    read at time [t] sums (those [dated] by the day of [t]) are the
    earlier ones of that day followed by [e] when [t] is the day of
    [now]; on any other day they are the earlier ones, and the figure is
    what it was. The month figure likewise. *)
Theorem X10_payment_counts_on_its_day now form db a stud t t' :
  FeesForm.amount form = Py.Num a ->
  find (fun s => Student.roll_no s =? FeesForm.roll form)
       (students_rows db) = Some stud ->
  exists fee_id,
    let e := Fee.mk fee_id (Student.id stud) a (Clock.fmt_timestamp now)
                    (FeesForm.mode form) (FeesForm.remark form) in
    let db' := fst (fst (pay now form db)) in
    fees_rows db' = (fees_rows db ++ [e])%list /\
    Dashboard.total_collection (dashboard t t' db') =
      Sql.IFNULL (Sql.SUM (map Fee.amount (fees_rows db ++ [e]))) 0%Q /\
    Dashboard.today_collection (dashboard t t' db') =
      Sql.IFNULL
        (Sql.SUM (map Fee.amount (dated db' (Clock.fmt_day t ++ "%"))))
        0%Q /\
    Dashboard.month_collection (dashboard t t' db') =
      Sql.IFNULL
        (Sql.SUM (map Fee.amount (dated db' (Clock.fmt_month t' ++ "%"))))
        0%Q /\
    (Clock.fmt_day t = Clock.fmt_day now ->
     dated db' (Clock.fmt_day t ++ "%") =
     (dated db (Clock.fmt_day t ++ "%") ++ [e])%list) /\
    (Clock.fmt_day t <> Clock.fmt_day now ->
     dated db' (Clock.fmt_day t ++ "%") =
       dated db (Clock.fmt_day t ++ "%") /\
     Dashboard.today_collection (dashboard t t' db') =
       Dashboard.today_collection (dashboard t t' db)) /\
    (Clock.fmt_month t' = Clock.fmt_month now ->
     dated db' (Clock.fmt_month t' ++ "%") =
     (dated db (Clock.fmt_month t' ++ "%") ++ [e])%list) /\
    (Clock.fmt_month t' <> Clock.fmt_month now ->
     dated db' (Clock.fmt_month t' ++ "%") =
       dated db (Clock.fmt_month t' ++ "%") /\
     Dashboard.month_collection (dashboard t t' db') =
       Dashboard.month_collection (dashboard t t' db)).
Proof.
  intros Ha Hfind.
  destruct (fees_accepts send_sms send_email str_float now form db a stud
              Ha Hfind) as [-> _].
  assert (Hm : forall u, date_chars (Clock.fmt_month u) = true).
  { intros u. unfold Clock.fmt_month, Clock.pad4, Clock.pad2.
    cbn [String.append date_chars]. rewrite !digit_date_char. reflexivity. }
  destruct (timestamp_day now) as [rd Hrd].
  destruct (timestamp_month now) as [rm Hrm].
  eexists. cbv zeta. rewrite insert_fee_rows.
  split; [reflexivity|].
  unfold dashboard, sum_like, dated.
  cbn [Dashboard.today_collection Dashboard.month_collection
       Dashboard.total_collection].
  rewrite !insert_fee_rows, !filter_app. cbn [filter Fee.date].
  rewrite (like_date_prefix _ _ (fmt_day_date_chars t)).
  rewrite (like_date_prefix _ _ (Hm t')).
  split; [reflexivity|]. split; [reflexivity|]. split; [reflexivity|].
  split.
  { intros E. rewrite Hrd, E, starts_with_append. reflexivity. }
  split.
  { intros E.
    destruct (starts_with (Clock.fmt_day t) (Clock.fmt_timestamp now))
      eqn:Hsw.
    - exfalso. apply E. rewrite Hrd in Hsw.
      apply (starts_with_same_length _ _ rd); [reflexivity|exact Hsw].
    - rewrite !app_nil_r. split; reflexivity. }
  split.
  { intros E. rewrite Hrm at 1. rewrite E, starts_with_append.
    reflexivity. }
  intros E.
  destruct (starts_with (Clock.fmt_month t') (Clock.fmt_timestamp now))
    eqn:Hsw.
  - exfalso. apply E. rewrite Hrm in Hsw.
    apply (starts_with_same_length _ _ rm); [reflexivity|exact Hsw].
  - rewrite !app_nil_r. split; reflexivity.
Qed.

End Collections.

(** ** Requests that touch one student *)

Lemma or0_some (x : Q) : (Py.or0 (Some x) == x)%Q.
Proof.
  simpl. destruct (Qeq_bool x 0) eqn:E; [|reflexivity].
  apply Qeq_bool_eq in E. symmetry. exact E.
Qed.

Lemma student_profile_ext sid db db' :
  find (fun s => (Student.id s =? sid)%Z) (students_rows db') =
  find (fun s => (Student.id s =? sid)%Z) (students_rows db) ->
  filter (fun f => (Fee.student_id f =? sid)%Z) (fees_rows db') =
  filter (fun f => (Fee.student_id f =? sid)%Z) (fees_rows db) ->
  student_profile sid db' = student_profile sid db.
Proof.
  intros Hs Hf. unfold student_profile, fees_of, sum_paid.
  rewrite Hs, Hf. reflexivity.
Qed.

Lemma edit_student_unfold sid now form db q :
  Py.float_or (EditForm.total_fee form) 20000%Q = inr q ->
  exists filename saved,
    edit_student sid now form db =
    ({| students_rows :=
          map (update_student sid form q filename) (students_rows db);
        students_seq := students_seq db;
        fees_rows := fees_rows db;
        fees_seq := fees_seq db |},
     saved, redirect to_students).
Proof.
  intros Hq. unfold edit_student. rewrite Hq.
  destruct (EditForm.photo form); eexists; eexists; reflexivity.
Qed.

Lemma find_update_student sid form q filename k (l : list Student.row) :
  find (fun s => (Student.id s =? k)%Z)
       (map (update_student sid form q filename) l) =
  option_map (update_student sid form q filename)
             (find (fun s => (Student.id s =? k)%Z) l).
Proof.
  induction l as [|x l IH]; simpl; [reflexivity|].
  rewrite update_student_id. destruct (Student.id x =? k)%Z; [reflexivity|].
  exact IH.
Qed.

Lemma find_filter_other sid sid' (l : list Student.row) :
  sid' <> sid ->
  find (fun s => (Student.id s =? sid')%Z)
       (filter (fun s => negb (Student.id s =? sid)%Z) l) =
  find (fun s => (Student.id s =? sid')%Z) l.
Proof.
  intros Hne. induction l as [|x l IH]; simpl; [reflexivity|].
  destruct (Z.eqb_spec (Student.id x) sid) as [E|E]; simpl.
  - destruct (Z.eqb_spec (Student.id x) sid'); [congruence|exact IH].
  - destruct (Student.id x =? sid')%Z; [reflexivity|exact IH].
Qed.

Lemma filter_fees_other sid sid' (l : list Fee.row) :
  sid' <> sid ->
  filter (fun f => (Fee.student_id f =? sid')%Z)
         (filter (fun f => negb (Fee.student_id f =? sid)%Z) l) =
  filter (fun f => (Fee.student_id f =? sid')%Z) l.
Proof.
  intros Hne. induction l as [|x l IH]; simpl; [reflexivity|].
  destruct (Z.eqb_spec (Fee.student_id x) sid) as [E|E]; simpl.
  - destruct (Z.eqb_spec (Fee.student_id x) sid'); [congruence|exact IH].
  - destruct (Fee.student_id x =? sid')%Z; [f_equal|]; exact IH.
Qed.

Lemma filter_idem {A} (f : A -> bool) (l : list A) :
  filter f (filter f l) = filter f l.
Proof.
  induction l as [|x l IH]; simpl; [reflexivity|].
  destruct (f x) eqn:E; simpl; rewrite ?E, IH; reflexivity.
Qed.

(** X11. [POST /student/<id>/edit] rewrites one student and nothing
    else. For a rowid that the database can hold ([url_id]), no photo
    uploaded and a total fee that is blank or a finite number ([q],
    which is 20000 when the field is blank) the answer is the redirect;
    no fee entry, rowid or roll number changes; the profile of every
    other rowid is what it was; the profile of the edited rowid keeps
    its entries and its paid figure, shows the new name and total fee,
    and its due is computed from the new total fee and that paid
    figure; and when no student has the rowid the database is unchanged
    (the answer is the redirect all the same). *)
Theorem X11_edit_rewrites_one_student sid now form db q :
  url_id sid ->
  EditForm.photo form = None ->
  Py.float_or (EditForm.total_fee form) 20000%Q = inr q ->
  snd (edit_student sid now form db) = redirect to_students /\
  (EditForm.total_fee form = Py.Blank -> q = 20000%Q) /\
  fees_rows (fst (fst (edit_student sid now form db))) = fees_rows db /\
  map Student.id (students_rows (fst (fst (edit_student sid now form db))))
    = map Student.id (students_rows db) /\
  map Student.roll_no
      (students_rows (fst (fst (edit_student sid now form db))))
    = map Student.roll_no (students_rows db) /\
  (forall sid', url_id sid' -> sid' <> sid ->
     student_profile sid' (fst (fst (edit_student sid now form db))) =
     student_profile sid' db) /\
  (forall p, student_profile sid db = Some p ->
     exists p',
       student_profile sid (fst (fst (edit_student sid now form db)))
         = Some p' /\
       Student.id (Profile.s p') = sid /\
       Student.roll_no (Profile.s p') = Student.roll_no (Profile.s p) /\
       Student.name (Profile.s p') = EditForm.name form /\
       Student.total_fee (Profile.s p') = Some q /\
       Profile.fees p' = Profile.fees p /\
       Profile.paid p' = Profile.paid p /\
       Profile.due p' = (Py.or0 (Some q) - Profile.paid p)%Q) /\
  (student_profile sid db = None ->
   fst (fst (edit_student sid now form db)) = db).
Proof.
  intros _ _ Hq.
  destruct (edit_student_db sid now form db) as (Hfees & Hids & Hrolls).
  destruct (edit_student_unfold sid now form db q Hq)
    as (filename & saved & Hedit).
  rewrite Hedit in *. cbn [fst snd] in *.
  split; [reflexivity|]. split.
  { intros E. rewrite E in Hq. injection Hq as <-. reflexivity. }
  split; [exact Hfees|]. split; [exact Hids|]. split; [exact Hrolls|].
  split; [|split].
  - intros sid' _ Hne. apply student_profile_ext; [|reflexivity].
    cbn [students_rows]. rewrite find_update_student.
    destruct (find _ _) as [s|] eqn:Hfind; [|reflexivity].
    apply find_some in Hfind. destruct Hfind as [_ Hid].
    apply Z.eqb_eq in Hid. cbn [option_map]. f_equal.
    unfold update_student.
    destruct (Z.eqb_spec (Student.id s) sid); [congruence|reflexivity].
  - intros p Hp. unfold student_profile in *.
    cbn [students_rows]. rewrite find_update_student.
    destruct (find _ _) as [s|] eqn:Hfind; [|discriminate].
    injection Hp as <-. apply find_some in Hfind.
    destruct Hfind as [_ Hid]. cbn [option_map]. eexists.
    split; [reflexivity|].
    cbn [Profile.s Profile.fees Profile.paid Profile.due].
    unfold update_student. rewrite Hid.
    cbn [Student.id Student.roll_no Student.name Student.total_fee].
    apply Z.eqb_eq in Hid.
    repeat split; auto.
  - intros Hnone. unfold student_profile in Hnone.
    destruct (find _ _) as [s|] eqn:Hfind; [discriminate|].
    destruct db as [ss sq fs fq]. cbn [students_rows students_seq
                                       fees_rows fees_seq] in *.
    f_equal. rewrite <- (map_id ss) at 2. apply map_ext_in.
    intros s Hs. unfold update_student.
    rewrite (find_none _ _ Hfind s Hs). reflexivity.
Qed.

Section OneStudent.

Variable send_sms : string -> string -> option Py.exn.
Variable send_email : string -> string -> string -> option Py.exn.
Variable str_float : Q -> string.

Local Abbreviation step := (db_after send_sms send_email str_float).
Local Abbreviation reach := (reachable send_sms send_email str_float).
Local Abbreviation pay := (fees send_sms send_email str_float).

(** X12. [POST /student/<id>/delete] removes one student and nothing
    else: for a rowid that the database can hold ([url_id]) the answer
    is the redirect; the profile of every other rowid is what it was;
    deleting twice is deleting once; and in a reachable state, when no
    student has the rowid, the database is unchanged. *)
Theorem X12_delete_removes_one_student db sid :
  reach db ->
  url_id sid ->
  snd (delete_student sid db) = redirect to_students /\
  (forall sid', url_id sid' -> sid' <> sid ->
     student_profile sid' (step (POST_delete sid) db) =
     student_profile sid' db) /\
  step (POST_delete sid) (step (POST_delete sid) db) =
    step (POST_delete sid) db /\
  (student_profile sid db = None -> step (POST_delete sid) db = db).
Proof.
  intros Hreach _.
  pose proof (reachable_consistent _ _ _ db Hreach) as Hc.
  split; [reflexivity|]. unfold db_after.
  cbn [handle delete_student fst].
  split; [|split].
  - intros sid' _ Hne.
    apply student_profile_ext; cbn [students_rows fees_rows].
    + apply find_filter_other. exact Hne.
    + apply filter_fees_other. exact Hne.
  - cbn [students_rows fees_rows students_seq fees_seq].
    rewrite !filter_idem. reflexivity.
  - intros Hnone. unfold student_profile in Hnone.
    destruct (find _ _) as [s|] eqn:Hfind; [discriminate|].
    pose proof (fees_owned db Hc) as RI.
    destruct db as [ss sq fs fq].
    cbn [students_rows students_seq fees_rows fees_seq] in *.
    f_equal; apply filter_all.
    + intros s Hs. rewrite (find_none _ _ Hfind s Hs). reflexivity.
    + intros f Hf. destruct (RI f Hf) as (s & Hs & Hid).
      cbn [students_rows] in Hs.
      rewrite <- Hid, (find_none _ _ Hfind s Hs). reflexivity.
Qed.

(** X13. A payment touches one student: when [POST /fees] accepts a
    payment, no student row changes and the profile (entries, paid and
    due) of every student other than the one found by roll number is
    what it was. *)
Theorem X13_payment_touches_one_student now form db a stud :
  FeesForm.amount form = Py.Num a ->
  find (fun s => Student.roll_no s =? FeesForm.roll form)
       (students_rows db) = Some stud ->
  students_rows (fst (fst (pay now form db))) = students_rows db /\
  forall sid', sid' <> Student.id stud ->
    student_profile sid' (fst (fst (pay now form db))) =
    student_profile sid' db.
Proof.
  intros Ha Hfind.
  destruct (fees_accepts send_sms send_email str_float now form db a stud
              Ha Hfind) as [-> _].
  split; [reflexivity|].
  intros sid' Hne. apply student_profile_ext; [reflexivity|].
  rewrite insert_fee_rows, filter_app. simpl.
  destruct (Z.eqb_spec (Student.id stud) sid'); [congruence|].
  apply app_nil_r.
Qed.

(** X14. A new student owes the whole fee. In a reachable state, an
    admission without a photo and with a roll number no stored student
    has (total fee blank or a finite number: [q], which is 20000 when
    the field is blank) stores a student whose rowid is above every
    stored one; the roll number then resolves to that student, and the
    student's profile has no entries, paid 0 and due [q]: no entry of a
    student deleted earlier is attached to the new rowid. *)
Theorem X14_new_student_owes_total_fee now form db q :
  reach db ->
  AdmissionForm.photo form = None ->
  Py.float_or (AdmissionForm.total_fee form) 20000%Q = inr q ->
  (forall s, In s (students_rows db) ->
     Student.roll_no s <> AdmissionForm.roll form) ->
  exists s,
    students_rows (fst (fst (admission send_sms send_email now form db))) =
      (students_rows db ++ [s])%list /\
    (forall s0, In s0 (students_rows db) ->
       (Student.id s0 < Student.id s)%Z) /\
    (AdmissionForm.total_fee form = Py.Blank -> q = 20000%Q) /\
    find (fun s => Student.roll_no s =? AdmissionForm.roll form)
         (students_rows
            (fst (fst (admission send_sms send_email now form db))))
      = Some s /\
    Student.name s = AdmissionForm.name form /\
    Student.total_fee s = Some q /\
    exists p,
      student_profile (Student.id s)
        (fst (fst (admission send_sms send_email now form db))) = Some p /\
      Profile.s p = s /\ Profile.fees p = [] /\
      Profile.paid p = 0%Q /\ (Profile.due p == q)%Q.
Proof.
  intros Hreach _ Hq Hfresh.
  pose proof (reachable_consistent _ _ _ db Hreach) as Hc.
  destruct (admission_unfold send_sms send_email now form db q Hq)
    as (photo & saved & _ & Hadm).
  destruct (insert_student _ _ _ _ _ _ _ _ _) as [e|db'] eqn:Hins.
  { unfold insert_student in Hins.
    destruct (existsb _ _) eqn:E; [|discriminate].
    apply existsb_exists in E. destruct E as (s & Hs & Heq).
    apply String.eqb_eq in Heq. destruct (Hfresh s Hs Heq). }
  destruct Hadm as (t & subj & body & ->). cbn [fst].
  apply insert_student_inr in Hins. destruct Hins as [_ ->].
  cbn [students_rows fees_rows].
  destruct (next_rowid_fresh (map Student.id (students_rows db))
              (students_seq db)) as [Hnew Hseq].
  rewrite Forall_forall in Hnew.
  eexists. split; [reflexivity|]. cbn [Student.id Student.name
                                      Student.total_fee].
  split.
  { intros s0 Hs0. apply Hnew. apply in_map. exact Hs0. }
  split.
  { intros E. rewrite E in Hq. injection Hq as <-. reflexivity. }
  split.
  { rewrite find_app_skip.
    - simpl. rewrite String.eqb_refl. reflexivity.
    - intros s0 Hs0. apply String.eqb_neq. apply Hfresh. exact Hs0. }
  split; [reflexivity|]. split; [reflexivity|].
  assert (Hnone :
    filter (fun f => (Fee.student_id f =?
              Sql.next_rowid (map Student.id (students_rows db))
                             (students_seq db))%Z) (fees_rows db) = []).
  { apply filter_none. intros f Hf. apply Z.eqb_neq.
    destruct (fees_owned db Hc f Hf) as (s0 & Hs0 & Hid).
    rewrite <- Hid. specialize (Hnew _ (in_map Student.id _ _ Hs0)). lia. }
  unfold student_profile, fees_of, sum_paid.
  cbn [students_rows fees_rows]. rewrite Hnone.
  rewrite find_app_skip.
  2:{ intros s0 Hs0. apply Z.eqb_neq.
      specialize (Hnew _ (in_map Student.id _ _ Hs0)). lia. }
  simpl find. rewrite Z.eqb_refl.
  eexists. split; [reflexivity|].
  cbn [Profile.s Profile.fees Profile.paid Profile.due Student.total_fee].
  repeat split. rewrite or0_some. cbn. lra.
Qed.

End OneStudent.

(** ** Delivery attempts *)

Section Deliveries.

Variable send_sms : string -> string -> option Py.exn.
Variable send_email : string -> string -> string -> option Py.exn.
Variable str_float : Q -> string.

Lemma notify_counts (phone email t subj body label : string) :
  let ev :=
    Eff.try_print
      (Eff.when (Py.truthy phone) (call_sms send_sms phone t) ;;
       Eff.when (Py.truthy email) (call_email send_email email subj body))
      label in
  sms_attempts ev = (if Py.truthy phone then 1 else 0)%nat /\
  email_attempts ev =
    (if Py.truthy email
     then if Py.truthy phone
          then match send_sms phone t with None => 1 | Some _ => 0 end
          else 1
     else 0)%nat /\
  (forall p' t', In (SmsAttempt p' t') ev ->
     Py.truthy phone = true /\ p' = phone /\ t' = t) /\
  (Py.truthy phone = true -> In (SmsAttempt phone t) ev).
Proof.
  unfold call_sms, call_email, Eff.when, Eff.try_print, Eff.bind, Eff.ret.
  destruct (Py.truthy phone), (Py.truthy email);
    try destruct (send_sms phone t) as [e1|];
    try destruct (send_email email subj body) as [e2|];
    cbn; repeat split; intros;
    repeat match goal with
           | H : _ \/ _ |- _ => destruct H
           | H : False |- _ => destruct H
           end;
    try congruence; auto.
Qed.

Lemma saved_counts (saved ev : list event) :
  (forall e, In e saved -> exists f, e = SavedUpload f) ->
  sms_attempts (saved ++ ev) = sms_attempts ev /\
  email_attempts (saved ++ ev) = email_attempts ev /\
  (forall p t, In (SmsAttempt p t) (saved ++ ev) ->
     In (SmsAttempt p t) ev) /\
  (forall ad s b, In (EmailAttempt ad s b) (saved ++ ev) ->
     In (EmailAttempt ad s b) ev).
Proof.
  intros Hsaved. unfold sms_attempts, email_attempts.
  rewrite !filter_app, !length_app.
  rewrite (filter_none _ saved), (filter_none _ saved).
  - repeat split; intros; (apply in_app_or in H; destruct H as [H|H];
      [destruct (Hsaved _ H); discriminate|exact H]).
  - intros e He. destruct (Hsaved e He) as [f ->]. reflexivity.
  - intros e He. destruct (Hsaved e He) as [f ->]. reflexivity.
Qed.

(** X15. Each request makes at most one attempt per channel and never
    retries. For a payment [POST /fees] accepts: exactly one SMS attempt
    when the student has a phone number and none otherwise; at most one
    e-mail attempt; when the SMS attempt raises, no e-mail is attempted
    even if the student has an address; when the student has an address
    and no SMS attempt raised, exactly one e-mail is attempted. *)
Theorem X15_one_attempt_per_channel now form db a stud :
  FeesForm.amount form = Py.Num a ->
  find (fun s => Student.roll_no s =? FeesForm.roll form)
       (students_rows db) = Some stud ->
  sms_attempts (snd (fst (fees send_sms send_email str_float now form db)))
    = (if Py.truthy (Student.phone stud) then 1 else 0)%nat /\
  (email_attempts
     (snd (fst (fees send_sms send_email str_float now form db))) <= 1)%nat /\
  (forall p t e,
     In (SmsAttempt p t)
        (snd (fst (fees send_sms send_email str_float now form db))) ->
     send_sms p t = Some e ->
     email_attempts
       (snd (fst (fees send_sms send_email str_float now form db))) = 0%nat)
  /\
  (Student.email stud <> "" ->
   (forall p t,
      In (SmsAttempt p t)
         (snd (fst (fees send_sms send_email str_float now form db))) ->
      send_sms p t = None) ->
   email_attempts
     (snd (fst (fees send_sms send_email str_float now form db))) = 1%nat).
Proof.
  intros Ha Hfind.
  destruct (fees_unfold send_sms send_email str_float now form db a stud
              Ha Hfind) as (t & subj & body & ->).
  cbn [fst snd].
  destruct (notify_counts (Student.phone stud) (Student.email stud)
              t subj body "Notification send error (fees):")
    as (Hsms & Hmail & Hin & Hsent).
  cbv zeta in *. rewrite Hsms, Hmail.
  split; [reflexivity|]. split.
  { destruct (Py.truthy (Student.email stud)),
             (Py.truthy (Student.phone stud)),
             (send_sms (Student.phone stud) t); lia. }
  split.
  { intros p t' e Hp He. destruct (Hin p t' Hp) as (-> & -> & ->).
    rewrite He. destruct (Py.truthy (Student.email stud)); reflexivity. }
  intros Hne Hok.
  assert (He : Py.truthy (Student.email stud) = true)
    by (destruct (Student.email stud); [congruence|reflexivity]).
  rewrite He.
  destruct (Py.truthy (Student.phone stud)) eqn:Hp; [|reflexivity].
  rewrite (Hok _ _ (Hsent eq_refl)). reflexivity.
Qed.

(** X16. An admission is stored whatever the deliveries do. Without a
    photo, for a total fee that is blank or a finite number and a roll
    number no stored student has, [POST /admission] stores the student
    and answers with the redirect, the database and the answer being
    those of any other pair of delivery functions; an exception raised
    by a delivery is printed and goes no further; a blank phone (e-mail)
    field causes no SMS (no e-mail) attempt; and there is at most one
    attempt per channel. *)
Theorem X16_admission_independent_of_notification now form db q :
  AdmissionForm.photo form = None ->
  Py.float_or (AdmissionForm.total_fee form) 20000%Q = inr q ->
  (forall s, In s (students_rows db) ->
     Student.roll_no s <> AdmissionForm.roll form) ->
  let '(db', ev, r) := admission send_sms send_email now form db in
  r = redirect to_students /\
  (exists s,
     students_rows db' = (students_rows db ++ [s])%list /\
     Student.roll_no s = AdmissionForm.roll form) /\
  (forall sms' email',
     fst (fst (admission sms' email' now form db)) = db' /\
     snd (admission sms' email' now form db) = r) /\
  (forall p t e, In (SmsAttempt p t) ev -> send_sms p t = Some e ->
     In (Printed "Notification send error (admission):" e) ev) /\
  (forall ad s b e, In (EmailAttempt ad s b) ev ->
     send_email ad s b = Some e ->
     In (Printed "Notification send error (admission):" e) ev) /\
  (AdmissionForm.phone form = "" -> sms_attempts ev = 0%nat) /\
  (AdmissionForm.email form = "" -> email_attempts ev = 0%nat) /\
  (sms_attempts ev <= 1)%nat /\ (email_attempts ev <= 1)%nat.
Proof.
  intros _ Hq Hfresh.
  assert (Hins : forall photo, exists db',
             insert_student (AdmissionForm.name form)
               (AdmissionForm.roll form) (AdmissionForm.course form)
               (AdmissionForm.year form) (AdmissionForm.email form)
               (AdmissionForm.phone form) q photo db = inr db').
  { intros photo. unfold insert_student.
    destruct (existsb _ _) eqn:E; [|eexists; reflexivity].
    apply existsb_exists in E. destruct E as (s & Hs & Heq).
    apply String.eqb_eq in Heq. destruct (Hfresh s Hs Heq). }
  destruct (admission_unfold send_sms send_email now form db q Hq)
    as (photo & saved & Hsaved & Hadm).
  destruct (Hins photo) as [db' Hdb']. rewrite Hdb' in Hadm.
  destruct Hadm as (t & subj & body & Hadm).
  assert (Hother : forall sms' email',
             fst (fst (admission sms' email' now form db)) = db' /\
             snd (admission sms' email' now form db) = redirect to_students).
  { intros sms' email'. unfold admission. rewrite Hq.
    unfold admission in Hadm. rewrite Hq in Hadm.
    destruct (AdmissionForm.photo form);
      destruct (insert_student _ _ _ _ _ _ _ _ _) as [e|d];
      try destruct e; cbn [fst snd] in *;
      try discriminate Hadm; injection Hadm as <- _; split; reflexivity. }
  rewrite Hadm.
  destruct (notify_counts (AdmissionForm.phone form)
              (AdmissionForm.email form) t subj body
              "Notification send error (admission):")
    as (Hsms & Hmail & _ & _).
  destruct (notify_block send_sms send_email (AdmissionForm.phone form)
              (AdmissionForm.email form) t subj body
              "Notification send error (admission):")
    as (_ & _ & N3 & N4).
  match goal with
  | |- context [(saved ++ ?b)%list] =>
      destruct (saved_counts saved b Hsaved) as (-> & -> & S3 & S4)
  end.
  cbv zeta in *. rewrite Hsms, Hmail.
  split; [reflexivity|]. split.
  { apply insert_student_inr in Hdb'. destruct Hdb' as [_ ->].
    eexists. split; reflexivity. }
  split; [exact Hother|]. split.
  { intros p t' e Hp He. apply in_or_app. right.
    apply (N3 p t' e); [apply S3; exact Hp|exact He]. }
  split.
  { intros ad s b e Hp He. apply in_or_app. right.
    apply (N4 ad s b e); [apply S4; exact Hp|exact He]. }
  split; [intros ->; reflexivity|].
  split; [intros ->; reflexivity|].
  destruct (Py.truthy (AdmissionForm.email form)),
           (Py.truthy (AdmissionForm.phone form)),
           (send_sms (AdmissionForm.phone form) t); split; lia.
Qed.

End Deliveries.

(** ** Search and the profile's entries *)

Lemma like_chars_self (q : string) : Sql.like_chars q q = true.
Proof.
  induction q as [|c q IH]; [reflexivity|].
  destruct (Ascii.eqb c "%") eqn:E.
  - apply Ascii.eqb_eq in E. subst c.
    rewrite like_percent_step. apply orb_true_iff. right.
    rewrite like_percent_step. rewrite IH. reflexivity.
  - rewrite like_char_step by exact E.
    rewrite Ascii.eqb_refl, orb_true_r. exact IH.
Qed.

Lemma like_self_prefix (q : string) : Sql.like_chars (q ++ "%") q = true.
Proof.
  induction q as [|c q IH]; [reflexivity|]. cbn [String.append].
  destruct (Ascii.eqb c "%") eqn:E.
  - apply Ascii.eqb_eq in E. subst c.
    rewrite like_percent_step. apply orb_true_iff. right.
    rewrite like_percent_step. rewrite IH. reflexivity.
  - rewrite like_char_step by exact E.
    rewrite Ascii.eqb_refl, orb_true_r. exact IH.
Qed.

Lemma upto_nul_append_percent (q : string) :
  Sql.upto_nul (q ++ "%") =
  if has_nul q then Sql.upto_nul q else q ++ "%".
Proof.
  induction q as [|c q IH]; [reflexivity|].
  cbn [String.append Sql.upto_nul has_nul].
  destruct (Ascii.eqb c Ascii.zero); [reflexivity|].
  cbn [orb]. rewrite IH. destruct (has_nul q); reflexivity.
Qed.

(** Every text matches the pattern made of itself between two [%]. *)
Lemma like_self_infix (q : string) : Sql.like ("%" ++ q ++ "%") q = true.
Proof.
  unfold Sql.like. cbn [String.append Sql.upto_nul].
  replace (Ascii.eqb "%" Ascii.zero) with false by reflexivity.
  rewrite upto_nul_append_percent, like_percent_step.
  destruct (has_nul q) eqn:E.
  - rewrite like_chars_self. reflexivity.
  - rewrite (upto_nul_id q E), like_self_prefix. reflexivity.
Qed.

Lemma total_insert_desc (x : Fee.row) (l : list Fee.row) :
  (total (Sql.insert_desc Fee.id x l) == Fee.amount x + total l)%Q.
Proof.
  induction l as [|y l IH]; simpl; [reflexivity|].
  destruct (_ <? _)%Z; simpl; [reflexivity|]. rewrite IH. lra.
Qed.

Lemma total_order_by_desc (l : list Fee.row) :
  (total (Sql.order_by_desc Fee.id l) == total l)%Q.
Proof.
  induction l as [|x l IH]; simpl; [reflexivity|].
  rewrite total_insert_desc, IH. reflexivity.
Qed.

Section Search.

Variable send_sms : string -> string -> option Py.exn.
Variable send_email : string -> string -> string -> option Py.exn.
Variable str_float : Q -> string.

Local Abbreviation reach := (reachable send_sms send_email str_float).

(** X17. [POST /search], with [q] the text stripped of surrounding
    white space: the answer is empty exactly when no student has roll
    number [q] (letter for letter) or a name that [LIKE] matches with
    [%q%], where [LIKE] reads [q] and the name up to their first NUL (a
    [q] that begins with NUL is the pattern [%] and matches every
    name); a student it shows is a stored student that matches, and in a
    reachable state what it shows for that student (entries, paid, due)
    is the student's profile page. *)
Theorem X17_search_finds_a_match form_q db :
  reach db ->
  (search form_q db = None <->
   forall s, In s (students_rows db) ->
     Student.roll_no s <> Py.strip form_q /\
     Sql.like ("%" ++ Py.strip form_q ++ "%") (Student.name s) = false) /\
  (forall p, search form_q db = Some p ->
     In (Profile.s p) (students_rows db) /\
     (Student.roll_no (Profile.s p) = Py.strip form_q \/
      Sql.like ("%" ++ Py.strip form_q ++ "%")
               (Student.name (Profile.s p)) = true) /\
     student_profile (Student.id (Profile.s p)) db = Some p).
Proof.
  intros Hreach.
  pose proof (reachable_consistent _ _ _ db Hreach) as Hc.
  unfold search. cbv zeta.
  destruct (find _ _) as [s|] eqn:Hfind.
  - apply find_some in Hfind. destruct Hfind as [Hin Hm].
    apply orb_true_iff in Hm. rewrite String.eqb_eq in Hm.
    split.
    + split; [discriminate|]. intros H. exfalso.
      destruct (H s Hin) as [H1 H2]. destruct Hm; congruence.
    + intros p Hp. injection Hp as <-. cbn [Profile.s].
      split; [exact Hin|]. split; [exact Hm|].
      unfold student_profile.
      rewrite (find_by_key Student.id _ s (students_sorted db Hc) Hin).
      reflexivity.
  - split; [|discriminate]. split; [|reflexivity].
    intros _ s Hin. pose proof (find_none _ _ Hfind s Hin) as Hm.
    apply orb_false_iff in Hm. destruct Hm as [H1 H2].
    apply String.eqb_neq in H1. auto.
Qed.

(** X18. What search finds, the dues report lists: for the same query
    text, the student [POST /search] shows is among the students of
    [GET /reports/dues], with the same paid and due figures. *)
Theorem X18_search_result_in_dues_report text db p :
  search text db = Some p ->
  exists r,
    In r (dues_report (Some text) db) /\
    Dues.student r = Profile.s p /\
    Dues.paid r = Profile.paid p /\
    Dues.due r = Profile.due p.
Proof.
  unfold search, dues_report. cbv zeta.
  destruct (find _ _) as [s|] eqn:Hfind; [|discriminate].
  intros Hp. injection Hp as <-.
  apply find_some in Hfind. destruct Hfind as [Hin Hm].
  eexists. split.
  - apply in_map. instantiate (1 := s).
    destruct (Py.truthy (Py.strip text)) eqn:Ht;
      apply order_by_desc_In; [|exact Hin].
    apply filter_In. split; [exact Hin|].
    apply orb_true_iff in Hm. apply orb_true_iff.
    destruct Hm as [Hm|Hm]; [left|right; exact Hm].
    apply String.eqb_eq in Hm. rewrite Hm. apply like_self_infix.
  - repeat split.
Qed.

(** X19. The profile page adds up: in a reachable state the entries it
    lists are the student's fee entries, newest first, and the paid
    figure is the sum of the amounts listed. *)
Theorem X19_profile_lists_what_it_sums sid db p :
  reach db ->
  student_profile sid db = Some p ->
  Profile.fees p = rev (entries_of db sid) /\
  (forall f, In f (Profile.fees p) <->
     In f (fees_rows db) /\ Fee.student_id f = sid) /\
  (Profile.paid p == total (Profile.fees p))%Q.
Proof.
  intros Hreach Hp.
  pose proof (reachable_consistent _ _ _ db Hreach) as Hc.
  unfold student_profile in Hp.
  destruct (find _ _) as [s|]; [|discriminate].
  injection Hp as <-. cbn [Profile.fees Profile.paid].
  unfold fees_of, entries_of.
  split; [|split].
  - apply (order_by_desc_sorted Fee.id).
    apply StronglySorted_filter. exact (fees_sorted db Hc).
  - intros f. rewrite order_by_desc_In, filter_In, Z.eqb_eq. reflexivity.
  - rewrite total_order_by_desc. apply sum_paid_total.
Qed.

End Search.

(** ** The properties above on the example ledger *)

Lemma two_students_reachable :
  reachable Ex.sms_ok Ex.email_ok Ex.show Ex2.two_students.
Proof.
  unfold Ex2.two_students. apply reach_step. exact ledger_reachable.
Defined.

Lemma X1_keys_name_one_row_witness :
  find (fun s => Student.roll_no s =? "CS102")
       (students_rows Ex2.two_students) = Some Ex2.cs102 /\
  Ex2.cs102 = Ex2.cs102.
Proof.
  split; [reflexivity|].
  exact (proj2 (proj2 (proj2
           (X1_keys_name_one_row Ex.sms_ok Ex.email_ok Ex.show
              Ex2.two_students two_students_reachable)))
           "CS102" Ex2.cs102 Ex2.cs102 eq_refl
           (or_intror (or_introl eq_refl)) eq_refl).
Defined.

Lemma X2_deleted_id_never_returns_witness :
  student_profile 1
    (run Ex.sms_ok Ex.email_ok Ex.show
       [POST_admission Ex.noon Ex.admit_cs101]
       (db_after Ex.sms_ok Ex.email_ok Ex.show (POST_delete 1)
          Ex2.two_students)) = None /\
  map Student.id
    (students_rows
       (run Ex.sms_ok Ex.email_ok Ex.show
          [POST_admission Ex.noon Ex.admit_cs101]
          (db_after Ex.sms_ok Ex.email_ok Ex.show (POST_delete 1)
             Ex2.two_students))) = [2; 3]%Z.
Proof.
  assert (Hle : (1 <= students_seq Ex2.two_students)%Z)
    by (vm_compute; discriminate).
  split; [|reflexivity].
  exact (proj1 (proj2
           (X2_deleted_id_never_returns Ex.sms_ok Ex.email_ok Ex.show
              Ex2.two_students 1%Z
              [POST_admission Ex.noon Ex.admit_cs101]
              two_students_reachable Hle))).
Defined.

Lemma X3_receipt_shows_payment_witness :
  exists fee_id,
    snd (Ex.paid_at_noon 15000%Q Ex.ledger) = redirect (to_receipt fee_id) /\
    receipt fee_id (fst (fst (Ex.paid_at_noon 15000%Q Ex.ledger))) =
    Some {| Receipt.fee :=
              Fee.mk fee_id 1 15000%Q "2024-03-15 12:00:00" "cash" "";
            Receipt.name := "Asha"; Receipt.roll_no := "CS101";
            Receipt.course := "CSE"; Receipt.phone := "" |}.
Proof.
  exact (X3_receipt_shows_payment Ex.sms_ok Ex.email_ok Ex.show Ex.noon
           (Ex.pay_cs101 15000%Q) Ex.ledger 15000%Q Ex.cs101
           ledger_reachable eq_refl eq_refl).
Defined.

Lemma X4_receipt_iff_entry_witness :
  receipt 7 Ex.ledger = None /\
  In (Receipt.fee
        (Receipt.mk Ex2.first_payment "Asha" "CS101" "CSE" ""))
     (fees_rows Ex.ledger).
Proof.
  assert (H7 : url_id 7) by (unfold url_id; lia).
  assert (H1 : url_id 1) by (unfold url_id; lia).
  destruct (X4_receipt_iff_entry Ex.sms_ok Ex.email_ok Ex.show
              Ex.ledger 7%Z ledger_reachable H7) as [[_ Hnone] _].
  destruct (X4_receipt_iff_entry Ex.sms_ok Ex.email_ok Ex.show
              Ex.ledger 1%Z ledger_reachable H1) as [_ Hsome].
  split.
  - apply Hnone. intros f [<-|[]]. discriminate.
  - exact (proj1 (Hsome _ eq_refl)).
Defined.

Lemma X5_delete_drops_own_receipts_witness :
  receipt 1 Ex.ledger <> None /\
  receipt 1 (db_after Ex.sms_ok Ex.email_ok Ex.show (POST_delete 1)
               Ex.ledger) = None.
Proof.
  split; [discriminate|].
  exact (proj1 (X5_delete_drops_own_receipts Ex.sms_ok Ex.email_ok Ex.show
                  Ex.ledger 1%Z Ex2.first_payment ledger_reachable
                  (or_introl eq_refl)) eq_refl).
Defined.

Lemma X6_fee_listings_witness :
  fees_list Ex.ledger = rev (export_fees Ex.ledger) /\
  map FeeLine.id (export_fees Ex.ledger) = [1%Z].
Proof.
  destruct (X6_fee_listings Ex.sms_ok Ex.email_ok Ex.show Ex.ledger
              ledger_reachable) as (H1 & H2 & _).
  split; [exact H1|exact H2].
Defined.

Lemma X7_student_listings_witness :
  students Ex2.two_students = [Ex2.cs102; Ex.cs101] /\
  map StudentsCsv.id (export_students Ex2.two_students) = [1; 2]%Z.
Proof.
  destruct (X7_student_listings Ex.sms_ok Ex.email_ok Ex.show
              Ex2.two_students two_students_reachable) as (H1 & H2 & _).
  split; [exact H1|exact H2].
Defined.

Lemma X8_collection_rows_are_paid_rows_witness :
  Permutation
    (flat_map (fun s => entries_of Ex2.two_students (Student.id s))
              (students_rows Ex2.two_students))
    (fees_rows Ex2.two_students) /\
  Dashboard.total_collection (dashboard Ex.noon Ex.noon Ex2.two_students) =
    Sql.IFNULL (Sql.SUM (map Fee.amount (fees_rows Ex2.two_students))) 0%Q.
Proof.
  destruct (X8_collection_rows_are_paid_rows Ex.sms_ok Ex.email_ok Ex.show
              Ex.noon Ex.noon Ex2.two_students two_students_reachable)
    as (H1 & _ & _ & _ & _ & _ & H2 & _).
  split; [exact H1|exact H2].
Defined.

Lemma X9_today_month_total_ordered_witness :
  (Dashboard.today_collection (dashboard Ex2.evening Ex2.evening Ex.ledger)
   <= Dashboard.month_collection
        (dashboard Ex2.evening Ex2.evening Ex.ledger))%Q /\
  (Dashboard.month_collection (dashboard Ex2.evening Ex2.evening Ex.ledger)
   <= Dashboard.total_collection
        (dashboard Ex2.evening Ex2.evening Ex.ledger))%Q.
Proof.
  assert (Hpos : Forall (fun f => (0 <= Fee.amount f)%Q)
                        (fees_rows Ex.ledger)).
  { constructor; [vm_compute; discriminate|constructor]. }
  exact (proj2 (X9_today_month_total_ordered Ex2.evening Ex.ledger Hpos)).
Defined.

Lemma X10_payment_counts_on_its_day_witness :
  exists fee_id,
    dated (fst (fst (Ex.paid_at_noon 5000%Q Ex.db1)))
          (Clock.fmt_day Ex.noon ++ "%") =
      (dated Ex.db1 (Clock.fmt_day Ex.noon ++ "%") ++
       [Fee.mk fee_id 1 5000%Q "2024-03-15 12:00:00" "cash" ""])%list /\
    Dashboard.today_collection
      (dashboard Ex2.evening Ex.noon
         (fst (fst (Ex.paid_at_noon 5000%Q Ex.db1)))) =
    Dashboard.today_collection (dashboard Ex2.evening Ex.noon Ex.db1).
Proof.
  assert (Hne : Clock.fmt_day Ex2.evening <> Clock.fmt_day Ex.noon)
    by discriminate.
  destruct (X10_payment_counts_on_its_day Ex.sms_ok Ex.email_ok Ex.show
              Ex.noon (Ex.pay_cs101 5000%Q) Ex.db1 5000%Q Ex.cs101
              Ex.noon Ex.noon eq_refl eq_refl)
    as (fee_id & _ & _ & _ & _ & Hday & _).
  destruct (X10_payment_counts_on_its_day Ex.sms_ok Ex.email_ok Ex.show
              Ex.noon (Ex.pay_cs101 5000%Q) Ex.db1 5000%Q Ex.cs101
              Ex2.evening Ex.noon eq_refl eq_refl)
    as (_ & _ & _ & _ & _ & _ & Hother & _).
  exists fee_id. split.
  - exact (Hday eq_refl).
  - exact (proj2 (Hother Hne)).
Defined.

Lemma X11_edit_rewrites_one_student_witness :
  exists p',
    student_profile 1
      (fst (fst (edit_student 1 Ex.noon (Ex2.edit_fee 30000%Q) Ex.ledger)))
      = Some p' /\
    Student.name (Profile.s p') = "Asha Rao" /\
    Profile.due p' =
      (Py.or0 (Some 30000%Q) - Profile.paid Ex2.profile_paid)%Q.
Proof.
  assert (H1 : url_id 1) by (unfold url_id; lia).
  destruct (X11_edit_rewrites_one_student 1%Z Ex.noon
              (Ex2.edit_fee 30000%Q) Ex.ledger 30000%Q H1 eq_refl eq_refl)
    as (_ & _ & _ & _ & _ & _ & Hp & _).
  destruct (Hp Ex2.profile_paid eq_refl)
    as (p' & Hp' & _ & _ & H2 & _ & _ & _ & H3).
  exists p'. split; [exact Hp'|]. split; [exact H2|exact H3].
Defined.

Lemma X12_delete_removes_one_student_witness :
  db_after Ex.sms_ok Ex.email_ok Ex.show (POST_delete 9) Ex.ledger
    = Ex.ledger /\
  student_profile 1
    (db_after Ex.sms_ok Ex.email_ok Ex.show (POST_delete 2)
       Ex2.two_students) = student_profile 1 Ex2.two_students.
Proof.
  assert (Hne : (1 <> 2)%Z) by discriminate.
  assert (H9 : url_id 9) by (unfold url_id; lia).
  assert (H2 : url_id 2) by (unfold url_id; lia).
  assert (H1 : url_id 1) by (unfold url_id; lia).
  split.
  - exact (proj2 (proj2 (proj2
             (X12_delete_removes_one_student Ex.sms_ok Ex.email_ok Ex.show
                Ex.ledger 9%Z ledger_reachable H9))) eq_refl).
  - exact (proj1 (proj2
             (X12_delete_removes_one_student Ex.sms_ok Ex.email_ok Ex.show
                Ex2.two_students 2%Z two_students_reachable H2))
             1%Z H1 Hne).
Defined.

Lemma X13_payment_touches_one_student_witness :
  student_profile 2 (fst (fst (Ex.paid_at_noon 15000%Q Ex2.two_students)))
  = student_profile 2 Ex2.two_students.
Proof.
  assert (Hne : (2 <> Student.id Ex.cs101)%Z) by discriminate.
  exact (proj2 (X13_payment_touches_one_student Ex.sms_ok Ex.email_ok
                  Ex.show Ex.noon (Ex.pay_cs101 15000%Q) Ex2.two_students
                  15000%Q Ex.cs101 eq_refl eq_refl) 2%Z Hne).
Defined.

Lemma X14_new_student_owes_total_fee_witness :
  exists s p,
    students_rows Ex2.two_students = (students_rows Ex.ledger ++ [s])%list /\
    student_profile (Student.id s) Ex2.two_students = Some p /\
    Profile.fees p = [] /\ (Profile.due p == 15000)%Q.
Proof.
  assert (Hfresh : forall s, In s (students_rows Ex.ledger) ->
                     Student.roll_no s <> AdmissionForm.roll Ex2.admit_cs102).
  { intros s [<-|[]]. discriminate. }
  destruct (X14_new_student_owes_total_fee Ex.sms_ok Ex.email_ok Ex.show
              Ex.noon Ex2.admit_cs102 Ex.ledger 15000%Q
              ledger_reachable eq_refl eq_refl Hfresh)
    as (s & H1 & _ & _ & _ & _ & _ & p & H2 & _ & H3 & _ & H4).
  exists s, p. split; [exact H1|]. split; [exact H2|].
  split; [exact H3|exact H4].
Defined.

Lemma X15_one_attempt_per_channel_witness :
  Student.email Ex2.cs102 <> "" /\
  sms_attempts
    (snd (fst (fees Ex.sms_down Ex.email_ok Ex.show Ex.noon
                 (Ex2.pay_cs102 1000%Q) Ex2.two_students))) = 1%nat /\
  email_attempts
    (snd (fst (fees Ex.sms_down Ex.email_ok Ex.show Ex.noon
                 (Ex2.pay_cs102 1000%Q) Ex2.two_students))) = 0%nat.
Proof.
  destruct (X15_one_attempt_per_channel Ex.sms_down Ex.email_ok Ex.show
              Ex.noon (Ex2.pay_cs102 1000%Q) Ex2.two_students 1000%Q
              Ex2.cs102 eq_refl eq_refl) as (H1 & _ & H2 & _).
  split; [discriminate|]. split; [exact H1|].
  apply (H2 "9000000002"
            ("Hi Binod! ₹" ++ Ex.show 1000%Q
               ++ " fees received successfully.")
            (Py.Exception "gateway unreachable")).
  - left. reflexivity.
  - reflexivity.
Defined.

Lemma X16_admission_independent_of_notification_witness :
  snd (admission Ex.sms_down Ex2.email_down Ex.noon Ex2.admit_cs102
         Ex.ledger) = redirect to_students /\
  fst (fst (admission Ex.sms_down Ex2.email_down Ex.noon Ex2.admit_cs102
              Ex.ledger)) = Ex2.two_students.
Proof.
  assert (Hfresh : forall s, In s (students_rows Ex.ledger) ->
                     Student.roll_no s <> AdmissionForm.roll Ex2.admit_cs102).
  { intros s [<-|[]]. discriminate. }
  pose proof (X16_admission_independent_of_notification
                Ex.sms_ok Ex.email_ok Ex.noon Ex2.admit_cs102 Ex.ledger
                15000%Q eq_refl eq_refl Hfresh) as T.
  destruct (admission Ex.sms_ok Ex.email_ok Ex.noon Ex2.admit_cs102
              Ex.ledger) as [[db' ev] r] eqn:E.
  destruct T as (Hr & _ & Hany & _).
  destruct (Hany Ex.sms_down Ex2.email_down) as [H1 H2].
  split; [rewrite H2; exact Hr|].
  rewrite H1. unfold Ex2.two_students, db_after. cbn [handle].
  rewrite E. reflexivity.
Defined.

Lemma X17_search_finds_a_match_witness :
  search " CS101 " Ex.ledger = Some Ex2.profile_paid /\
  search (String Ascii.zero "zzz") Ex.ledger = Some Ex2.profile_paid /\
  student_profile 1 Ex.ledger = Some Ex2.profile_paid.
Proof.
  split; [reflexivity|]. split; [reflexivity|].
  exact (proj2 (proj2
           (proj2 (X17_search_finds_a_match Ex.sms_ok Ex.email_ok Ex.show
                     " CS101 " Ex.ledger ledger_reachable)
                  Ex2.profile_paid eq_refl))).
Defined.

Lemma X18_search_result_in_dues_report_witness :
  exists r,
    In r (dues_report (Some "asha") Ex.ledger) /\
    Dues.student r = Ex.cs101 /\
    Dues.paid r = Profile.paid Ex2.profile_paid /\
    Dues.due r = Profile.due Ex2.profile_paid.
Proof.
  exact (X18_search_result_in_dues_report "asha" Ex.ledger
           Ex2.profile_paid eq_refl).
Defined.

Lemma X19_profile_lists_what_it_sums_witness :
  Profile.fees Ex2.profile_paid = [Ex2.first_payment] /\
  (Profile.paid Ex2.profile_paid == total (Profile.fees Ex2.profile_paid))%Q.
Proof.
  destruct (X19_profile_lists_what_it_sums Ex.sms_ok Ex.email_ok Ex.show
              1%Z Ex.ledger Ex2.profile_paid ledger_reachable eq_refl)
    as (H1 & _ & H2).
  split; [exact H1|exact H2].
Defined.

(** ** Starting the application *)

(** X20. [init_db] is safe to run at every start: on a fresh file it
    creates the one user [admin] and the empty ledger; on any file the
    students and fee entries are kept; and once it has run, running it
    again (with whatever hash the new run generates) changes nothing, so
    the admin is not duplicated and a stored password is not reset. *)
Theorem X20_init_db_runs_once (hash hash' : string) (st : Store) :
  init_db_on hash fresh_store =
    {| users_rows := [User.mk 1 "admin" hash]; users_seq := 1;
       ledger_of := init_db |} /\
  ledger_of (init_db_on hash st) = ledger_of st /\
  users_rows (init_db_on hash st) <> [] /\
  (users_rows st <> [] -> init_db_on hash st = st) /\
  init_db_on hash' (init_db_on hash st) = init_db_on hash st.
Proof.
  split; [reflexivity|].
  destruct st as [[|u us] sq l]; unfold init_db_on;
    cbn [users_rows users_seq ledger_of List.length Z.of_nat Z.eqb];
    repeat split; try discriminate; congruence.
Qed.

Lemma X20_init_db_runs_once_witness :
  users_rows (init_db_on "h1" fresh_store) <> [] /\
  init_db_on "h2" (init_db_on "h1" fresh_store) =
    init_db_on "h1" fresh_store.
Proof.
  destruct (X20_init_db_runs_once "h2" "h1" (init_db_on "h1" fresh_store))
    as (_ & _ & _ & Hkeep & _).
  assert (Hne : users_rows (init_db_on "h1" fresh_store) <> [])
    by discriminate.
  split; [exact Hne|exact (Hkeep Hne)].
Defined.
